(** * Pyrestile: order-reconciliation gateway

    A shallow embedding of the order creation path ([main.py],
    [req_methods.py], the three adapters), of the order store
    ([database.py], [models.py]) and of the reconciliation sweep
    ([main.py], [check_order_status]), followed by the properties of the
    specification that concern them.

    Python values are modelled by [pyval]; code that can raise lives in the
    monad [M], which threads the database, the trace of outward effects and
    the counters that index the scripted environment. *)

From Stdlib Require Import List String Ascii ZArith Bool Lia DecimalString
  Permutation.
Import ListNotations.
Local Open Scope string_scope.
Local Open Scope Z_scope.

Set Implicit Arguments.
Set Warnings "-register-all".

(* ================================================================= *)
(** ** Python values *)

(** The floats that [json.loads] reads from the texts [NaN], [Infinity]
    and [-Infinity], and that a rendering with [allow_nan=False]
    refuses. *)
Inductive nonfinite : Type := NaN | Infinity | NegInfinity.

(** The values that flow through the program: what [response.json()] and
    [request.json()] produce (None, booleans, numbers, strings, lists,
    dicts), the tuple returned by the Jollymax creation path, and the two
    kinds of object that end up inside results: the [httpx] response and
    FastAPI's [JSONResponse].  Numbers are integers or one of the three
    floats above; a dict is the list of its items in insertion order. *)
Inductive pyval : Type :=
| PNone
| PBool (b : bool)
| PInt (z : Z)
| PFloat (x : nonfinite)
| PStr (s : string)
| PList (items : list pyval)
| PTuple (items : list pyval)
| PDict (kv : list (string * pyval))
| PHttpResponse (status_code : Z)
| PJSONResponse (status_code : Z) (content : pyval).

(** Exceptions that the modelled code can meet. *)
Inductive exn : Type :=
| KeyError (key : string)
| TypeError (what : string)
| ValueError (what : string)
| AttributeError (attr : string)
| IndexError
| TransportError (msg : string)
| JSONDecodeError
| OSError (file : string).

Inductive res (A : Type) : Type :=
| Val (a : A)
| Raise (e : exn).
Arguments Val {A} a.
Arguments Raise {A} e.

Definition res_bind {A B : Type} (r : res A) (k : A -> res B) : res B :=
  match r with
  | Val a => k a
  | Raise e => Raise e
  end.

Declare Scope res_scope.
Notation "x <- r ;; k" := (res_bind r (fun x => k))
  (at level 61, r at next level, right associativity) : res_scope.

(** Equality of lists, elementwise. *)
Fixpoint list_eqb {A : Type} (eqA : A -> A -> bool) (l1 l2 : list A) : bool :=
  match l1, l2 with
  | [], [] => true
  | x :: l1', y :: l2' => eqA x y && list_eqb eqA l1' l2'
  | _, _ => false
  end.

Definition nonfinite_eqb (x y : nonfinite) : bool :=
  match x, y with
  | NaN, NaN | Infinity, Infinity | NegInfinity, NegInfinity => true
  | _, _ => false
  end.

(** Structural equality, used where the store compares a column with a
    value. *)
Fixpoint pyval_eqb (a b : pyval) {struct a} : bool :=
  match a, b with
  | PNone, PNone => true
  | PBool x, PBool y => Bool.eqb x y
  | PInt x, PInt y => Z.eqb x y
  | PFloat x, PFloat y => nonfinite_eqb x y
  | PStr x, PStr y => String.eqb x y
  | PList x, PList y => list_eqb pyval_eqb x y
  | PTuple x, PTuple y => list_eqb pyval_eqb x y
  | PDict x, PDict y =>
      list_eqb (fun p q : string * pyval =>
                  String.eqb (fst p) (fst q) &&
                  match p with (_, v) => pyval_eqb v (snd q) end) x y
  | PHttpResponse x, PHttpResponse y => Z.eqb x y
  | PJSONResponse c x, PJSONResponse d y => Z.eqb c d && pyval_eqb x y
  | _, _ => false
  end.

(** [d.get(k)] on the items of a dict. *)
Fixpoint dict_get (k : string) (kv : list (string * pyval)) : option pyval :=
  match kv with
  | [] => None
  | (k', v) :: rest => if String.eqb k k' then Some v else dict_get k rest
  end.

(** [v[k]] with a string key. *)
Definition py_getitem (v : pyval) (k : string) : res pyval :=
  match v with
  | PDict kv =>
      match dict_get k kv with
      | Some x => Val x
      | None => Raise (KeyError k)
      end
  | PList _ | PTuple _ | PStr _ => Raise (TypeError "indices must be integers")
  | _ => Raise (TypeError "object is not subscriptable")
  end.

(** [v.get(k, default)]: only a dict has the method. *)
Definition py_get_default (v : pyval) (k : string) (default : pyval) : res pyval :=
  match v with
  | PDict kv =>
      match dict_get k kv with
      | Some x => Val x
      | None => Val default
      end
  | _ => Raise (AttributeError "get")
  end.

Definition py_get (v : pyval) (k : string) : res pyval :=
  py_get_default v k PNone.

(** [v[0]]. *)
Definition py_first (v : pyval) : res pyval :=
  match v with
  | PList (x :: _) | PTuple (x :: _) => Val x
  | PList [] | PTuple [] => Raise IndexError
  | PStr (String c _) => Val (PStr (String c EmptyString))
  | PStr EmptyString => Raise IndexError
  | PDict _ => Raise (KeyError "0")
  | _ => Raise (TypeError "object is not subscriptable")
  end.

(** Truth value of an object, as [if], [not], [and] and [all] use it. *)
Definition py_truthy (v : pyval) : bool :=
  match v with
  | PNone => false
  | PBool b => b
  | PInt z => negb (z =? 0)
  | PStr s => negb (String.eqb s "")
  | PList l | PTuple l => match l with [] => false | _ => true end
  | PDict kv => match kv with [] => false | _ => true end
  | PFloat _ | PHttpResponse _ | PJSONResponse _ _ => true
  end.

(** [v == True]: booleans are integers in Python, so [1 == True]. *)
Definition py_eq_true (v : pyval) : bool :=
  match v with
  | PBool b => b
  | PInt z => z =? 1
  | _ => false
  end.

(** [v == s] for a string literal [s]. *)
Definition py_eq_str (v : pyval) (s : string) : bool :=
  match v with
  | PStr s' => String.eqb s' s
  | _ => false
  end.

(** [v in statuses] for a list of strings. *)
Definition py_in_strs (v : pyval) (statuses : list string) : bool :=
  existsb (py_eq_str v) statuses.

Definition is_substring (needle hay : string) : bool :=
  match String.index 0 needle hay with
  | Some _ => true
  | None => false
  end.

(** [k in v] for a string [k]: key of a dict, element of a list or tuple,
    substring of a string; other values are not containers. *)
Definition py_contains (k : string) (v : pyval) : res bool :=
  match v with
  | PDict kv => Val (match dict_get k kv with Some _ => true | None => false end)
  | PList l | PTuple l => Val (existsb (fun x => py_eq_str x k) l)
  | PStr s => Val (is_substring k s)
  | _ => Raise (TypeError "argument is not iterable")
  end.

Definition py_is_list (v : pyval) : bool :=
  match v with
  | PList _ => true
  | _ => false
  end.

(** What [json.dumps] accepts with its defaults: no response objects
    anywhere inside.  (A tuple is written as an array, and the three
    floats as [NaN], [Infinity] and [-Infinity].) *)
Fixpoint serializable (v : pyval) : bool :=
  match v with
  | PNone | PBool _ | PInt _ | PFloat _ | PStr _ => true
  | PList l | PTuple l => forallb serializable l
  | PDict kv => forallb (fun p => serializable (snd p)) kv
  | PHttpResponse _ | PJSONResponse _ _ => false
  end.

(** The first element of [l] on which [f] gives something. *)
Fixpoint first_some {A B : Type} (f : A -> option B) (l : list A) : option B :=
  match l with
  | [] => None
  | x :: rest =>
      match f x with
      | Some b => Some b
      | None => first_some f rest
      end
  end.

(** What the rendering of a [JSONResponse] raises on a content, if
    anything: [json.dumps(content, allow_nan=False, ...)] walks the
    content in order and stops at the first value it refuses, a float
    that is not a number of JSON ([ValueError]) or an object that is not
    JSON data ([TypeError]). *)
Fixpoint render_error (v : pyval) : option exn :=
  match v with
  | PNone | PBool _ | PInt _ | PStr _ => None
  | PFloat _ =>
      Some (ValueError "Out of range float values are not JSON compliant")
  | PList l | PTuple l => first_some render_error l
  | PDict kv => first_some (fun p => render_error (snd p)) kv
  | PHttpResponse _ =>
      Some (TypeError "Object of type Response is not JSON serializable")
  | PJSONResponse _ _ =>
      Some (TypeError "Object of type JSONResponse is not JSON serializable")
  end.

(** [s.split(sep)] for a one-character separator. *)
Fixpoint split_on (sep : ascii) (s : string) : list string :=
  match s with
  | EmptyString => [EmptyString]
  | String c rest =>
      if Ascii.eqb c sep then EmptyString :: split_on sep rest
      else match split_on sep rest with
           | [] => [String c EmptyString]
           | w :: ws => String c w :: ws
           end
  end.

(** Induction on values that reaches inside lists and dicts. *)
Section PyvalInduction.

Variable P : pyval -> Prop.
Hypothesis HNone : P PNone.
Hypothesis HBool : forall b, P (PBool b).
Hypothesis HInt : forall z, P (PInt z).
Hypothesis HFloat : forall x, P (PFloat x).
Hypothesis HStr : forall s, P (PStr s).
Hypothesis HList : forall l, Forall P l -> P (PList l).
Hypothesis HTuple : forall l, Forall P l -> P (PTuple l).
Hypothesis HDict : forall kv, Forall (fun p => P (snd p)) kv -> P (PDict kv).
Hypothesis HHttp : forall c, P (PHttpResponse c).
Hypothesis HJson : forall c v, P v -> P (PJSONResponse c v).

Fixpoint pyval_nested_ind (v : pyval) : P v :=
  match v with
  | PNone => HNone
  | PBool b => HBool b
  | PInt z => HInt z
  | PFloat x => HFloat x
  | PStr s => HStr s
  | PList l =>
      HList ((fix all (l : list pyval) : Forall P l :=
                match l with
                | [] => Forall_nil P
                | x :: r => Forall_cons x (pyval_nested_ind x) (all r)
                end) l)
  | PTuple l =>
      HTuple ((fix all (l : list pyval) : Forall P l :=
                 match l with
                 | [] => Forall_nil P
                 | x :: r => Forall_cons x (pyval_nested_ind x) (all r)
                 end) l)
  | PDict kv =>
      HDict ((fix all (l : list (string * pyval))
                : Forall (fun p => P (snd p)) l :=
                match l with
                | [] => Forall_nil _
                | (k, x) :: r =>
                    Forall_cons (P := fun p => P (snd p)) (k, x)
                      (pyval_nested_ind x) (all r)
                end) kv)
  | PHttpResponse c => HHttp c
  | PJSONResponse c x => HJson c (pyval_nested_ind x)
  end.

End PyvalInduction.

(* ================================================================= *)
(** ** The order store ([models.py], [database.py]) *)

Inductive provider : Type := VIPayment | MooGold | Jollymax.

(** [BaseOrderVP]: the columns of [vp_orders].  [id] is the primary key;
    no other column carries a constraint.  Columns hold the values the
    callers pass. *)
Record BaseOrderVP : Type := mkOrderVP {
  vp_id : nat;
  vp_user_id : pyval;
  vp_zone_id : pyval;
  vp_quantity : pyval;
  vp_price : pyval;
  vp_product : pyval;
  vp_api_name : pyval;
  vp_order_id : pyval;
  vp_email_user : pyval;
  vp_status : pyval;
  vp_order_details : pyval
}.

(** [BaseOrderMG] has the attributes of [BaseOrderVP]; it is another
    table ([mg_orders]). *)
Definition BaseOrderMG : Type := BaseOrderVP.

(** [BaseOrderJM]: as above, with [message_id]. *)
Record BaseOrderJM : Type := mkOrderJM {
  jm_id : nat;
  jm_user_id : pyval;
  jm_zone_id : pyval;
  jm_quantity : pyval;
  jm_price : pyval;
  jm_product : pyval;
  jm_api_name : pyval;
  jm_order_id : pyval;
  jm_message_id : pyval;
  jm_email_user : pyval;
  jm_status : pyval;
  jm_order_details : pyval
}.

(** A table is its rows and the next value of the autoincrementing key.
    The rows are kept in the order of their creation; the store itself
    promises no order to a [SELECT] without [ORDER BY]. *)
Record table (R : Type) : Type := mkTable {
  rows : list R;
  next_id : nat
}.
Arguments mkTable {R} rows next_id.

Definition empty_table {R : Type} : table R := mkTable [] 1%nat.

Record Database : Type := mkDatabase {
  vp_orders : table BaseOrderVP;
  mg_orders : table BaseOrderMG;
  jm_orders : table BaseOrderJM
}.

Definition empty_db : Database := mkDatabase empty_table empty_table empty_table.

(** [insert().values(...)] on a table whose rows are [BaseOrderVP], for
    values that the columns take (see [typed_request] below). *)
Definition insert_order (t : table BaseOrderVP)
    (user_id zone_id quantity price product api_name order_id email_user
       status order_details : pyval) : table BaseOrderVP :=
  mkTable
    (rows t ++ [mkOrderVP (next_id t) user_id zone_id quantity price product
                  api_name order_id email_user status order_details])
    (S (next_id t)).

(** [update(...).where(order_id == ...).values(...)]: a [None] argument
    keeps the column. *)
Definition update_row (status new_order_details : pyval) (r : BaseOrderVP)
    : BaseOrderVP :=
  mkOrderVP (vp_id r) (vp_user_id r) (vp_zone_id r) (vp_quantity r)
    (vp_price r) (vp_product r) (vp_api_name r) (vp_order_id r)
    (vp_email_user r)
    (match status with PNone => vp_status r | _ => status end)
    (match new_order_details with
     | PNone => vp_order_details r
     | _ => new_order_details
     end).

Definition update_order (t : table BaseOrderVP)
    (order_id status new_order_details : pyval) : table BaseOrderVP :=
  mkTable
    (map (fun r => if pyval_eqb (vp_order_id r) order_id
                   then update_row status new_order_details r else r)
       (rows t))
    (next_id t).

Definition createOrderVP (d : Database)
    (user_id zone_id quantity price product api_name order_id email_user
       status order_details : pyval) : Database :=
  mkDatabase
    (insert_order (vp_orders d) user_id zone_id quantity price product
       api_name order_id email_user status order_details)
    (mg_orders d) (jm_orders d).

Definition getAllOrdersVP (d : Database) : list BaseOrderVP :=
  rows (vp_orders d).

(** [fetch_one] of the rows of a handle: one of them, here the first
    in the order of the table. *)
Definition getOrderIdVP (d : Database) (order_id : pyval) : option BaseOrderVP :=
  find (fun r => pyval_eqb (vp_order_id r) order_id) (rows (vp_orders d)).

Definition getOrderStatusVP (d : Database) (status : pyval) : list BaseOrderVP :=
  filter (fun r => pyval_eqb (vp_status r) status) (rows (vp_orders d)).

Definition updateOrderVP (d : Database)
    (order_id status new_order_details : pyval) : Database :=
  mkDatabase (update_order (vp_orders d) order_id status new_order_details)
    (mg_orders d) (jm_orders d).

Definition deleteOrderVP (d : Database) (order_id : pyval) : Database :=
  mkDatabase
    (mkTable
       (filter (fun r => negb (pyval_eqb (vp_order_id r) order_id))
          (rows (vp_orders d)))
       (next_id (vp_orders d)))
    (mg_orders d) (jm_orders d).

Definition createOrderMG (d : Database)
    (user_id zone_id quantity price product api_name order_id email_user
       status order_details : pyval) : Database :=
  mkDatabase (vp_orders d)
    (insert_order (mg_orders d) user_id zone_id quantity price product
       api_name order_id email_user status order_details)
    (jm_orders d).

Definition getAllOrdersMG (d : Database) : list BaseOrderMG :=
  rows (mg_orders d).

Definition getOrderIdMG (d : Database) (order_id : pyval) : option BaseOrderMG :=
  find (fun r => pyval_eqb (vp_order_id r) order_id) (rows (mg_orders d)).

Definition getOrderStatusMG (d : Database) (status : pyval) : list BaseOrderMG :=
  filter (fun r => pyval_eqb (vp_status r) status) (rows (mg_orders d)).

Definition updateOrderMG (d : Database)
    (order_id status new_order_details : pyval) : Database :=
  mkDatabase (vp_orders d)
    (update_order (mg_orders d) order_id status new_order_details)
    (jm_orders d).

Definition deleteOrderMG (d : Database) (order_id : pyval) : Database :=
  mkDatabase (vp_orders d)
    (mkTable
       (filter (fun r => negb (pyval_eqb (vp_order_id r) order_id))
          (rows (mg_orders d)))
       (next_id (mg_orders d)))
    (jm_orders d).

(** The Jollymax table is addressed by the pair (order_id, message_id). *)
Definition jm_matches (order_id message_id : pyval) (r : BaseOrderJM) : bool :=
  pyval_eqb (jm_order_id r) order_id && pyval_eqb (jm_message_id r) message_id.

Definition update_row_jm (status new_order_details : pyval) (r : BaseOrderJM)
    : BaseOrderJM :=
  mkOrderJM (jm_id r) (jm_user_id r) (jm_zone_id r) (jm_quantity r)
    (jm_price r) (jm_product r) (jm_api_name r) (jm_order_id r)
    (jm_message_id r) (jm_email_user r)
    (match status with PNone => jm_status r | _ => status end)
    (match new_order_details with
     | PNone => jm_order_details r
     | _ => new_order_details
     end).

Definition createOrderJM (d : Database)
    (user_id zone_id quantity price product api_name order_id message_id
       email_user status order_details : pyval) : Database :=
  mkDatabase (vp_orders d) (mg_orders d)
    (mkTable
       (rows (jm_orders d) ++
          [mkOrderJM (next_id (jm_orders d)) user_id zone_id quantity price
             product api_name order_id message_id email_user status
             order_details])
       (S (next_id (jm_orders d)))).

Definition getAllOrdersJM (d : Database) : list BaseOrderJM :=
  rows (jm_orders d).

Definition getOrderIdJM (d : Database) (order_id message_id : pyval)
    : option BaseOrderJM :=
  find (jm_matches order_id message_id) (rows (jm_orders d)).

Definition getOrderStatusJM (d : Database) (status : pyval) : list BaseOrderJM :=
  filter (fun r => pyval_eqb (jm_status r) status) (rows (jm_orders d)).

Definition updateOrderJM (d : Database)
    (order_id message_id status new_order_details : pyval) : Database :=
  mkDatabase (vp_orders d) (mg_orders d)
    (mkTable
       (map (fun r => if jm_matches order_id message_id r
                      then update_row_jm status new_order_details r else r)
          (rows (jm_orders d)))
       (next_id (jm_orders d))).

Definition deleteOrderJM (d : Database) (order_id message_id : pyval) : Database :=
  mkDatabase (vp_orders d) (mg_orders d)
    (mkTable
       (filter (fun r => negb (jm_matches order_id message_id r))
          (rows (jm_orders d)))
       (next_id (jm_orders d))).

Definition getCountOrderVP (d : Database) : nat := List.length (rows (vp_orders d)).
Definition getCountOrderMG (d : Database) : nat := List.length (rows (mg_orders d)).
Definition getCountOrderJM (d : Database) : nat := List.length (rows (jm_orders d)).

(** How many rows answer to a handle. *)
Definition count_vp (d : Database) (order_id : pyval) : nat :=
  List.length (filter (fun r => pyval_eqb (vp_order_id r) order_id)
                 (rows (vp_orders d))).

Definition count_mg (d : Database) (order_id : pyval) : nat :=
  List.length (filter (fun r => pyval_eqb (vp_order_id r) order_id)
                 (rows (mg_orders d))).

Definition count_jm (d : Database) (order_id message_id : pyval) : nat :=
  List.length (filter (jm_matches order_id message_id) (rows (jm_orders d))).

(** The invariant of the data model: at most one row per handle. *)
Definition one_row_per_handle (d : Database) : Prop :=
  (forall order_id, (count_vp d order_id <= 1)%nat) /\
  (forall order_id, (count_mg d order_id <= 1)%nat) /\
  (forall order_id message_id, (count_jm d order_id message_id <= 1)%nat).

(* ================================================================= *)
(** ** Effects *)

Inductive op : Type := Create | Check.

(** Outward effects, in the order in which they happen.  A handle is
    [[order_id]] for VIPayment and MooGold, [[order_id; message_id]] for
    Jollymax. *)
Inductive event : Type :=
| Notify (admin : pyval) (text : string)
| AdapterCall (p : provider) (o : op)
| HttpPost (p : provider) (o : op)
| DbInsert (p : provider) (handle : list pyval)
| DbUpdate (p : provider) (handle : list pyval).

(** What one [client.post] can give: the call raises, or a response with
    a status code whose [json()] is a value or raises. *)
Inductive http_reply : Type :=
| ConnectionFailed (msg : string)
| Reply (status_code : Z) (body : option pyval).

(** [config.py]: the status vocabularies and the operators. *)
Record Config : Type := mkConfig {
  VP_STATUSES : list string;
  MG_STATUSES : list string;
  JM_STATUSES : list string;
  TG_ADMINS : list pyval
}.

(** The outside world, scripted: the reply to the n-th POST, whether
    [private.key.pem] can be read and loaded at that moment, and the n-th
    string that [generate_unique_id] draws (time stamp and uuid). *)
Record Env : Type := mkEnv {
  http : nat -> http_reply;
  key_file_ok : nat -> bool;
  unique_id : nat -> string
}.

(** Library functions whose output is only passed along: [json.dumps],
    [str] of an exception, and the f-string of the new-order message
    (service label, product name, user, quantity, price). *)
Record PyLib : Type := mkPyLib {
  json_dumps : pyval -> string;
  exn_str : exn -> string;
  order_text : string -> pyval -> pyval -> pyval -> pyval -> string
}.

Record World : Type := mkWorld {
  db : Database;
  trace : list event;
  posts : nat;
  ids : nat
}.

Definition M (A : Type) : Type := World -> res A * World.

Definition ret {A : Type} (a : A) : M A := fun w => (Val a, w).

Definition raise {A : Type} (e : exn) : M A := fun w => (Raise e, w).

Definition bind {A B : Type} (m : M A) (k : A -> M B) : M B :=
  fun w =>
    match m w with
    | (Val a, w') => k a w'
    | (Raise e, w') => (Raise e, w')
    end.

(** [try: m except Exception as error: h error]. *)
Definition try_except {A : Type} (m : M A) (h : exn -> M A) : M A :=
  fun w =>
    match m w with
    | (Val a, w') => (Val a, w')
    | (Raise e, w') => h e w'
    end.

Definition lift {A : Type} (r : res A) : M A := fun w => (r, w).

Declare Scope py_scope.
Delimit Scope py_scope with py.
Notation "x <- m ;; k" := (bind m (fun x => k))
  (at level 61, m at next level, right associativity) : py_scope.
Notation "m ;; k" := (bind m (fun _ => k))
  (at level 61, right associativity) : py_scope.
Local Open Scope py_scope.

Definition emit (e : event) : M unit :=
  fun w => (Val tt, mkWorld (db w) (trace w ++ [e]) (posts w) (ids w)).

Definition get_db : M Database := fun w => (Val (db w), w).

(** A statement executed against the store, with the event it leaves. *)
Definition execute (f : Database -> Database) (e : event) : M unit :=
  fun w => (Val tt, mkWorld (f (db w)) (trace w ++ [e]) (posts w) (ids w)).

Definition is_db_event (e : event) : bool :=
  match e with
  | DbInsert _ _ | DbUpdate _ _ => true
  | _ => false
  end.

(** A computation is confined by [P] and [D] when, from any world, the
    events it adds all satisfy [P] and the database it leaves is related
    by [D] to the one it found. *)
Definition confined {A : Type} (P : event -> Prop)
    (D : Database -> Database -> Prop) (m : M A) : Prop :=
  forall w, exists t,
    trace (snd (m w)) = (trace w ++ t)%list /\
    Forall P t /\
    D (db w) (db (snd (m w))).

(** It reads the store only: no store event, same database. *)
Definition read_only {A : Type} (m : M A) : Prop :=
  confined (fun e => is_db_event e = false) eq m.

(** Nothing is said of the database; the trace only grows. *)
Definition trace_grows {A : Type} (m : M A) : Prop :=
  confined (fun _ => True) (fun _ _ => True) m.

Fixpoint for_each {A : Type} (l : list A) (body : A -> M unit) : M unit :=
  match l with
  | [] => ret tt
  | x :: rest => body x ;; for_each rest body
  end.

Definition dict (kv : list (string * pyval)) : pyval := PDict kv.

Section Gateway.

Variable cfg : Config.
Variable env : Env.
Variable py : PyLib.

(** [await client.post(...)]. *)
Definition client_post (p : provider) (o : op) : M (Z * option pyval) :=
  fun w =>
    let w' := mkWorld (db w) (trace w ++ [HttpPost p o]) (S (posts w)) (ids w) in
    match http env (posts w) with
    | ConnectionFailed msg => (Raise (TransportError msg), w')
    | Reply code body => (Val (code, body), w')
    end.

(** [response.json()]. *)
Definition response_json (body : option pyval) : M pyval :=
  match body with
  | Some v => ret v
  | None => raise JSONDecodeError
  end.

(** [json.dumps(v)]. *)
Definition py_dumps (v : pyval) : M pyval :=
  if serializable v then ret (PStr (json_dumps py v))
  else raise (TypeError "Object is not JSON serializable").

(** [JSONResponse(status_code=..., content=...)]: the body is rendered
    when the response is built. *)
Definition JSONResponse (status_code : Z) (content : pyval) : M pyval :=
  match render_error content with
  | None => ret (PJSONResponse status_code content)
  | Some error => raise error
  end.

(* ----------------------------------------------------------------- *)
(** *** [req_methods.py] *)

Definition request_creating_order_vp
    (user_id zone_id email quantity price product : pyval) : M pyval :=
  try_except
    (response <- client_post VIPayment Create ;;
     if fst response =? 200 then
       data <- response_json (snd response) ;;
       result <- lift (py_getitem data "result") ;;
       if py_eq_true result then
         inner <- lift (py_getitem data "data") ;;
         vp_trxid <- lift (py_getitem inner "trxid") ;;
         details <- py_dumps data ;;
         execute (fun d => createOrderVP d user_id zone_id quantity price
                             product (PStr "VIPAYMENT") vp_trxid email
                             (PStr "waiting") details)
                 (DbInsert VIPayment [vp_trxid]) ;;
         ret vp_trxid
       else
         lift (py_getitem data "result") ;;
         ret (dict [("status", PStr "warning");
                    ("message", PStr "order creation failed");
                    ("data", data)])
     else
       ret (dict [("status", PStr "error");
                  ("user_id", user_id);
                  ("message", PStr "the request failed");
                  ("data", PHttpResponse (fst response))]))
    (fun error =>
       ret (dict [("status", PStr "exception");
                  ("user_id", user_id);
                  ("message", PStr "function error: (creating order)");
                  ("data", PStr (exn_str py error))])).

(** No [try] here: what is raised reaches the adapter. *)
Definition request_creating_order_mg
    (user_id zone_id email quantity price product : pyval) : M pyval :=
  response <- client_post MooGold Create ;;
  if fst response =? 200 then
    data <- response_json (snd response) ;;
    status <- lift (py_getitem data "status") ;;
    if py_eq_true status then
      account <- lift (py_getitem data "account_details") ;;
      mg_trxid <- lift (py_getitem account "order_id") ;;
      details <- py_dumps data ;;
      execute (fun d => createOrderMG d user_id zone_id quantity price
                          product (PStr "MOOGOLD") mg_trxid email
                          (PStr "processing") details)
              (DbInsert MooGold [mg_trxid]) ;;
      ret mg_trxid
    else
      lift (py_getitem data "status") ;;
      ret (dict [("status", PStr "warning");
                 ("message", PStr "order creation failed");
                 ("data", data)])
  else
    ret (dict [("status", PStr "error");
               ("user_id", user_id);
               ("message", PStr "the request failed");
               ("data", PHttpResponse (fst response))]).

Definition request_creating_order_jm
    (order_id message_id user_id zone_id email quantity price product : pyval)
    : M pyval :=
  try_except
    (response <- client_post Jollymax Create ;;
     if fst response =? 200 then
       data <- response_json (snd response) ;;
       code <- lift (py_getitem data "code") ;;
       if py_eq_str code "APPLY_SUCCESS" then
         details <- py_dumps data ;;
         execute (fun d => createOrderJM d user_id zone_id quantity price
                             product (PStr "JOLLYMAX") order_id message_id
                             email (PStr "waiting") details)
                 (DbInsert Jollymax [order_id; message_id]) ;;
         ret (PTuple [order_id; message_id])
       else
         lift (py_getitem data "code") ;;
         ret (dict [("status", PStr "warning");
                    ("message", PStr "order creation failed");
                    ("data", data)])
     else
       ret (dict [("status", PStr "error");
                  ("user_id", user_id);
                  ("message", PStr "the request failed");
                  ("data", PHttpResponse (fst response))]))
    (fun error =>
       ret (dict [("status", PStr "exception");
                  ("user_id", user_id);
                  ("message", PStr "function error: (creating order)");
                  ("data", PStr (exn_str py error))])).

Definition check_exception (error : exn) : M pyval :=
  ret (dict [("status", PStr "exception");
             ("message", PStr "function error: (checking order)");
             ("data", PStr (exn_str py error))]).

Definition request_failed (status_code : Z) : pyval :=
  dict [("status", PStr "error");
        ("message", PStr "the request failed");
        ("data", PHttpResponse status_code)].

Definition request_checking_order_vp : M pyval :=
  try_except
    (response <- client_post VIPayment Check ;;
     if fst response =? 200 then
       data <- response_json (snd response) ;;
       result <- lift (py_getitem data "result") ;;
       if py_eq_true result then ret data
       else
         lift (py_getitem data "result") ;;
         ret (dict [("status", PStr "warning");
                    ("message", PStr "order check failed");
                    ("data", data)])
     else ret (request_failed (fst response)))
    check_exception.

(** The response is handed back only when [order_status] is
    ["completed"]; the warning's f-string reads [data['order_status']]. *)
Definition request_checking_order_mg : M pyval :=
  try_except
    (response <- client_post MooGold Check ;;
     if fst response =? 200 then
       data <- response_json (snd response) ;;
       has <- lift (py_contains "order_status" data) ;;
       paid <- (if has then
                  st <- lift (py_getitem data "order_status") ;;
                  ret (py_eq_str st "completed")
                else ret false) ;;
       if paid then ret data
       else
         lift (py_getitem data "order_status") ;;
         ret (dict [("status", PStr "warning");
                    ("message", PStr "order not paid");
                    ("data", data)])
     else ret (request_failed (fst response)))
    check_exception.

Definition request_checking_order_jm : M pyval :=
  try_except
    (response <- client_post Jollymax Check ;;
     if fst response =? 200 then
       data <- response_json (snd response) ;;
       code <- lift (py_getitem data "code") ;;
       if py_eq_str code "APPLY_SUCCESS" then ret data
       else
         lift (py_getitem data "code") ;;
         ret (dict [("status", PStr "warning");
                    ("message", PStr "order not paid");
                    ("data", data)])
     else ret (request_failed (fst response)))
    check_exception.

(* ----------------------------------------------------------------- *)
(** *** The adapters ([vipayment.py], [moogold.py], [jollymax.py]) *)

Definition function_error (name : string) (error : exn) : M pyval :=
  ret (dict [("status", PStr "error");
             ("message", PStr name);
             ("data", PStr (exn_str py error))]).

Definition ServiceVIPayment_create_order
    (service user_id zone_id email quantity price product : pyval) : M pyval :=
  emit (AdapterCall VIPayment Create) ;;
  try_except
    (request_creating_order_vp user_id zone_id email quantity price product)
    (function_error "function create_order").

Definition ServiceVIPayment_check_order (order_id : pyval) : M pyval :=
  emit (AdapterCall VIPayment Check) ;;
  try_except request_checking_order_vp (function_error "function check_order").

(** The payload is serialized, and signed, before the [try]. *)
Definition ServiceMoogold_create_order
    (service user_id zone_id email quantity price product : pyval) : M pyval :=
  emit (AdapterCall MooGold Create) ;;
  py_dumps (dict [("path", PStr "order/create_order");
                  ("data", dict [("category", PStr "1");
                                 ("product-id", service);
                                 ("quantity", PStr "1");
                                 ("User ID", user_id);
                                 ("Server", zone_id)])]) ;;
  try_except
    (request_creating_order_mg user_id zone_id email quantity price product)
    (function_error "function create_order").

Definition ServiceMoogold_check_order (order_id : pyval) : M pyval :=
  emit (AdapterCall MooGold Check) ;;
  py_dumps (dict [("path", PStr "order/order_detail");
                  ("order_id", order_id)]) ;;
  try_except request_checking_order_mg (function_error "function check_order").

(** [generate_unique_id(prefix)]: prefix, time stamp, uuid. *)
Definition generate_unique_id (prefix : string) : M pyval :=
  fun w =>
    (Val (PStr (prefix ++ unique_id env (ids w))),
     mkWorld (db w) (trace w) (posts w) (S (ids w))).

(** [generate_signature(payload)]: the key file is opened and loaded,
    then the payload is serialized and signed.  The payloads below leave
    out [requestTime], [merchantAppId] and [merchantNo], which are strings
    of the clock and of the configuration. *)
Definition generate_signature (payload : pyval) : M unit :=
  fun w =>
    if key_file_ok env (posts w) then bind (py_dumps payload) (fun _ => ret tt) w
    else (Raise (OSError "private.key.pem"), w).

Definition ServiceJollymax_create_order
    (service user_id zone_id email quantity price product : pyval) : M pyval :=
  emit (AdapterCall Jollymax Create) ;;
  order_id <- generate_unique_id "TM003400" ;;
  message_id <- generate_unique_id "" ;;
  generate_signature
    (dict [("version", PStr "1.0");
           ("keyVersion", PStr "1");
           ("data", dict [("outOrderId", order_id);
                          ("code", service);
                          ("quantity", PInt 1);
                          ("tradeInfo", dict [("userId", user_id);
                                              ("serverId", zone_id);
                                              ("role_id", PStr "")]);
                          ("messageId", message_id)])]) ;;
  try_except
    (request_creating_order_jm order_id message_id user_id zone_id email
       quantity price product)
    (function_error "function create_order").

Definition ServiceJollymax_check_order (order_id message_id : pyval) : M pyval :=
  emit (AdapterCall Jollymax Check) ;;
  generate_signature
    (dict [("version", PStr "1.0");
           ("keyVersion", PStr "1");
           ("data", dict [("outOrderId", order_id);
                          ("messageId", message_id)])]) ;;
  try_except request_checking_order_jm (function_error "function check_order").

(* ----------------------------------------------------------------- *)
(** *** The notifier ([bot.py]) *)

(** One [bot.send_message] per operator; a failed delivery is logged and
    the loop goes on, so the attempts are what is recorded. *)
Definition send_message_order (message_text : string) : M unit :=
  for_each (TG_ADMINS cfg) (fun user_id => emit (Notify user_id message_text)).

(* ----------------------------------------------------------------- *)
(** *** Order creation ([main.py]) *)

Definition service_create_order
    (service_code product_code user_id zone_id email quantity price
       product_name : pyval) : M pyval :=
  try_except
    (if py_eq_str service_code "VP" then
       send_message_order
         (order_text py "VIPayment" product_name user_id quantity price) ;;
       ServiceVIPayment_create_order product_code user_id zone_id email
         quantity price product_name
     else if py_eq_str service_code "MG" then
       send_message_order
         (order_text py "Moogold" product_name user_id quantity price) ;;
       ServiceMoogold_create_order product_code user_id zone_id email
         quantity price product_name
     else if py_eq_str service_code "JM" then
       send_message_order
         (order_text py "JollyMax" product_name user_id quantity price) ;;
       ServiceJollymax_create_order product_code user_id zone_id email
         quantity price product_name
     else
       JSONResponse 400 (dict [("status", PStr "error");
                               ("message", PStr "Invalid service code")]))
    (fun error =>
       JSONResponse 500 (dict [("status", PStr "error");
                               ("message", PStr "create order");
                               ("data", PStr (exn_str py error))])).

(** [all([a, b, c])]. *)
Definition py_all (l : list pyval) : bool := forallb py_truthy l.

(** [s.split("+")]: a method of strings. *)
Definition py_split_plus (v : pyval) : res (list string) :=
  match v with
  | PStr s => Val (split_on "+"%char s)
  | _ => Raise (AttributeError "split")
  end.

(** The handler of [POST /v1/skyshop]; [body] is what [request.json()]
    gives, [None] when it raises. *)
Definition skyshop_api (body : option pyval) : M pyval :=
  try_except
    (data <- response_json body ;;
     is_test <- lift (py_contains "test" data) ;;
     if is_test then
       test <- lift (py_getitem data "test") ;;
       JSONResponse 200
         (dict [("status", PStr "success");
                ("message", PStr "testing request successfully");
                ("data", dict [("test", test)])])
     else
       user_id <- lift (py_get data "Input") ;;
       zone_id <- lift (py_get data "Zone_ID") ;;
       email <- lift (py_get data "Email") ;;
       if negb (py_all [user_id; zone_id; email]) then
         JSONResponse 400 (dict [("status", PStr "error");
                                 ("message", PStr "missing parameters");
                                 ("data", data)])
       else
         payment <- lift (py_getitem data "payment") ;;
         products <- lift (py_get_default payment "products" (PList [])) ;;
         if negb (py_truthy products) then
           JSONResponse 400 (dict [("status", PStr "error");
                                   ("message", PStr "missing products");
                                   ("data", data)])
         else
           first_product <- lift (py_first products) ;;
           product_name_full <- lift (py_get first_product "name") ;;
           quantity <- lift (py_get first_product "quantity") ;;
           price <- lift (py_get first_product "price") ;;
           if negb (py_all [product_name_full; quantity; price]) then
             JSONResponse 400
               (dict [("status", PStr "error");
                      ("message", PStr "missing product parameters");
                      ("data", data)])
           else
             product_info <- lift (py_split_plus product_name_full) ;;
             match product_info with
             | service_code :: product_code :: product_name :: _ =>
                 try_except
                   (response <- service_create_order (PStr service_code)
                                  (PStr product_code) user_id zone_id email
                                  quantity price (PStr product_name) ;;
                    JSONResponse 200 (dict [("status", PStr "success");
                                            ("message", PStr "order created");
                                            ("data", response)]))
                   (fun error =>
                      JSONResponse 500
                        (dict [("status", PStr "error");
                               ("message", PStr "create order");
                               ("data", PStr (exn_str py error))]))
             | _ =>
                 JSONResponse 400 (dict [("status", PStr "error");
                                         ("message", PStr "missing product info");
                                         ("data", data)])
             end)
    (fun error =>
       JSONResponse 500 (dict [("status", PStr "error");
                               ("message", PStr "request data");
                               ("data", PStr (exn_str py error))])).

(* ----------------------------------------------------------------- *)
(** *** The reconciliation sweep ([main.py], [check_order_status]) *)

Local Open Scope res_scope.

(** The status the sweep reads in what [check_order] returned:
    [orderData["data"][0]["status"]] behind the guard on [result] and
    [data] for VIPayment ([None] when the guard fails),
    [orderData.get("order_status")] for MooGold,
    [orderData["data"].get("status")] for Jollymax. *)
Definition vp_new_status (orderData : pyval) : res (option pyval) :=
  result <- py_get orderData "result" ;;
  ok <- (if py_truthy result then
           d <- py_get orderData "data" ;;
           Val (py_is_list d)
         else Val false) ;;
  if ok then
    d <- py_getitem orderData "data" ;;
    data_item <- (if py_truthy d then
                    d' <- py_getitem orderData "data" ;;
                    py_first d'
                  else Val (dict [])) ;;
    new_status <- py_getitem data_item "status" ;;
    Val (Some new_status)
  else Val None.

Definition mg_new_status (orderData : pyval) : res pyval :=
  py_get orderData "order_status".

Definition jm_new_status (orderData : pyval) : res pyval :=
  inner <- py_getitem orderData "data" ;;
  py_get inner "status".

Local Close Scope res_scope.

(** Body of the loop over [vp_orders], with its [try]. *)
Definition check_vp_order (vp_order : BaseOrderVP) : M unit :=
  try_except
    (let order_id := vp_order_id vp_order in
     orderData <- ServiceVIPayment_check_order order_id ;;
     extracted <- lift (vp_new_status orderData) ;;
     match extracted with
     | Some new_status =>
         if py_in_strs new_status (VP_STATUSES cfg) then
           details <- py_dumps orderData ;;
           execute (fun d => updateOrderVP d order_id new_status details)
                   (DbUpdate VIPayment [order_id])
         else ret tt
     | None => ret tt
     end)
    (fun _ => ret tt).

Definition check_mg_order (mg_order : BaseOrderMG) : M unit :=
  try_except
    (let order_id := vp_order_id mg_order in
     orderData <- ServiceMoogold_check_order order_id ;;
     new_status <- lift (mg_new_status orderData) ;;
     if py_in_strs new_status (MG_STATUSES cfg) then
       details <- py_dumps orderData ;;
       execute (fun d => updateOrderMG d order_id new_status details)
               (DbUpdate MooGold [order_id])
     else ret tt)
    (fun _ => ret tt).

Definition check_jm_order (jm_order : BaseOrderJM) : M unit :=
  try_except
    (let order_id := jm_order_id jm_order in
     let message_id := jm_message_id jm_order in
     orderData <- ServiceJollymax_check_order order_id message_id ;;
     new_status <- lift (jm_new_status orderData) ;;
     if py_in_strs new_status (JM_STATUSES cfg) then
       details <- py_dumps orderData ;;
       execute (fun d => updateOrderJM d order_id message_id new_status details)
               (DbUpdate Jollymax [order_id; message_id])
     else ret tt)
    (fun _ => ret tt).

(** One pass of the [while True] loop, up to the [sleep]. *)
Definition sweep : M unit :=
  try_except
    (d <- get_db ;;
     let vp_orders := getOrderStatusVP d (PStr "waiting") in
     let mg_orders := getOrderStatusMG d (PStr "processing") in
     let jm_orders := getOrderStatusJM d (PStr "waiting") in
     for_each vp_orders check_vp_order ;;
     for_each mg_orders check_mg_order ;;
     for_each jm_orders check_jm_order)
    (fun _ => ret tt).

(** The loop, observed for a number of passes. *)
Fixpoint check_order_status (passes : nat) : M unit :=
  match passes with
  | O => ret tt
  | S n => sweep ;; check_order_status n
  end.

End Gateway.

(** The response of [service_create_order] to a service code it does
    not know. *)
Definition invalid_service_code : pyval :=
  PJSONResponse 400 (PDict [("status", PStr "error");
                            ("message", PStr "Invalid service code")]).

Definition is_response (v : pyval) : bool :=
  match v with
  | PHttpResponse _ | PJSONResponse _ _ => true
  | _ => false
  end.

(** A field of the request is lacking when the key is absent or its
    value is false in a condition ([None], [""], [0], empty). *)
Definition lacks (kv : list (string * pyval)) (k : string) : bool :=
  match dict_get k kv with
  | Some v => negb (py_truthy v)
  | None => true
  end.

(** A field that is there: [data.get(k)] gives a value that is true in a
    condition. *)
Definition field (data : pyval) (k : string) : option pyval :=
  match py_get data k with
  | Val v => if py_truthy v then Some v else None
  | Raise _ => None
  end.

(** The first product of a request,
    [data["payment"].get("products", [])[0]], when there is one. *)
Definition first_product (data : pyval) : option pyval :=
  match res_bind (py_getitem data "payment")
          (fun payment =>
             res_bind (py_get_default payment "products" (PList []))
               py_first) with
  | Val product => Some product
  | Raise _ => None
  end.

(** The request has every field that an order needs: user, zone and
    email, and a first product with a quantity, a price and a name of at
    least three segments separated by "+". *)
Definition has_required_fields (data : pyval) : bool :=
  match field data "Input", field data "Zone_ID", field data "Email",
        first_product data with
  | Some _, Some _, Some _, Some product =>
      match field product "name", field product "quantity",
            field product "price" with
      | Some (PStr name), Some _, Some _ =>
          (3 <=? List.length (split_on "+" name))%nat
      | _, _, _ => false
      end
  | _, _, _, _ => false
  end.

Definition is_str (v : pyval) : bool :=
  match v with
  | PStr _ => true
  | _ => false
  end.

(* ================================================================= *)
(** ** A configuration and scripted worlds for the examples *)

(** A plain [json.dumps]: enough to tell responses apart. *)
Fixpoint show (v : pyval) : string :=
  match v with
  | PNone => "null"
  | PBool true => "true"
  | PBool false => "false"
  | PInt z => NilZero.string_of_int (Z.to_int z)
  | PFloat NaN => "NaN"
  | PFloat Infinity => "Infinity"
  | PFloat NegInfinity => "-Infinity"
  | PStr s => "'" ++ s ++ "'"
  | PList l | PTuple l =>
      "[" ++ String.concat ", " (map show l) ++ "]"
  | PDict kv =>
      "{" ++ String.concat ", "
               (map (fun p : string * pyval =>
                       "'" ++ fst p ++ "': " ++
                       match p with (_, x) => show x end) kv) ++ "}"
  | PHttpResponse _ => "<Response>"
  | PJSONResponse _ _ => "<JSONResponse>"
  end.

Definition show_exn (e : exn) : string :=
  match e with
  | KeyError k => "'" ++ k ++ "'"
  | TypeError m => m
  | ValueError m => m
  | AttributeError a => "object has no attribute '" ++ a ++ "'"
  | IndexError => "list index out of range"
  | TransportError m => m
  | JSONDecodeError => "Expecting value"
  | OSError f => "No such file or directory: '" ++ f ++ "'"
  end.

Definition demo_py : PyLib :=
  mkPyLib show show_exn
    (fun service product_name user_id quantity price =>
       "New order / " ++ service ++ " / " ++ show product_name ++ " / " ++
       show user_id ++ " / " ++ show quantity ++ " / " ++ show price).

Definition demo_cfg : Config :=
  mkConfig ["success"; "error"; "waiting"]
           ["processing"; "completed"; "refunded"]
           ["SUCCESS"; "FAILED"; "PROCESSING"]
           [PInt 1001; PInt 1002].

(** The replies are served from a list; past its end the connection
    fails. *)
Definition scripted (replies : list http_reply) : Env :=
  mkEnv (fun n => nth n replies (ConnectionFailed "connection refused"))
        (fun _ => true)
        (fun n => if Nat.even n then "20240101000000aaaa" else "20240101000000bbbb").

(** A check of a VIPayment order fails when the POST raises, is answered
    with another status than 200, has no JSON body, or has a body whose
    [result] is absent or is not true. *)
Definition vp_check_fails (r : http_reply) : bool :=
  match r with
  | ConnectionFailed _ => true
  | Reply code body =>
      if code =? 200 then
        match body with
        | Some data =>
            match py_getitem data "result" with
            | Val v => negb (py_eq_true v)
            | Raise _ => true
            end
        | None => true
        end
      else true
  end.

(** A store with one open order per provider. *)
Definition demo_vp_order : BaseOrderVP :=
  mkOrderVP 1 (PStr "u1") (PStr "z1") (PInt 1) (PStr "10.00")
    (PStr "Diamonds") (PStr "VIPAYMENT") (PStr "T1") (PStr "e@x.com")
    (PStr "waiting") (PStr "{}").

Definition demo_mg_order : BaseOrderMG :=
  mkOrderVP 1 (PStr "u2") (PStr "z2") (PInt 1) (PStr "20.00")
    (PStr "Gift Card") (PStr "MOOGOLD") (PStr "MG-9") (PStr "f@x.com")
    (PStr "processing") (PStr "{}").

Definition demo_jm_order : BaseOrderJM :=
  mkOrderJM 1 (PStr "u3") (PStr "z3") (PInt 1) (PStr "30.00")
    (PStr "Coins") (PStr "JOLLYMAX") (PStr "TM003400A") (PStr "M1")
    (PStr "g@x.com") (PStr "waiting") (PStr "{}").

Definition demo_db : Database :=
  mkDatabase (mkTable [demo_vp_order] 2%nat) (mkTable [demo_mg_order] 2%nat)
    (mkTable [demo_jm_order] 2%nat).

Definition world0 (d : Database) : World := mkWorld d [] 0%nat 0%nat.

Definition ok_json (v : pyval) : http_reply := Reply 200 (Some v).

(* ================================================================= *)
(** ** Observations on the store *)

(** The primary keys of a table are in order when no two rows share one
    and every key in use is below the next one to be given out. *)
Definition keys_fresh {R : Type} (key : R -> nat) (t : table R) : Prop :=
  NoDup (map key (rows t)) /\
  Forall (fun r => (key r < next_id t)%nat) (rows t).

Definition primary_keys_ok (d : Database) : Prop :=
  keys_fresh vp_id (vp_orders d) /\
  keys_fresh vp_id (mg_orders d) /\
  keys_fresh jm_id (jm_orders d).

(** A row without the two columns that an update can write. *)
Definition vp_fixed (r : BaseOrderVP) : nat * list pyval :=
  (vp_id r,
   [vp_user_id r; vp_zone_id r; vp_quantity r; vp_price r; vp_product r;
    vp_api_name r; vp_order_id r; vp_email_user r]).

Definition jm_fixed (r : BaseOrderJM) : nat * list pyval :=
  (jm_id r,
   [jm_user_id r; jm_zone_id r; jm_quantity r; jm_price r; jm_product r;
    jm_api_name r; jm_order_id r; jm_message_id r; jm_email_user r]).

(** Two databases hold the same orders when they differ at most in the
    status and the details of their rows. *)
Definition same_orders (d d' : Database) : Prop :=
  map vp_fixed (rows (vp_orders d')) = map vp_fixed (rows (vp_orders d)) /\
  map vp_fixed (rows (mg_orders d')) = map vp_fixed (rows (mg_orders d)) /\
  map jm_fixed (rows (jm_orders d')) = map jm_fixed (rows (jm_orders d)) /\
  next_id (vp_orders d') = next_id (vp_orders d) /\
  next_id (mg_orders d') = next_id (mg_orders d) /\
  next_id (jm_orders d') = next_id (jm_orders d).

(** The same, in whatever order the rows are read. *)
Definition same_orders_in_any_order (d d' : Database) : Prop :=
  Permutation (map vp_fixed (rows (vp_orders d')))
    (map vp_fixed (rows (vp_orders d))) /\
  Permutation (map vp_fixed (rows (mg_orders d')))
    (map vp_fixed (rows (mg_orders d))) /\
  Permutation (map jm_fixed (rows (jm_orders d')))
    (map jm_fixed (rows (jm_orders d))) /\
  next_id (vp_orders d') = next_id (vp_orders d) /\
  next_id (mg_orders d') = next_id (mg_orders d) /\
  next_id (jm_orders d') = next_id (jm_orders d).

(** [l] is kept at the head of [l']. *)
Definition extends_rows {R : Type} (l l' : list R) : Prop :=
  exists added, l' = (l ++ added)%list.

(** Nothing that was stored has been changed or removed. *)
Definition only_appended (d d' : Database) : Prop :=
  extends_rows (rows (vp_orders d)) (rows (vp_orders d')) /\
  extends_rows (rows (mg_orders d)) (rows (mg_orders d')) /\
  extends_rows (rows (jm_orders d)) (rows (jm_orders d')).

(** The calls of adapters in a trace. *)
Definition is_adapter_call (e : event) : bool :=
  match e with
  | AdapterCall _ _ => true
  | _ => false
  end.

Definition adapter_calls (t : list event) : list event :=
  filter is_adapter_call t.

(** The total that the statistics screen of the bot shows
    ([handle_req_stat]): the three counts added up. *)
Definition total_count (d : Database) : nat :=
  (getCountOrderVP d + getCountOrderMG d + getCountOrderJM d)%nat.

(* ================================================================= *)
(** ** The operators' side ([bot.py], [jollymax.py], [req_methods.py]) *)

(** [c in s] for one character. *)
Fixpoint has_char (c : ascii) (s : string) : bool :=
  match s with
  | EmptyString => false
  | String c' rest => Ascii.eqb c' c || has_char c rest
  end.

Fixpoint str_take (k : nat) (s : string) : string :=
  match k, s with
  | S k', String c rest => String c (str_take k' rest)
  | _, _ => EmptyString
  end.

Fixpoint str_drop (k : nat) (s : string) : string :=
  match k, s with
  | S k', String _ rest => str_drop k' rest
  | _, _ => s
  end.

(** The index at which [s[:n]] ends and [s[n:]] starts: a negative [n]
    counts from the end, and the index is clamped to the string. *)
Definition slice_index (n : Z) (s : string) : nat :=
  let len := Z.of_nat (String.length s) in
  Z.to_nat (if n <? 0 then Z.max (len + n) 0 else Z.min n len).

(** [s[:n]] and [s[n:]]. *)
Definition py_slice_to (s : string) (n : Z) : string :=
  str_take (slice_index n s) s.

Definition py_slice_from (s : string) (n : Z) : string :=
  str_drop (slice_index n s) s.

(** [send_large_message(chat_id, text, max_length)].  [bot_send k] is
    what the [k]-th [bot.send_message] of the call does with the chat and
    the part it is given: it returns or raises, and nothing catches what
    it raises.  The result is how the call ended and the parts handed to
    [bot.send_message], in order.  [fuel] bounds the number of times the
    condition of the [while] is evaluated; [None] is a loop that is still
    running when it is used up. *)
Fixpoint send_large_message (fuel : nat)
    (bot_send : nat -> pyval -> string -> res unit)
    (chat_id : pyval) (text : string) (max_length : Z)
    : option (res unit) * list string :=
  match fuel with
  | O => (None, [])
  | S fuel' =>
      match text with
      | EmptyString => (Some (Val tt), [])
      | String _ _ =>
          let part := py_slice_to text max_length in
          match bot_send 0%nat chat_id part with
          | Val _ =>
              let rest :=
                send_large_message fuel' (fun k => bot_send (S k)) chat_id
                  (py_slice_from text max_length) max_length in
              (fst rest, part :: snd rest)
          | Raise error => (Some (Raise error), [part])
          end
      end
  end.

(** [try: r except Exception as error: h error], without state. *)
Definition res_try {A : Type} (r : res A) (h : exn -> res A) : res A :=
  match r with
  | Val a => Val a
  | Raise error => h error
  end.

Section Balance.

Variable py : PyLib.

Local Open Scope res_scope.

(** [request_get_balance(url, data, headers)], as a function of what its
    one [client.post] gives. *)
Definition request_get_balance (reply : http_reply) : res pyval :=
  res_try
    (match reply with
     | ConnectionFailed msg => Raise (TransportError msg)
     | Reply status_code body =>
         if status_code =? 200 then
           data <- match body with
                   | Some v => Val v
                   | None => Raise JSONDecodeError
                   end ;;
           code <- py_getitem data "code" ;;
           if py_eq_str code "APPLY_SUCCESS" then
             inner <- py_getitem data "data" ;;
             jm_balance <- py_get inner "balance" ;;
             Val (dict [("status", PStr "success");
                        ("message", PStr "balance received successfully");
                        ("jm_balance", jm_balance)])
           else
             Val (dict [("status", PStr "warning");
                        ("message", PStr "balance not received");
                        ("data", data)])
         else Val (request_failed status_code)
     end)
    (fun error =>
       Val (dict [("status", PStr "exception");
                  ("message", PStr "function error: (getting a balance)");
                  ("data", PStr (exn_str py error))])).

(** [ServiceJollymax.balance_query]: the payload, of strings and an empty
    object, is signed before the [try]; [key_ok] tells whether
    [private.key.pem] can be read and loaded. *)
Definition balance_query (key_ok : bool) (reply : http_reply) : res pyval :=
  if key_ok then
    res_try (request_get_balance reply)
      (fun error =>
         Val (dict [("status", PStr "error");
                    ("message", PStr "function balance_query");
                    ("data", PStr (exn_str py error))]))
  else Raise (OSError "private.key.pem").

(** What the operator is answered: the balance, or the error.  The
    values stand for the two f-strings of the handler. *)
Inductive answer : Type :=
| BalanceShown (jm_balance : pyval)
| ErrorShown (error : exn).

(** [handle_req_balance(message)]. *)
Definition handle_req_balance (key_ok : bool) (reply : http_reply) : answer :=
  match (balance <- balance_query key_ok reply ;;
         py_getitem balance "jm_balance") with
  | Val jm_balance => BalanceShown jm_balance
  | Raise error => ErrorShown error
  end.

End Balance.

(* ================================================================= *)
(** ** The types of the columns ([models.py]) *)

(** The values that the columns are declared for: for [String] and
    [Text] a string, without the character of code 0, which the store
    does not take in a text; for [Integer] an integer of four bytes. *)
Definition is_text (v : pyval) : bool :=
  match v with
  | PStr s => negb (has_char "000"%char s)
  | _ => false
  end.

Definition is_int4 (v : pyval) : bool :=
  match v with
  | PInt z => (-2147483648 <=? z) && (z <=? 2147483647)
  | _ => false
  end.

(** The values that a request brings to a new order are of the types
    of their columns ([user_id], [zone_id], [quantity], [price],
    [product], [email_user]). *)
Definition typed_request
    (user_id zone_id quantity price product email_user : pyval) : bool :=
  is_text user_id && is_text zone_id && is_int4 quantity && is_text price &&
  is_text product && is_text email_user.

(* ================================================================= *)
(** * Properties *)

(* ================================================================= *)
(** ** Equality of values *)


Lemma list_eqb_eq (A : Type) (eqA : A -> A -> bool) (l1 : list A) :
  Forall (fun x => forall y, eqA x y = true <-> x = y) l1 ->
  forall l2, list_eqb eqA l1 l2 = true <-> l1 = l2.
Proof.
  induction 1 as [|x l1 Hx _ IH]; intros [|y l2]; simpl;
    try (split; [discriminate | discriminate]).
  - split; reflexivity.
  - rewrite andb_true_iff, Hx, IH. split.
    + intros [-> ->]. reflexivity.
    + intros E. injection E as -> ->. split; reflexivity.
Qed.

Lemma pyval_eqb_eq (a b : pyval) : pyval_eqb a b = true <-> a = b.
Proof.
  revert b. induction a using pyval_nested_ind; intros y; destruct y; simpl;
    try (split; [discriminate | discriminate]).
  - split; reflexivity.
  - rewrite Bool.eqb_true_iff. split; [intros -> | intros [= ->]]; reflexivity.
  - rewrite Z.eqb_eq. split; [intros -> | intros [= ->]]; reflexivity.
  - destruct x, x0; simpl; split; intros E;
      first [reflexivity | discriminate].
  - rewrite String.eqb_eq. split; [intros -> | intros [= ->]]; reflexivity.
  - rewrite (list_eqb_eq pyval_eqb H).
    split; [intros -> | intros [= ->]]; reflexivity.
  - rewrite (list_eqb_eq pyval_eqb H).
    split; [intros -> | intros [= ->]]; reflexivity.
  - rewrite list_eqb_eq.
    + split; [intros -> | intros [= ->]]; reflexivity.
    + clear - H. induction H as [|[k v] kv Hv _ IH]; constructor; auto.
      intros [k' v']. simpl in *. rewrite andb_true_iff, String.eqb_eq, Hv.
      split; [intros [-> ->] | intros [= -> ->]]; auto.
  - rewrite Z.eqb_eq. split; [intros -> | intros [= ->]]; reflexivity.
  - rewrite andb_true_iff, Z.eqb_eq, IHa.
    split; [intros [-> ->] | intros [= -> ->]]; auto.
Qed.

Lemma pyval_eqb_refl (a : pyval) : pyval_eqb a a = true.
Proof. apply pyval_eqb_eq. reflexivity. Qed.

Lemma pyval_eqb_neq (a b : pyval) : a <> b -> pyval_eqb a b = false.
Proof.
  intros N. destruct (pyval_eqb a b) eqn:E; [|reflexivity].
  apply pyval_eqb_eq in E. contradiction.
Qed.

(* ================================================================= *)
(** ** The order store *)

Lemma count_vp_create (d : Database)
    (user_id zone_id quantity price product api_name order_id email_user
       status order_details h : pyval) :
  count_vp (createOrderVP d user_id zone_id quantity price product api_name
              order_id email_user status order_details) h
  = (count_vp d h + (if pyval_eqb order_id h then 1 else 0))%nat.
Proof.
  unfold count_vp, createOrderVP, insert_order. simpl.
  rewrite filter_app, length_app. simpl.
  destruct (pyval_eqb order_id h); reflexivity.
Qed.

Lemma count_mg_create (d : Database)
    (user_id zone_id quantity price product api_name order_id email_user
       status order_details h : pyval) :
  count_mg (createOrderMG d user_id zone_id quantity price product api_name
              order_id email_user status order_details) h
  = (count_mg d h + (if pyval_eqb order_id h then 1 else 0))%nat.
Proof.
  unfold count_mg, createOrderMG, insert_order. simpl.
  rewrite filter_app, length_app. simpl.
  destruct (pyval_eqb order_id h); reflexivity.
Qed.

Lemma count_jm_create (d : Database)
    (user_id zone_id quantity price product api_name order_id message_id
       email_user status order_details h m : pyval) :
  count_jm (createOrderJM d user_id zone_id quantity price product api_name
              order_id message_id email_user status order_details) h m
  = (count_jm d h m
     + (if pyval_eqb order_id h && pyval_eqb message_id m then 1 else 0))%nat.
Proof.
  unfold count_jm, createOrderJM. simpl.
  rewrite filter_app, length_app. unfold jm_matches at 2. simpl.
  destruct (pyval_eqb order_id h && pyval_eqb message_id m); reflexivity.
Qed.

(** C1, as the store has it: a create appends one row.  The number of
    rows of a handle grows by one when that handle is created and is
    otherwise unchanged, in each of the three tables; hence a store with
    at most one row per handle keeps that property when the created handle
    was not yet there. *)
Theorem create_adds_exactly_one_row (d : Database)
    (user_id zone_id quantity price product api_name order_id message_id
       email_user status order_details : pyval) :
  let vp := createOrderVP d user_id zone_id quantity price product api_name
              order_id email_user status order_details in
  let mg := createOrderMG d user_id zone_id quantity price product api_name
              order_id email_user status order_details in
  let jm := createOrderJM d user_id zone_id quantity price product api_name
              order_id message_id email_user status order_details in
  (count_vp vp order_id = S (count_vp d order_id) /\
   count_mg mg order_id = S (count_mg d order_id) /\
   count_jm jm order_id message_id = S (count_jm d order_id message_id)) /\
  (one_row_per_handle d ->
   (count_vp d order_id = 0%nat -> one_row_per_handle vp) /\
   (count_mg d order_id = 0%nat -> one_row_per_handle mg) /\
   (count_jm d order_id message_id = 0%nat -> one_row_per_handle jm)).
Proof.
  intros vp mg jm. split.
  - unfold vp, mg, jm.
    rewrite count_vp_create, count_mg_create, count_jm_create.
    rewrite !pyval_eqb_refl. simpl. repeat split; lia.
  - intros (Hvp & Hmg & Hjm).
    split; [|split]; intros Hfresh; (split; [|split]); try assumption.
    + intros h. unfold vp. rewrite count_vp_create.
      destruct (pyval_eqb order_id h) eqn:E.
      * apply pyval_eqb_eq in E. subst. lia.
      * specialize (Hvp h). lia.
    + intros h. unfold mg. rewrite count_mg_create.
      destruct (pyval_eqb order_id h) eqn:E.
      * apply pyval_eqb_eq in E. subst. lia.
      * specialize (Hmg h). lia.
    + intros h m. unfold jm. rewrite count_jm_create.
      destruct (pyval_eqb order_id h) eqn:E1;
        destruct (pyval_eqb message_id m) eqn:E2; simpl;
        try (specialize (Hjm h m); lia).
      apply pyval_eqb_eq in E1, E2. subst. lia.
Qed.

Lemma one_row_per_handle_empty : one_row_per_handle empty_db.
Proof.
  unfold one_row_per_handle, count_vp, count_mg, count_jm. simpl.
  repeat split; intros; lia.
Defined.

Lemma create_adds_exactly_one_row_witness :
  one_row_per_handle empty_db /\
  one_row_per_handle
    (createOrderVP empty_db (PStr "u1") (PStr "z1") (PInt 1) (PStr "10.00")
       (PStr "Gift Card") (PStr "VIPAYMENT") (PStr "T1") (PStr "e@x.com")
       (PStr "waiting") (PStr "{}")).
Proof.
  pose proof one_row_per_handle_empty as H0.
  split; [exact H0|].
  apply (create_adds_exactly_one_row empty_db (PStr "u1") (PStr "z1") (PInt 1)
           (PStr "10.00") (PStr "Gift Card") (PStr "VIPAYMENT") (PStr "T1")
           PNone (PStr "e@x.com") (PStr "waiting") (PStr "{}")).
  - exact H0.
  - reflexivity.
Defined.

(** C1 as stated fails: the empty store has at most one row per handle,
    and two creates with the same handle leave two rows for it, for
    VIPayment (and MooGold, the same code on another table) as for
    Jollymax. *)
Lemma create_twice_gives_two_rows :
  let vp1 := createOrderVP empty_db (PStr "u1") (PStr "z1") (PInt 1)
               (PStr "10.00") (PStr "Gift Card") (PStr "VIPAYMENT")
               (PStr "T1") (PStr "e@x.com") (PStr "waiting") (PStr "{}") in
  let vp2 := createOrderVP vp1 (PStr "u1") (PStr "z1") (PInt 1)
               (PStr "10.00") (PStr "Gift Card") (PStr "VIPAYMENT")
               (PStr "T1") (PStr "e@x.com") (PStr "waiting") (PStr "{}") in
  let jm1 := createOrderJM empty_db (PStr "u1") (PStr "z1") (PInt 1)
               (PStr "10.00") (PStr "Gift Card") (PStr "JOLLYMAX")
               (PStr "TM003400A") (PStr "M1") (PStr "e@x.com")
               (PStr "waiting") (PStr "{}") in
  let jm2 := createOrderJM jm1 (PStr "u1") (PStr "z1") (PInt 1)
               (PStr "10.00") (PStr "Gift Card") (PStr "JOLLYMAX")
               (PStr "TM003400A") (PStr "M1") (PStr "e@x.com")
               (PStr "waiting") (PStr "{}") in
  one_row_per_handle empty_db /\
  count_vp vp2 (PStr "T1") = 2%nat /\
  count_jm jm2 (PStr "TM003400A") (PStr "M1") = 2%nat /\
  ~ one_row_per_handle vp2 /\
  ~ one_row_per_handle jm2.
Proof.
  intros vp1 vp2 jm1 jm2. split; [|split; [|split; [|split]]].
  - exact one_row_per_handle_empty.
  - reflexivity.
  - reflexivity.
  - intros (H & _ & _). specialize (H (PStr "T1")).
    change (count_vp vp2 (PStr "T1")) with 2%nat in H. lia.
  - intros (_ & _ & H). specialize (H (PStr "TM003400A") (PStr "M1")).
    change (count_jm jm2 (PStr "TM003400A") (PStr "M1")) with 2%nat in H. lia.
Qed.

Lemma map_if_find (A : Type) (p c : A -> bool) (f : A -> A) (l : list A) :
  (forall x, c x = true -> p x = false /\ p (f x) = false) ->
  find p (map (fun x => if c x then f x else x) l) = find p l.
Proof.
  intros H. induction l as [|x l IH]; simpl; [reflexivity|].
  destruct (c x) eqn:C.
  - destruct (H x C) as [-> ->]. exact IH.
  - destruct (p x); [reflexivity | exact IH].
Qed.

(** C9: an update addressed to (order_id, message_id) leaves every
    Jollymax row with another message_id as it was, at its place; looking
    up the same order_id with another message_id gives the same answer
    before and after; and creating an order does not change the number of
    rows of the same order_id under another message_id, so the two are
    separate rows. *)
Theorem updateOrderJM_other_message_untouched
    (d : Database) (order_id message_id status new_order_details : pyval) :
  let d' := updateOrderJM d order_id message_id status new_order_details in
  (forall i r,
      nth_error (rows (jm_orders d)) i = Some r ->
      jm_message_id r <> message_id ->
      nth_error (rows (jm_orders d')) i = Some r) /\
  (forall other,
      other <> message_id ->
      getOrderIdJM d' order_id other = getOrderIdJM d order_id other) /\
  (forall other user_id zone_id quantity price product api_name email_user
          st details,
      other <> message_id ->
      count_jm (createOrderJM d user_id zone_id quantity price product
                  api_name order_id message_id email_user st details)
        order_id other
      = count_jm d order_id other).
Proof.
  intros d'. split; [|split].
  - intros i r Hi Hneq. unfold d', updateOrderJM. simpl.
    rewrite nth_error_map, Hi. simpl. unfold jm_matches.
    rewrite (pyval_eqb_neq Hneq), andb_false_r. reflexivity.
  - intros other Hneq. unfold d', getOrderIdJM, updateOrderJM. simpl.
    apply map_if_find. intros r Hr. unfold jm_matches in *. simpl.
    apply andb_true_iff in Hr. destruct Hr as [_ Hm].
    apply pyval_eqb_eq in Hm. rewrite Hm.
    assert (E : pyval_eqb message_id other = false).
    { apply pyval_eqb_neq. congruence. }
    rewrite E, !andb_false_r. split; reflexivity.
  - intros other user_id zone_id quantity price product api_name email_user
      st details Hneq.
    rewrite count_jm_create.
    assert (E : pyval_eqb message_id other = false).
    { apply pyval_eqb_neq. congruence. }
    rewrite E, andb_false_r. lia.
Qed.

Lemma updateOrderJM_other_message_untouched_witness :
  let d := createOrderJM
             (createOrderJM empty_db (PStr "u1") (PStr "z1") (PInt 1)
                (PStr "10.00") (PStr "Gift Card") (PStr "JOLLYMAX")
                (PStr "TM003400A") (PStr "M1") (PStr "e@x.com")
                (PStr "waiting") (PStr "{}"))
             (PStr "u2") (PStr "z2") (PInt 2) (PStr "20.00")
             (PStr "Gift Card") (PStr "JOLLYMAX") (PStr "TM003400A")
             (PStr "M2") (PStr "f@x.com") (PStr "waiting") (PStr "{}") in
  let d' := updateOrderJM d (PStr "TM003400A") (PStr "M1") (PStr "SUCCESS")
              (PStr "{'code': 'APPLY_SUCCESS'}") in
  option_map jm_status (getOrderIdJM d' (PStr "TM003400A") (PStr "M1"))
    = Some (PStr "SUCCESS") /\
  getOrderIdJM d' (PStr "TM003400A") (PStr "M2")
    = getOrderIdJM d (PStr "TM003400A") (PStr "M2") /\
  option_map jm_status (getOrderIdJM d (PStr "TM003400A") (PStr "M2"))
    = Some (PStr "waiting").
Proof.
  intros d d'. split; [reflexivity | split; [|reflexivity]].
  apply (updateOrderJM_other_message_untouched d (PStr "TM003400A")
           (PStr "M1") (PStr "SUCCESS") (PStr "{'code': 'APPLY_SUCCESS'}")).
  discriminate.
Defined.

(* ================================================================= *)
(** ** Running the monad *)

(** Unfolds the monad's operations and the projections of the world, and
    nothing of the Python operations, so that hypotheses about them still
    match. *)
Ltac mstep :=
  repeat (progress
    (unfold bind, try_except, ret, raise, lift, emit, execute, get_db,
       response_json, function_error, check_exception, dict, request_failed,
       client_post in *;
     cbn [fst snd db trace posts ids Z.eqb Pos.eqb res_bind
          serializable forallb andb render_error first_some] in *)).

(** The same, then the Python operations whose argument is known. *)
Ltac pystep :=
  repeat (progress
    (mstep;
     cbn [py_contains py_getitem py_get py_get_default py_first py_is_list
          py_eq_true py_truthy negb] in *)).

Lemma app_two (A : Type) (l : list A) (a b : A) :
  ((l ++ [a]) ++ [b] = l ++ [a; b])%list.
Proof. rewrite <- app_assoc. reflexivity. Qed.

(* ================================================================= *)
(** ** Confinement of effects *)

Section Confinement.

Variable P : event -> Prop.
Variable D : Database -> Database -> Prop.
Hypothesis D_refl : forall d, D d d.
Hypothesis D_trans : forall a b c, D a b -> D b c -> D a c.

Lemma confined_same (A : Type) (m : M A) :
  (forall w, snd (m w) = w) -> confined P D m.
Proof.
  intros H w. exists []. rewrite H, app_nil_r. auto.
Qed.

Lemma confined_ret (A : Type) (a : A) : confined P D (ret a).
Proof. apply confined_same. reflexivity. Qed.

Lemma confined_raise (A : Type) (e : exn) : confined P D (raise (A := A) e).
Proof. apply confined_same. reflexivity. Qed.

Lemma confined_lift (A : Type) (r : res A) : confined P D (lift r).
Proof. apply confined_same. reflexivity. Qed.

Lemma confined_response_json (body : option pyval) :
  confined P D (response_json body).
Proof.
  destruct body; [apply confined_ret | apply confined_raise].
Qed.

Lemma confined_get_db : confined P D get_db.
Proof. apply confined_same. reflexivity. Qed.

Lemma confined_emit (e : event) : P e -> confined P D (emit e).
Proof.
  intros He w. exists [e]. simpl. auto.
Qed.

Lemma confined_execute (f : Database -> Database) (e : event) :
  P e -> (forall d, D d (f d)) -> confined P D (execute f e).
Proof.
  intros He Hf w. exists [e]. simpl. auto.
Qed.

Lemma confined_bind (A B : Type) (m : M A) (k : A -> M B) :
  confined P D m -> (forall a, confined P D (k a)) -> confined P D (bind m k).
Proof.
  intros Hm Hk w. unfold bind.
  destruct (Hm w) as (t1 & E1 & F1 & D1).
  destruct (m w) as [[a|e] w1]; simpl in *.
  - destruct (Hk a w1) as (t2 & E2 & F2 & D2).
    exists (t1 ++ t2)%list. rewrite E2, E1, app_assoc.
    split; [reflexivity|]. split; [apply Forall_app; auto | eauto].
  - exists t1. auto.
Qed.

Lemma confined_try (A : Type) (m : M A) (h : exn -> M A) :
  confined P D m -> (forall e, confined P D (h e)) ->
  confined P D (try_except m h).
Proof.
  intros Hm Hh w. unfold try_except.
  destruct (Hm w) as (t1 & E1 & F1 & D1).
  destruct (m w) as [[a|e] w1]; simpl in *.
  - exists t1. auto.
  - destruct (Hh e w1) as (t2 & E2 & F2 & D2).
    exists (t1 ++ t2)%list. rewrite E2, E1, app_assoc.
    split; [reflexivity|]. split; [apply Forall_app; auto | eauto].
Qed.

Lemma confined_for_each (A : Type) (l : list A) (body : A -> M unit) :
  (forall x, confined P D (body x)) -> confined P D (for_each l body).
Proof.
  intros Hb. induction l as [|x l IH]; simpl.
  - apply confined_ret.
  - apply confined_bind; auto.
Qed.

Variable env : Env.
Variable py : PyLib.

Lemma confined_post (p : provider) (o : op) :
  P (HttpPost p o) -> confined P D (client_post env p o).
Proof.
  intros He w. exists [HttpPost p o]. unfold client_post.
  destruct (http env (posts w)); simpl; auto.
Qed.

Lemma confined_dumps (v : pyval) : confined P D (py_dumps py v).
Proof.
  unfold py_dumps. destruct (serializable v);
    [apply confined_ret | apply confined_raise].
Qed.

Lemma confined_JSONResponse (c : Z) (v : pyval) : confined P D (JSONResponse c v).
Proof.
  unfold JSONResponse. destruct (render_error v);
    [apply confined_raise | apply confined_ret].
Qed.

Lemma confined_unique_id (prefix : string) :
  confined P D (generate_unique_id env prefix).
Proof.
  intros w. exists []. simpl. rewrite app_nil_r. auto.
Qed.

Lemma confined_signature (payload : pyval) :
  confined P D (generate_signature env py payload).
Proof.
  intros w. unfold generate_signature.
  destruct (key_file_ok env (posts w)).
  - apply confined_bind; [apply confined_dumps | intro; apply confined_ret].
  - exists []. simpl. rewrite app_nil_r. auto.
Qed.

End Confinement.

(** Splits a computation along its structure, leaving the conditions on
    the events it emits. *)
Ltac confine :=
  repeat first
    [ solve [intros; exact I]
    | solve [intros; congruence]
    | solve [reflexivity]
    | apply confined_ret | apply confined_raise | apply confined_lift
    | apply confined_get_db | apply confined_dumps
    | apply confined_response_json
    | apply confined_JSONResponse | apply confined_unique_id
    | apply confined_signature
    | apply confined_bind | apply confined_try
    | apply confined_emit | apply confined_post
    | apply confined_execute
    | match goal with
      | |- forall _, confined _ _ _ => intro
      | |- confined _ _ (if ?b then _ else _) => destruct b
      | |- confined _ _ (match ?x with _ => _ end) => destruct x
      end ].

Lemma check_adapters_read_only (env : Env) (py : PyLib)
    (order_id message_id : pyval) :
  read_only (ServiceVIPayment_check_order env py order_id) /\
  read_only (ServiceMoogold_check_order env py order_id) /\
  read_only (ServiceJollymax_check_order env py order_id message_id).
Proof.
  unfold read_only, ServiceVIPayment_check_order, ServiceMoogold_check_order,
    ServiceJollymax_check_order, request_checking_order_vp,
    request_checking_order_mg, request_checking_order_jm,
    function_error, check_exception.
  repeat split; confine.
Qed.

(* ================================================================= *)
(** ** Order creation *)

(** C8: when the POST of a creation is answered with status 200 and a body
    whose discriminator is there but is not the successful one
    ([result == True] for VIPayment, [status == True] for MooGold,
    [code == "APPLY_SUCCESS"] for Jollymax), the adapter returns the
    warning result that carries the body, and the world afterwards has
    the same database and no insert in its trace: only the call and the
    POST were added.  The request fields are JSON values, and for Jollymax
    the key file is readable, so that the POST is reached. *)
Theorem rejected_creation_is_not_persisted
    (env : Env) (py : PyLib) (w : World)
    (service user_id zone_id email quantity price product data v : pyval) :
  http env (posts w) = Reply 200 (Some data) ->
  let warning := dict [("status", PStr "warning");
                       ("message", PStr "order creation failed");
                       ("data", data)] in
  let after p n :=
    mkWorld (db w) (trace w ++ [AdapterCall p Create; HttpPost p Create])
      (S (posts w)) (n + ids w) in
  (py_getitem data "result" = Val v -> py_eq_true v = false ->
   ServiceVIPayment_create_order env py service user_id zone_id email
     quantity price product w
   = (Val warning, after VIPayment 0%nat)) /\
  (py_getitem data "status" = Val v -> py_eq_true v = false ->
   serializable service = true -> serializable user_id = true ->
   serializable zone_id = true ->
   ServiceMoogold_create_order env py service user_id zone_id email
     quantity price product w
   = (Val warning, after MooGold 0%nat)) /\
  (py_getitem data "code" = Val v -> py_eq_str v "APPLY_SUCCESS" = false ->
   serializable service = true -> serializable user_id = true ->
   serializable zone_id = true -> key_file_ok env (posts w) = true ->
   ServiceJollymax_create_order env py service user_id zone_id email
     quantity price product w
   = (Val warning, after Jollymax 2%nat)).
Proof.
  intros Hh warning after. split; [|split].
  - intros Hr Hf.
    unfold ServiceVIPayment_create_order, request_creating_order_vp.
    mstep. rewrite Hh. mstep. rewrite Hr. mstep. rewrite Hf. mstep.
    rewrite app_two. reflexivity.
  - intros Hr Hf Hs Hu Hz.
    unfold ServiceMoogold_create_order, request_creating_order_mg, py_dumps.
    mstep. rewrite Hs, Hu, Hz. mstep.
    rewrite Hh. mstep. rewrite Hr. mstep. rewrite Hf. mstep.
    rewrite app_two. reflexivity.
  - intros Hr Hf Hs Hu Hz Hk.
    unfold ServiceJollymax_create_order, request_creating_order_jm,
      generate_unique_id, generate_signature, py_dumps.
    mstep. rewrite Hk. mstep. rewrite Hs, Hu, Hz. mstep.
    rewrite Hh. mstep. rewrite Hr. mstep. rewrite Hf. mstep.
    rewrite app_two. reflexivity.
Qed.

Lemma rejected_creation_is_not_persisted_witness :
  let data := PDict [("result", PBool false); ("status", PBool false);
                     ("code", PStr "BALANCE_NOT_ENOUGH")] in
  let env := scripted [ok_json data] in
  let warning := PDict [("status", PStr "warning");
                        ("message", PStr "order creation failed");
                        ("data", data)] in
  let run (create : pyval -> pyval -> pyval -> pyval -> pyval -> pyval ->
                    pyval -> M pyval) :=
    create (PStr "123") (PStr "u1") (PStr "z1") (PStr "e@x.com") (PInt 1)
      (PStr "10.00") (PStr "Gift Card") (world0 empty_db) in
  (fst (run (ServiceVIPayment_create_order env demo_py)) = Val warning /\
   db (snd (run (ServiceVIPayment_create_order env demo_py))) = empty_db) /\
  (fst (run (ServiceMoogold_create_order env demo_py)) = Val warning /\
   db (snd (run (ServiceMoogold_create_order env demo_py))) = empty_db) /\
  (fst (run (ServiceJollymax_create_order env demo_py)) = Val warning /\
   db (snd (run (ServiceJollymax_create_order env demo_py))) = empty_db).
Proof.
  intros data env warning run.
  pose proof (@rejected_creation_is_not_persisted env demo_py
                (world0 empty_db) (PStr "123") (PStr "u1") (PStr "z1")
                (PStr "e@x.com") (PInt 1) (PStr "10.00") (PStr "Gift Card")
                data (PBool false) eq_refl) as (Hvp & Hmg & _).
  pose proof (@rejected_creation_is_not_persisted env demo_py
                (world0 empty_db) (PStr "123") (PStr "u1") (PStr "z1")
                (PStr "e@x.com") (PInt 1) (PStr "10.00") (PStr "Gift Card")
                data (PStr "BALANCE_NOT_ENOUGH") eq_refl) as (_ & _ & Hjm).
  unfold run.
  rewrite (Hvp eq_refl eq_refl).
  rewrite (Hmg eq_refl eq_refl eq_refl eq_refl eq_refl).
  rewrite (Hjm eq_refl eq_refl eq_refl eq_refl eq_refl eq_refl).
  repeat split.
Defined.

Lemma send_message_order_run (cfg : Config) (text : string) (w : World) :
  send_message_order cfg text w
  = (Val tt,
     mkWorld (db w)
       (trace w ++ map (fun admin => Notify admin text) (TG_ADMINS cfg))
       (posts w) (ids w)).
Proof.
  unfold send_message_order. revert w.
  induction (TG_ADMINS cfg) as [|admin admins IH]; intros w; simpl.
  - rewrite app_nil_r. destruct w; reflexivity.
  - unfold bind, emit. rewrite IH. simpl. rewrite <- app_assoc. reflexivity.
Qed.

Lemma bind_emit_trace (A : Type) (e : event) (k : unit -> M A) :
  trace_grows (k tt) ->
  forall w, exists rest,
    trace (snd (bind (emit e) k w)) = (trace w ++ e :: rest)%list.
Proof.
  intros Hk w. unfold bind, emit.
  destruct (Hk (mkWorld (db w) (trace w ++ [e]) (posts w) (ids w)))
    as (t & E & _).
  exists t. rewrite E. simpl. rewrite <- app_assoc. reflexivity.
Qed.

Lemma try_except_world (A : Type) (m : M A) (h : exn -> M A) (w : World) :
  (forall e w', snd (h e w') = w') ->
  snd (try_except m h w) = snd (m w).
Proof.
  intros Hh. unfold try_except. destruct (m w) as [[a|e] w']; simpl; auto.
Qed.

Lemma JSONResponse_world (c : Z) (v : pyval) (w : World) :
  snd (JSONResponse c v w) = w.
Proof. unfold JSONResponse. destruct (render_error v); reflexivity. Qed.

Lemma create_adapters_start_with_their_call (env : Env) (py : PyLib)
    (service user_id zone_id email quantity price product : pyval) (w : World) :
  (exists rest,
      trace (snd (ServiceVIPayment_create_order env py service user_id
                    zone_id email quantity price product w))
      = (trace w ++ AdapterCall VIPayment Create :: rest)%list) /\
  (exists rest,
      trace (snd (ServiceMoogold_create_order env py service user_id
                    zone_id email quantity price product w))
      = (trace w ++ AdapterCall MooGold Create :: rest)%list) /\
  (exists rest,
      trace (snd (ServiceJollymax_create_order env py service user_id
                    zone_id email quantity price product w))
      = (trace w ++ AdapterCall Jollymax Create :: rest)%list).
Proof.
  repeat split; apply bind_emit_trace;
    unfold trace_grows, request_creating_order_vp, request_creating_order_mg,
      request_creating_order_jm, function_error; confine.
Qed.

(** C6: for each of the three recognized service codes, whatever the
    provider and the key file do, the events that order creation adds to
    the trace begin with the new-order message to every operator, in the
    order of the configuration, and the call of the selected adapter
    comes right after them. *)
Theorem new_order_is_announced_before_the_adapter
    (cfg : Config) (env : Env) (py : PyLib) (w : World)
    (product_code user_id zone_id email quantity price product_name : pyval) :
  let announce label :=
    map (fun admin =>
           Notify admin (order_text py label product_name user_id quantity price))
        (TG_ADMINS cfg) in
  let added code :=
    trace (snd (service_create_order cfg env py (PStr code) product_code
                  user_id zone_id email quantity price product_name w)) in
  (exists rest, added "VP"
     = (trace w ++ announce "VIPayment" ++ AdapterCall VIPayment Create :: rest)%list) /\
  (exists rest, added "MG"
     = (trace w ++ announce "Moogold" ++ AdapterCall MooGold Create :: rest)%list) /\
  (exists rest, added "JM"
     = (trace w ++ announce "JollyMax" ++ AdapterCall Jollymax Create :: rest)%list).
Proof.
  intros announce added. unfold added, service_create_order.
  cbn [py_eq_str String.eqb Ascii.eqb Bool.eqb].
  split; [|split].
  all: rewrite try_except_world by (intros; apply JSONResponse_world).
  all: unfold bind at 1; rewrite send_message_order_run.
  all: match goal with
       | |- context [snd (_ ?en ?lib ?s ?u ?z ?e ?q ?p ?n ?w1)] =>
           destruct (create_adapters_start_with_their_call en lib s u z e q
                       p n w1) as ((r1 & E1) & (r2 & E2) & (r3 & E3))
       end.
  - exists r1. rewrite E1. simpl. rewrite <- app_assoc. reflexivity.
  - exists r2. rewrite E2. simpl. rewrite <- app_assoc. reflexivity.
  - exists r3. rewrite E3. simpl. rewrite <- app_assoc. reflexivity.
Qed.

Lemma dict_get_serializable (k : string) (kv : list (string * pyval)) (x : pyval) :
  dict_get k kv = Some x ->
  forallb (fun p => serializable (snd p)) kv = true ->
  serializable x = true.
Proof.
  induction kv as [|[k' v] kv IH]; simpl; [discriminate|].
  intros Hget Hall. apply andb_true_iff in Hall. destruct Hall as [Hv Hrest].
  destruct (String.eqb k k'); [congruence | auto].
Qed.

Lemma getitem_serializable (d x : pyval) (k : string) :
  py_getitem d k = Val x -> serializable d = true -> serializable x = true.
Proof.
  destruct d; simpl; try discriminate.
  destruct (dict_get k kv) eqn:E; [|discriminate].
  intros [= <-] H. eapply dict_get_serializable; eauto.
Qed.

Lemma serializable_not_response (x : pyval) :
  serializable x = true -> is_response x = false.
Proof. destruct x; simpl; auto; discriminate. Qed.

(** Case analysis on whatever a hypothesis still branches on, innermost
    scrutinee first. *)
Ltac crunch H :=
  repeat (repeat (progress mstep);
          match type of H with
          | context [match ?e with _ => _ end] =>
              lazymatch e with
              | context [match _ with _ => _ end] => fail
              | _ => destruct e eqn:?
              end
          end;
          cbv beta iota in H).

Lemma create_adapters_return_no_response (env : Env) (py : PyLib)
    (service user_id zone_id email quantity price product x : pyval)
    (w w' : World) :
  (ServiceVIPayment_create_order env py service user_id zone_id email
     quantity price product w = (Val x, w') -> is_response x = false) /\
  (ServiceMoogold_create_order env py service user_id zone_id email
     quantity price product w = (Val x, w') -> is_response x = false) /\
  (ServiceJollymax_create_order env py service user_id zone_id email
     quantity price product w = (Val x, w') -> is_response x = false).
Proof.
  unfold ServiceVIPayment_create_order, ServiceMoogold_create_order,
    ServiceJollymax_create_order, request_creating_order_vp,
    request_creating_order_mg, request_creating_order_jm,
    generate_unique_id, generate_signature, py_dumps.
  repeat split; intros H; crunch H; inversion H; subst;
    try reflexivity;
    eauto using getitem_serializable, serializable_not_response.
Qed.

(** What [service_create_order] hands to the handler: a service code
    that is none of "VP", "MG", "JM" makes it return the 400 response
    "Invalid service code" as a value and leaves the world as it was: no
    message to the operators, no adapter call, no POST, no store write.
    That value is the outcome of this case only: with a recognized code
    the result is never it. *)
Lemma unknown_service_code_is_refused
    (cfg : Config) (env : Env) (py : PyLib) (w : World)
    (service_code product_code user_id zone_id email quantity price
       product_name : pyval) :
  (py_eq_str service_code "VP" = false ->
   py_eq_str service_code "MG" = false ->
   py_eq_str service_code "JM" = false ->
   service_create_order cfg env py service_code product_code user_id zone_id
     email quantity price product_name w
   = (Val invalid_service_code, w)) /\
  (py_eq_str service_code "VP" = true \/
   py_eq_str service_code "MG" = true \/
   py_eq_str service_code "JM" = true ->
   fst (service_create_order cfg env py service_code product_code user_id
          zone_id email quantity price product_name w)
   <> Val invalid_service_code).
Proof.
  split.
  - intros Hvp Hmg Hjm. unfold service_create_order.
    rewrite Hvp, Hmg, Hjm. reflexivity.
  - intros Hcode Hres. unfold service_create_order in Hres.
    assert (Hsent : forall (text : string) (adapter : M pyval),
              (forall w1 x w', adapter w1 = (Val x, w') -> is_response x = false) ->
              fst (try_except
                     (bind (send_message_order cfg text) (fun _ => adapter))
                     (fun error =>
                        JSONResponse 500
                          (dict [("status", PStr "error");
                                 ("message", PStr "create order");
                                 ("data", PStr (exn_str py error))])) w)
              <> Val invalid_service_code).
    { intros text adapter Hadapter. unfold try_except, bind.
      rewrite send_message_order_run.
      match goal with |- context [adapter ?w1] =>
        destruct (adapter w1) as [[x|e] w'] eqn:E end.
      - apply Hadapter in E. simpl. intros [= ->]. discriminate.
      - simpl. discriminate. }
    destruct (py_eq_str service_code "VP");
      [| destruct (py_eq_str service_code "MG");
         [| destruct (py_eq_str service_code "JM")]].
    + revert Hres. apply Hsent. intros w1 x w'.
      apply create_adapters_return_no_response.
    + revert Hres. apply Hsent. intros w1 x w'.
      apply create_adapters_return_no_response.
    + revert Hres. apply Hsent. intros w1 x w'.
      apply create_adapters_return_no_response.
    + destruct Hcode as [H | [H | H]]; discriminate.
Qed.

Lemma unknown_service_code_is_refused_witness :
  let env := scripted [] in
  let order code :=
    service_create_order demo_cfg env demo_py (PStr code) (PStr "123")
      (PStr "u1") (PStr "z1") (PStr "e@x.com") (PInt 1) (PStr "10.00")
      (PStr "Gift Card") (world0 empty_db) in
  order "XX" = (Val invalid_service_code, world0 empty_db) /\
  fst (order "MG") <> Val invalid_service_code.
Proof.
  intros env order.
  destruct (unknown_service_code_is_refused demo_cfg env demo_py
              (world0 empty_db) (PStr "XX") (PStr "123") (PStr "u1")
              (PStr "z1") (PStr "e@x.com") (PInt 1) (PStr "10.00")
              (PStr "Gift Card")) as [Hunknown _].
  destruct (unknown_service_code_is_refused demo_cfg env demo_py
              (world0 empty_db) (PStr "MG") (PStr "123") (PStr "u1")
              (PStr "z1") (PStr "e@x.com") (PInt 1) (PStr "10.00")
              (PStr "Gift Card")) as [_ Hknown].
  split.
  - apply Hunknown; reflexivity.
  - apply Hknown. right. left. reflexivity.
Defined.

(* ================================================================= *)
(** ** The endpoint *)

(** C10: a JSON object with the key "test" is answered at once,
    whatever else it holds, and the world is unchanged: nothing was
    validated, posted, stored or sent to the operators.  The answer is
    the success response that echoes the value when [JSONResponse] can
    render the value; when it cannot, the rendering raises inside the
    handler's [try] and the answer is the 500 response "request data"
    with the text of the exception. *)
Theorem test_request_is_echoed
    (cfg : Config) (env : Env) (py : PyLib) (w : World)
    (kv : list (string * pyval)) (test : pyval) :
  dict_get "test" kv = Some test ->
  skyshop_api cfg env py (Some (PDict kv)) w
  = (Val (match render_error test with
          | None =>
              PJSONResponse 200
                (PDict [("status", PStr "success");
                        ("message", PStr "testing request successfully");
                        ("data", PDict [("test", test)])])
          | Some error =>
              PJSONResponse 500
                (PDict [("status", PStr "error");
                        ("message", PStr "request data");
                        ("data", PStr (exn_str py error))])
          end),
     w).
Proof.
  intros Htest.
  unfold skyshop_api, JSONResponse. pystep.
  rewrite Htest. pystep.
  destruct (render_error test); reflexivity.
Qed.

Lemma test_request_is_echoed_witness :
  skyshop_api demo_cfg (scripted []) demo_py
    (Some (PDict [("test", PStr "ping"); ("Input", PStr "u1")]))
    (world0 empty_db)
  = (Val (PJSONResponse 200
            (PDict [("status", PStr "success");
                    ("message", PStr "testing request successfully");
                    ("data", PDict [("test", PStr "ping")])])),
     world0 empty_db).
Proof.
  apply (@test_request_is_echoed demo_cfg (scripted []) demo_py
           (world0 empty_db) [("test", PStr "ping"); ("Input", PStr "u1")]
           (PStr "ping")); reflexivity.
Defined.

(** C10 as stated fails.  [request.json()] reads [{"test": NaN}] as an
    object whose key "test" holds a float; the rendering of the echo
    refuses it, and the request is answered with the 500 response
    "request data" instead of the success response. *)
Lemma test_value_that_cannot_be_rendered_is_not_echoed :
  let body := [("test", PFloat NaN)] in
  dict_get "test" body = Some (PFloat NaN) /\
  skyshop_api demo_cfg (scripted []) demo_py (Some (PDict body))
    (world0 empty_db)
  = (Val (PJSONResponse 500
            (PDict [("status", PStr "error");
                    ("message", PStr "request data");
                    ("data",
                     PStr "Out of range float values are not JSON compliant")])),
     world0 empty_db).
Proof. intros body. split; reflexivity. Qed.

(** A request in which [Input], [Zone_ID] or [Email] is lacking, and
    whose body can be rendered, is answered with the 400 response
    "missing parameters" that echoes the body. *)
Lemma lacking_parameter_is_answered_400
    (cfg : Config) (env : Env) (py : PyLib) (w : World)
    (kv : list (string * pyval)) :
  render_error (PDict kv) = None ->
  dict_get "test" kv = None ->
  lacks kv "Input" || lacks kv "Zone_ID" || lacks kv "Email" = true ->
  skyshop_api cfg env py (Some (PDict kv)) w
  = (Val (PJSONResponse 400
            (PDict [("status", PStr "error");
                    ("message", PStr "missing parameters");
                    ("data", PDict kv)])),
     w).
Proof.
  intros Hjson Htest Hlack.
  assert (Hall : py_all
            [match dict_get "Input" kv with Some x => x | None => PNone end;
             match dict_get "Zone_ID" kv with Some x => x | None => PNone end;
             match dict_get "Email" kv with Some x => x | None => PNone end]
          = false).
  { unfold py_all, lacks in *. cbn [forallb].
    destruct (dict_get "Input" kv), (dict_get "Zone_ID" kv),
      (dict_get "Email" kv); cbn [py_truthy andb orb negb] in *;
      repeat match goal with
             | |- context [py_truthy ?v] => destruct (py_truthy v)
             end; cbn [andb orb negb] in *; congruence. }
  unfold skyshop_api, JSONResponse. pystep.
  rewrite Htest. pystep.
  destruct (dict_get "Input" kv), (dict_get "Zone_ID" kv),
    (dict_get "Email" kv); pystep; rewrite Hall; pystep;
    rewrite Hjson; reflexivity.
Qed.

Lemma py_all_three (a b c : pyval) :
  negb (py_all [a; b; c]) = false ->
  py_truthy a = true /\ py_truthy b = true /\ py_truthy c = true.
Proof.
  unfold py_all. cbn [forallb].
  destruct (py_truthy a), (py_truthy b), (py_truthy c); simpl;
    intros H; try discriminate; auto.
Qed.

(** What the handler has read when it calls [service_create_order] is
    what [has_required_fields] asks for. *)
Lemma request_that_reaches_creation_is_complete
    (data user_id zone_id email payment products first name quantity
       price : pyval) (segments : list string) :
  py_get data "Input" = Val user_id ->
  py_get data "Zone_ID" = Val zone_id ->
  py_get data "Email" = Val email ->
  negb (py_all [user_id; zone_id; email]) = false ->
  py_getitem data "payment" = Val payment ->
  py_get_default payment "products" (PList []) = Val products ->
  py_first products = Val first ->
  py_get first "name" = Val name ->
  py_get first "quantity" = Val quantity ->
  py_get first "price" = Val price ->
  negb (py_all [name; quantity; price]) = false ->
  py_split_plus name = Val segments ->
  (3 <= List.length segments)%nat ->
  has_required_fields data = true.
Proof.
  intros Hu Hz He Hall Hp Hps Hf Hn Hq Hpr Hall2 Hsplit Hlen.
  apply py_all_three in Hall. destruct Hall as (Tu & Tz & Te).
  apply py_all_three in Hall2. destruct Hall2 as (Tn & Tq & Tp).
  unfold has_required_fields, field, first_product.
  rewrite Hu, Hz, He, Tu, Tz, Te, Hp. cbn [res_bind].
  rewrite Hps. cbn [res_bind]. rewrite Hf, Hn, Hq, Hpr, Tn, Tq, Tp.
  destruct name; try discriminate.
  cbn [py_split_plus] in Hsplit. injection Hsplit as <-.
  apply Nat.leb_le. exact Hlen.
Qed.

(** A request that lacks a required field is refused with an error
    response and has no effect. *)
Lemma incomplete_request_is_refused
    (cfg : Config) (env : Env) (py : PyLib) (w : World)
    (kv : list (string * pyval)) :
  dict_get "test" kv = None ->
  has_required_fields (PDict kv) = false ->
  exists code content,
    skyshop_api cfg env py (Some (PDict kv)) w
    = (Val (PJSONResponse code content), w) /\
    (code = 400 \/ code = 500) /\
    py_getitem content "status" = Val (PStr "error").
Proof.
  intros Htest Hreq.
  assert (Hc : py_contains "test" (PDict kv) = Val false)
    by (cbn [py_contains]; rewrite Htest; reflexivity).
  remember (PDict kv) as data eqn:Hdata. clear Hdata Htest.
  destruct (skyshop_api cfg env py (Some data) w) as [r w'] eqn:H.
  unfold skyshop_api, JSONResponse in H.
  crunch H; inversion H; subst;
    try (rewrite Hc in *; discriminate);
    try (eexists; eexists; split; [reflexivity|];
         split; [auto | reflexivity]);
    exfalso;
    match goal with
    | Hs : py_split_plus _ = Val ?segs |- _ =>
        assert (Hgood : has_required_fields data = true)
          by (eapply request_that_reaches_creation_is_complete;
              try eassumption; simpl; lia)
    end;
    congruence.
Qed.

(** C5, as the endpoint has it: a JSON object without the key "test"
    that lacks a required field ([Input], [Zone_ID], [Email], or the
    first product's name, quantity or price, absent or empty, or a name
    of fewer than three segments) is answered with an error response,
    400 or 500, and the world is unchanged: no POST, no store write, no
    message to the operators.  When the field that is lacking is
    [Input], [Zone_ID] or [Email] and the body can be rendered, the
    answer is the 400 response "missing parameters" that echoes the
    body. *)
Theorem missing_parameters_are_rejected
    (cfg : Config) (env : Env) (py : PyLib) (w : World)
    (kv : list (string * pyval)) :
  dict_get "test" kv = None ->
  has_required_fields (PDict kv) = false ->
  exists code content,
    skyshop_api cfg env py (Some (PDict kv)) w
    = (Val (PJSONResponse code content), w) /\
    (code = 400 \/ code = 500) /\
    py_getitem content "status" = Val (PStr "error") /\
    (lacks kv "Input" || lacks kv "Zone_ID" || lacks kv "Email" = true ->
     render_error (PDict kv) = None ->
     code = 400 /\
     content = PDict [("status", PStr "error");
                      ("message", PStr "missing parameters");
                      ("data", PDict kv)]).
Proof.
  intros Htest Hreq.
  destruct (@incomplete_request_is_refused cfg env py w kv Htest Hreq)
    as (code & content & Hrun & Hcode & Hstatus).
  exists code, content.
  split; [exact Hrun|]. split; [exact Hcode|]. split; [exact Hstatus|].
  intros Hlack Hjson.
  rewrite (@lacking_parameter_is_answered_400 cfg env py w kv Hjson Htest
             Hlack) in Hrun.
  injection Hrun as <- <-. split; reflexivity.
Qed.

Lemma missing_parameters_are_rejected_witness :
  let body := [("Input", PStr "u1"); ("Zone_ID", PStr "z1");
               ("payment", PDict [("products", PList [])])] in
  skyshop_api demo_cfg (scripted []) demo_py (Some (PDict body))
    (world0 empty_db)
  = (Val (PJSONResponse 400
            (PDict [("status", PStr "error");
                    ("message", PStr "missing parameters");
                    ("data", PDict body)])),
     world0 empty_db).
Proof.
  intros body.
  destruct (@missing_parameters_are_rejected demo_cfg (scripted []) demo_py
              (world0 empty_db) body eq_refl eq_refl)
    as (code & content & Hrun & _ & _ & Hshape).
  destruct (Hshape eq_refl eq_refl) as (-> & ->).
  exact Hrun.
Defined.

(** C5 as stated fails.  A request without [Email] that carries the key
    "test" is answered with success; a request whose product has no
    quantity is rejected under another message, "missing product
    parameters"; a request without [payment] is answered with the 500
    response "request data".  None touches the world. *)
Lemma request_lacking_a_field_is_not_always_missing_parameters :
  let without_email := [("test", PStr "ping"); ("Input", PStr "u1");
                        ("Zone_ID", PStr "z1")] in
  let without_quantity :=
    [("Input", PStr "u1"); ("Zone_ID", PStr "z1"); ("Email", PStr "e@x.com");
     ("payment",
      PDict [("products",
              PList [PDict [("name", PStr "MG+123+Gift Card");
                            ("price", PStr "10.00")]])])] in
  let without_payment :=
    [("Input", PStr "u1"); ("Zone_ID", PStr "z1"); ("Email", PStr "e@x.com")] in
  let answer body :=
    skyshop_api demo_cfg (scripted []) demo_py (Some (PDict body))
      (world0 empty_db) in
  dict_get "Email" without_email = None /\
  answer without_email
  = (Val (PJSONResponse 200
            (PDict [("status", PStr "success");
                    ("message", PStr "testing request successfully");
                    ("data", PDict [("test", PStr "ping")])])),
     world0 empty_db) /\
  answer without_quantity
  = (Val (PJSONResponse 400
            (PDict [("status", PStr "error");
                    ("message", PStr "missing product parameters");
                    ("data", PDict without_quantity)])),
     world0 empty_db) /\
  answer without_payment
  = (Val (PJSONResponse 500
            (PDict [("status", PStr "error");
                    ("message", PStr "request data");
                    ("data", PStr "'payment'")])),
     world0 empty_db).
Proof.
  intros without_email without_quantity without_payment answer.
  split; [reflexivity | split; [reflexivity | split; reflexivity]].
Qed.

(** C4: a service code that is none of "VP", "MG", "JM" does not reach
    the requester as a routing error.  For a complete request whose
    product name starts with such a code, [service_create_order] hands
    the 400 response "Invalid service code" to the handler as a value and
    leaves the world as it was (no message to the operators, no adapter
    call, no POST, no store write); the handler puts that response object
    into the content of its own success response, which cannot be
    rendered, and its [except] answers with the 500 response "create
    order", in which the service code is not named. *)
Theorem unknown_service_code_is_answered_500_create_order
    (cfg : Config) (env : Env) (py : PyLib) (w : World)
    (kv : list (string * pyval))
    (user_id zone_id email payment first quantity price : pyval)
    (more : list pyval) (name service_code product_code product_name : string)
    (extra : list string) :
  dict_get "test" kv = None ->
  dict_get "Input" kv = Some user_id ->
  dict_get "Zone_ID" kv = Some zone_id ->
  dict_get "Email" kv = Some email ->
  py_all [user_id; zone_id; email] = true ->
  dict_get "payment" kv = Some payment ->
  py_get_default payment "products" (PList []) = Val (PList (first :: more)) ->
  py_get first "name" = Val (PStr name) ->
  py_get first "quantity" = Val quantity ->
  py_get first "price" = Val price ->
  py_all [PStr name; quantity; price] = true ->
  split_on "+" name = service_code :: product_code :: product_name :: extra ->
  String.eqb service_code "VP" = false ->
  String.eqb service_code "MG" = false ->
  String.eqb service_code "JM" = false ->
  service_create_order cfg env py (PStr service_code) (PStr product_code)
    user_id zone_id email quantity price (PStr product_name) w
  = (Val invalid_service_code, w) /\
  skyshop_api cfg env py (Some (PDict kv)) w
  = (Val (PJSONResponse 500
            (PDict [("status", PStr "error");
                    ("message", PStr "create order");
                    ("data",
                     PStr (exn_str py
                             (TypeError
                                "Object of type JSONResponse is not JSON serializable")))])),
     w).
Proof.
  intros Htest Hu Hz He Hall Hp Hprod Hn Hq Hpr Hall2 Hsplit Hvp Hmg Hjm.
  assert (Hcreate :
            service_create_order cfg env py (PStr service_code)
              (PStr product_code) user_id zone_id email quantity price
              (PStr product_name) w
            = (Val invalid_service_code, w)).
  { unfold service_create_order. cbn [py_eq_str].
    rewrite Hvp, Hmg, Hjm. reflexivity. }
  split; [exact Hcreate|].
  unfold skyshop_api, JSONResponse, py_split_plus, response_json, py_get.
  mstep. cbn [py_contains py_getitem py_get_default].
  rewrite Htest. mstep. rewrite Hu, Hz, He. mstep. rewrite Hall.
  cbn [negb py_getitem]. rewrite Hp. mstep. rewrite Hprod. mstep.
  cbn [py_truthy negb py_first]. mstep.
  unfold py_get in Hn, Hq, Hpr.
  rewrite Hn. mstep. rewrite Hq. mstep. rewrite Hpr. mstep.
  rewrite Hall2. cbn [negb]. mstep. rewrite Hsplit. mstep. rewrite Hcreate.
  reflexivity.
Qed.

Lemma unknown_service_code_is_answered_500_create_order_witness :
  let product := PDict [("name", PStr "XX+123+Gift Card");
                        ("quantity", PInt 1); ("price", PStr "10.00")] in
  let body := [("Input", PStr "u1"); ("Zone_ID", PStr "z1");
               ("Email", PStr "e@x.com");
               ("payment", PDict [("products", PList [product])])] in
  skyshop_api demo_cfg (scripted []) demo_py (Some (PDict body))
    (world0 empty_db)
  = (Val (PJSONResponse 500
            (PDict [("status", PStr "error");
                    ("message", PStr "create order");
                    ("data",
                     PStr "Object of type JSONResponse is not JSON serializable")])),
     world0 empty_db).
Proof.
  intros product body.
  apply (@unknown_service_code_is_answered_500_create_order demo_cfg
           (scripted []) demo_py (world0 empty_db) body (PStr "u1")
           (PStr "z1") (PStr "e@x.com")
           (PDict [("products", PList [product])]) product (PInt 1)
           (PStr "10.00") [] "XX+123+Gift Card" "XX" "123" "Gift Card" []
           eq_refl eq_refl eq_refl eq_refl eq_refl eq_refl eq_refl eq_refl
           eq_refl eq_refl eq_refl eq_refl eq_refl eq_refl eq_refl).
Defined.

(* ================================================================= *)
(** ** The reconciliation sweep *)

Lemma filter_nothing (A : Type) (f : A -> bool) (l : list A) :
  Forall (fun x => f x = false) l -> filter f l = [].
Proof.
  induction 1 as [|x l Hx _ IH]; simpl; [reflexivity|].
  rewrite Hx. exact IH.
Qed.

Lemma read_only_run (A : Type) (m : M A) (w w1 : World) (r : res A) :
  read_only m -> m w = (r, w1) ->
  db w1 = db w /\
  filter is_db_event (trace w1) = filter is_db_event (trace w).
Proof.
  intros Hm Hrun. destruct (Hm w) as (t & Et & Ft & Ed).
  rewrite Hrun in *. simpl in *. split; [congruence|].
  rewrite Et, filter_app, (filter_nothing _ Ft), app_nil_r. reflexivity.
Qed.

(** C3: in the handling of one order, when the status that the sweep
    reads in what [check_order] returned is not in the provider's
    vocabulary, the handling ends there: the world is the one the adapter
    left, whose database is the one before and whose trace has gained no
    store event.  For VIPayment, MooGold and Jollymax. *)
Theorem unknown_status_leaves_the_order_untouched
    (cfg : Config) (env : Env) (py : PyLib) (w w1 : World)
    (orderData new_status : pyval) :
  let untouched :=
    db w1 = db w /\
    filter is_db_event (trace w1) = filter is_db_event (trace w) in
  (forall vp_order,
      ServiceVIPayment_check_order env py (vp_order_id vp_order) w
      = (Val orderData, w1) ->
      vp_new_status orderData = Val (Some new_status) ->
      py_in_strs new_status (VP_STATUSES cfg) = false ->
      check_vp_order cfg env py vp_order w = (Val tt, w1) /\ untouched) /\
  (forall mg_order,
      ServiceMoogold_check_order env py (vp_order_id mg_order) w
      = (Val orderData, w1) ->
      mg_new_status orderData = Val new_status ->
      py_in_strs new_status (MG_STATUSES cfg) = false ->
      check_mg_order cfg env py mg_order w = (Val tt, w1) /\ untouched) /\
  (forall jm_order,
      ServiceJollymax_check_order env py (jm_order_id jm_order)
        (jm_message_id jm_order) w
      = (Val orderData, w1) ->
      jm_new_status orderData = Val new_status ->
      py_in_strs new_status (JM_STATUSES cfg) = false ->
      check_jm_order cfg env py jm_order w = (Val tt, w1) /\ untouched).
Proof.
  intros untouched. split; [|split]; intros o Hcheck Hstatus Hout.
  - split.
    + unfold check_vp_order, bind, try_except, lift.
      rewrite Hcheck, Hstatus, Hout. reflexivity.
    + eapply read_only_run; [|exact Hcheck].
      apply (check_adapters_read_only env py (vp_order_id o) PNone).
  - split.
    + unfold check_mg_order, bind, try_except, lift.
      rewrite Hcheck, Hstatus, Hout. reflexivity.
    + eapply read_only_run; [|exact Hcheck].
      apply (check_adapters_read_only env py (vp_order_id o) PNone).
  - split.
    + unfold check_jm_order, bind, try_except, lift.
      rewrite Hcheck, Hstatus, Hout. reflexivity.
    + eapply read_only_run; [|exact Hcheck].
      apply (check_adapters_read_only env py (jm_order_id o)
               (jm_message_id o)).
Qed.

Lemma unknown_status_leaves_the_order_untouched_witness :
  let vp_reply := PDict [("result", PBool true);
                         ("data", PList [PDict [("status", PStr "mystery")]])] in
  let mg_reply := PDict [("order_status", PStr "mystery")] in
  let jm_reply := PDict [("code", PStr "APPLY_SUCCESS");
                         ("data", PDict [("status", PStr "MYSTERY")])] in
  db (snd (check_vp_order demo_cfg (scripted [ok_json vp_reply]) demo_py
             demo_vp_order (world0 demo_db))) = demo_db /\
  db (snd (check_mg_order demo_cfg (scripted [ok_json mg_reply]) demo_py
             demo_mg_order (world0 demo_db))) = demo_db /\
  db (snd (check_jm_order demo_cfg (scripted [ok_json jm_reply]) demo_py
             demo_jm_order (world0 demo_db))) = demo_db.
Proof.
  intros vp_reply mg_reply jm_reply.
  pose (after p := mkWorld demo_db [AdapterCall p Check; HttpPost p Check]
                     1%nat 0%nat).
  destruct (@unknown_status_leaves_the_order_untouched demo_cfg
              (scripted [ok_json vp_reply]) demo_py (world0 demo_db)
              (after VIPayment) vp_reply (PStr "mystery")) as (Hvp & _ & _).
  destruct (@unknown_status_leaves_the_order_untouched demo_cfg
              (scripted [ok_json mg_reply]) demo_py (world0 demo_db)
              (after MooGold)
              (PDict [("status", PStr "warning");
                      ("message", PStr "order not paid");
                      ("data", mg_reply)])
              PNone) as (_ & Hmg & _).
  destruct (@unknown_status_leaves_the_order_untouched demo_cfg
              (scripted [ok_json jm_reply]) demo_py (world0 demo_db)
              (after Jollymax) jm_reply (PStr "MYSTERY")) as (_ & _ & Hjm).
  destruct (Hvp demo_vp_order eq_refl eq_refl eq_refl) as (-> & _).
  destruct (Hmg demo_mg_order eq_refl eq_refl eq_refl) as (-> & _).
  destruct (Hjm demo_jm_order eq_refl eq_refl eq_refl) as (-> & _).
  repeat split.
Defined.

Lemma never_in_no_status (statuses : list string) :
  py_in_strs PNone statuses = false.
Proof. induction statuses; simpl; auto. Qed.

(** X15: what the sweep does with a MooGold order whose check is answered
    with status 200 and an object that has [order_status]: when the
    status is "completed" and the vocabulary has it, the row is updated
    with it and with the serialized response; with any other status the
    adapter hands back its warning, in which the sweep finds no
    [order_status], and the world only gains the call and the POST. *)
Lemma moogold_check_persists_completed_only
    (cfg : Config) (env : Env) (py : PyLib) (w : World)
    (mg_order : BaseOrderMG) (kv : list (string * pyval)) (st : pyval) :
  serializable (vp_order_id mg_order) = true ->
  http env (posts w) = Reply 200 (Some (PDict kv)) ->
  dict_get "order_status" kv = Some st ->
  (py_eq_str st "completed" = false ->
   check_mg_order cfg env py mg_order w
   = (Val tt,
      mkWorld (db w)
        (trace w ++ [AdapterCall MooGold Check; HttpPost MooGold Check])
        (S (posts w)) (ids w))) /\
  (py_eq_str st "completed" = true ->
   py_in_strs st (MG_STATUSES cfg) = true ->
   serializable (PDict kv) = true ->
   check_mg_order cfg env py mg_order w
   = (Val tt,
      mkWorld
        (updateOrderMG (db w) (vp_order_id mg_order) st
           (PStr (json_dumps py (PDict kv))))
        (trace w ++ [AdapterCall MooGold Check; HttpPost MooGold Check;
                     DbUpdate MooGold [vp_order_id mg_order]])
        (S (posts w)) (ids w))).
Proof.
  intros Hid Hhttp Hget. split.
  - intros Hst.
    unfold check_mg_order, ServiceMoogold_check_order,
      request_checking_order_mg, mg_new_status, py_dumps.
    pystep. rewrite Hid. pystep. rewrite Hhttp. pystep.
    rewrite Hget. pystep. rewrite Hst. pystep.
    cbn [dict_get String.eqb Ascii.eqb Bool.eqb].
    rewrite never_in_no_status. rewrite app_two. reflexivity.
  - intros Hst Hin Hjson.
    unfold check_mg_order, ServiceMoogold_check_order,
      request_checking_order_mg, mg_new_status, py_dumps.
    pystep. rewrite Hid. pystep. rewrite Hhttp. pystep.
    rewrite Hget. pystep. rewrite Hst. pystep.
    rewrite Hget. pystep. rewrite Hin. pystep. rewrite Hjson. pystep.
    rewrite app_two, <- app_assoc. reflexivity.
Qed.

Lemma accepted_status_is_a_string (new_status : pyval)
    (statuses : list string) :
  py_in_strs new_status statuses = true -> is_str new_status = true.
Proof.
  intros Hin. destruct new_status; try reflexivity;
    unfold py_in_strs in Hin; induction statuses as [|s l IH];
    simpl in Hin; auto; discriminate.
Qed.

(** C2: in the handling of one MooGold order, when what [check_order]
    returned is JSON data whose top-level [order_status] is in
    [MG_STATUSES], the sweep issues one update keyed by the order's id
    with that status and the serialized data: the world is the one the
    adapter left (whose database is the one before), with the store
    updated and the update in the trace.  Afterwards every row of that
    order id, the order's own row among them, has that status and the
    serialized data as details. *)
Theorem accepted_moogold_status_is_persisted
    (cfg : Config) (env : Env) (py : PyLib) (w w1 : World)
    (mg_order : BaseOrderMG) (orderData new_status : pyval) :
  ServiceMoogold_check_order env py (vp_order_id mg_order) w
  = (Val orderData, w1) ->
  mg_new_status orderData = Val new_status ->
  py_in_strs new_status (MG_STATUSES cfg) = true ->
  serializable orderData = true ->
  let order_id := vp_order_id mg_order in
  let details := PStr (json_dumps py orderData) in
  let w' := snd (check_mg_order cfg env py mg_order w) in
  check_mg_order cfg env py mg_order w
  = (Val tt,
     mkWorld (updateOrderMG (db w) order_id new_status details)
       (trace w1 ++ [DbUpdate MooGold [order_id]]) (posts w1) (ids w1)) /\
  (forall row, In row (rows (mg_orders (db w'))) ->
     pyval_eqb (vp_order_id row) order_id = true ->
     vp_status row = new_status /\ vp_order_details row = details) /\
  (In mg_order (rows (mg_orders (db w))) ->
   exists row, In row (rows (mg_orders (db w'))) /\
     vp_id row = vp_id mg_order /\
     vp_order_id row = order_id /\
     vp_status row = new_status /\ vp_order_details row = details).
Proof.
  intros Hcheck Hstatus Hin Hjson order_id details w'.
  assert (Hdb : db w1 = db w).
  { eapply read_only_run; [|exact Hcheck].
    apply (check_adapters_read_only env py (vp_order_id mg_order) PNone). }
  assert (Hrun : check_mg_order cfg env py mg_order w
                 = (Val tt,
                    mkWorld (updateOrderMG (db w) order_id new_status details)
                      (trace w1 ++ [DbUpdate MooGold [order_id]]) (posts w1)
                      (ids w1))).
  { unfold check_mg_order, bind, try_except, lift, py_dumps, execute, ret.
    rewrite Hcheck, Hstatus, Hin, Hjson. cbn [db trace posts ids].
    rewrite Hdb. reflexivity. }
  assert (Hstr : is_str new_status = true)
    by (eapply accepted_status_is_a_string; exact Hin).
  assert (Hrow : forall r,
             pyval_eqb (vp_order_id r) order_id = true ->
             vp_status (update_row new_status details r) = new_status /\
             vp_order_details (update_row new_status details r) = details).
  { intros r _. destruct new_status; try discriminate. split; reflexivity. }
  split; [exact Hrun|]. unfold w'. rewrite Hrun. cbn [snd db].
  unfold updateOrderMG, update_order. cbn [mg_orders rows]. split.
  - intros row Hrow_in Hid. apply in_map_iff in Hrow_in.
    destruct Hrow_in as (r & <- & _).
    destruct (pyval_eqb (vp_order_id r) order_id) eqn:E.
    + apply Hrow. exact E.
    + rewrite E in Hid. discriminate.
  - intros Hmine. exists (update_row new_status details mg_order).
    split.
    + apply in_map_iff. exists mg_order. split; [|exact Hmine].
      unfold order_id. rewrite pyval_eqb_refl. reflexivity.
    + split; [reflexivity|]. split; [reflexivity|].
      apply Hrow. apply pyval_eqb_refl.
Qed.

Lemma accepted_moogold_status_is_persisted_witness :
  let completed := PDict [("order_status", PStr "completed")] in
  let w' := snd (check_mg_order demo_cfg (scripted [ok_json completed]) demo_py
                   demo_mg_order (world0 demo_db)) in
  exists row, In row (rows (mg_orders (db w'))) /\
    vp_id row = vp_id demo_mg_order /\
    vp_order_id row = PStr "MG-9" /\
    vp_status row = PStr "completed" /\
    vp_order_details row = PStr (show completed).
Proof.
  intros completed w'.
  destruct (@accepted_moogold_status_is_persisted demo_cfg
              (scripted [ok_json completed]) demo_py (world0 demo_db)
              (mkWorld demo_db [AdapterCall MooGold Check; HttpPost MooGold Check]
                 1%nat 0%nat)
              demo_mg_order completed (PStr "completed")
              eq_refl eq_refl eq_refl eq_refl) as (_ & _ & Hmine).
  apply Hmine. simpl. auto.
Defined.

Lemma guarded_body_never_raises (m : M unit) (w : World) :
  fst (try_except m (fun _ => ret tt) w) = Val tt.
Proof.
  unfold try_except, ret. destruct (m w) as [[[]|e] w']; reflexivity.
Qed.

Lemma for_each_never_raises (A : Type) (l : list A) (body : A -> M unit) :
  (forall x w, fst (body x w) = Val tt) ->
  forall w, fst (for_each l body w) = Val tt.
Proof.
  intros Hb. induction l as [|x l IH]; intros w; simpl; [reflexivity|].
  unfold bind. specialize (Hb x w).
  destruct (body x w) as [[[]|e] w1]; simpl in *; [apply IH | discriminate].
Qed.

Lemma for_each_next (A : Type) (x : A) (l : list A) (body : A -> M unit)
    (w : World) :
  fst (body x w) = Val tt ->
  for_each (x :: l) body w = for_each l body (snd (body x w)).
Proof.
  intros Hb. simpl. unfold bind.
  destruct (body x w) as [[[]|e] w1]; simpl in *; [reflexivity | discriminate].
Qed.

(** A failed check of a VIPayment order adds the call and the POST to the
    trace and changes nothing else. *)
Lemma failed_vp_check_changes_nothing
    (cfg : Config) (env : Env) (py : PyLib) (w : World) (o : BaseOrderVP) :
  vp_check_fails (http env (posts w)) = true ->
  check_vp_order cfg env py o w
  = (Val tt,
     mkWorld (db w)
       (trace w ++ [AdapterCall VIPayment Check; HttpPost VIPayment Check])
       (S (posts w)) (ids w)).
Proof.
  intros Hfail.
  unfold check_vp_order, ServiceVIPayment_check_order,
    request_checking_order_vp, vp_new_status, vp_check_fails in *.
  mstep. destruct (http env (posts w)) as [msg | code body]; mstep.
  - pystep. cbn [dict_get String.eqb Ascii.eqb Bool.eqb]. pystep.
    rewrite app_two. reflexivity.
  - destruct (code =? 200); mstep.
    + destruct body as [data|]; mstep.
      * destruct (py_getitem data "result") as [v|e]; mstep.
        -- destruct (py_eq_true v); [discriminate|]. pystep.
           cbn [dict_get String.eqb Ascii.eqb Bool.eqb]. pystep.
           rewrite app_two. reflexivity.
        -- pystep. cbn [dict_get String.eqb Ascii.eqb Bool.eqb]. pystep.
           rewrite app_two. reflexivity.
      * pystep. cbn [dict_get String.eqb Ascii.eqb Bool.eqb]. pystep.
        rewrite app_two. reflexivity.
    + pystep. cbn [dict_get String.eqb Ascii.eqb Bool.eqb]. pystep.
      rewrite app_two. reflexivity.
Qed.

Lemma failed_vp_loop_changes_nothing
    (cfg : Config) (env : Env) (py : PyLib) (orders : list BaseOrderVP) :
  forall w,
    (forall i, (i < List.length orders)%nat ->
               vp_check_fails (http env (posts w + i)) = true) ->
    for_each orders (check_vp_order cfg env py) w
    = (Val tt,
       mkWorld (db w)
         (trace w ++
            flat_map (fun _ => [AdapterCall VIPayment Check;
                                HttpPost VIPayment Check]) orders)
         (posts w + List.length orders) (ids w)).
Proof.
  induction orders as [|o orders IH]; intros w Hfail.
  - simpl. rewrite app_nil_r, Nat.add_0_r. destruct w; reflexivity.
  - rewrite for_each_next by apply guarded_body_never_raises.
    rewrite failed_vp_check_changes_nothing.
    + rewrite IH.
      * cbn [snd db trace posts ids flat_map List.length].
        rewrite <- app_assoc. f_equal. f_equal. lia.
      * intros i Hi. cbn [snd posts].
        replace (S (posts w) + i)%nat with (posts w + S i)%nat by lia.
        apply Hfail. simpl. lia.
    + specialize (Hfail 0%nat). rewrite Nat.add_0_r in Hfail.
      apply Hfail. simpl. lia.
Qed.

(** C7: the handling of one order never lets an exception out, so the
    loop goes on with the next order and the sweep itself ends normally;
    and when every check of a VIPayment order fails (the POST raises, or
    the answer is not 200, or has no JSON body, or has a [result] that is
    not true), the sweep is the MooGold loop followed by the Jollymax loop
    over the orders read at its start, run on the database the sweep
    found: the VIPayment loop has only added its calls to the trace. *)
Theorem failures_of_one_provider_do_not_stop_the_sweep
    (cfg : Config) (env : Env) (py : PyLib) (w : World) :
  let vp := getOrderStatusVP (db w) (PStr "waiting") in
  let mg := getOrderStatusMG (db w) (PStr "processing") in
  let jm := getOrderStatusJM (db w) (PStr "waiting") in
  ((forall o w0, fst (check_vp_order cfg env py o w0) = Val tt) /\
   (forall o w0, fst (check_mg_order cfg env py o w0) = Val tt) /\
   (forall o w0, fst (check_jm_order cfg env py o w0) = Val tt)) /\
  ((forall o rest w0,
       for_each (o :: rest) (check_vp_order cfg env py) w0
       = for_each rest (check_vp_order cfg env py)
           (snd (check_vp_order cfg env py o w0))) /\
   (forall o rest w0,
       for_each (o :: rest) (check_mg_order cfg env py) w0
       = for_each rest (check_mg_order cfg env py)
           (snd (check_mg_order cfg env py o w0))) /\
   (forall o rest w0,
       for_each (o :: rest) (check_jm_order cfg env py) w0
       = for_each rest (check_jm_order cfg env py)
           (snd (check_jm_order cfg env py o w0)))) /\
  fst (sweep cfg env py w) = Val tt /\
  ((forall i, (i < List.length vp)%nat ->
              vp_check_fails (http env (posts w + i)) = true) ->
   sweep cfg env py w
   = bind (for_each mg (check_mg_order cfg env py))
       (fun _ => for_each jm (check_jm_order cfg env py))
       (mkWorld (db w)
          (trace w ++
             flat_map (fun _ => [AdapterCall VIPayment Check;
                                 HttpPost VIPayment Check]) vp)
          (posts w + List.length vp) (ids w))).
Proof.
  intros vp mg jm.
  assert (Hvp : forall o w0, fst (check_vp_order cfg env py o w0) = Val tt).
  { intros. apply guarded_body_never_raises. }
  assert (Hmg : forall o w0, fst (check_mg_order cfg env py o w0) = Val tt).
  { intros. apply guarded_body_never_raises. }
  assert (Hjm : forall o w0, fst (check_jm_order cfg env py o w0) = Val tt).
  { intros. apply guarded_body_never_raises. }
  split; [auto|]. split.
  { repeat split; intros; apply for_each_next; auto. }
  split; [apply guarded_body_never_raises|].
  intros Hfail. unfold sweep, try_except, bind at 1, get_db.
  fold vp mg jm. unfold bind at 1.
  rewrite (@failed_vp_loop_changes_nothing cfg env py vp w Hfail).
  match goal with
  | |- context [bind ?m ?k ?w1] =>
      pose proof (for_each_never_raises mg (check_mg_order cfg env py) Hmg w1) as H1;
      unfold bind; unfold bind in H1;
      destruct (for_each mg (check_mg_order cfg env py) w1) as [[[]|e] w2];
      simpl in H1; [|discriminate]
  end.
  pose proof (for_each_never_raises jm (check_jm_order cfg env py) Hjm w2) as H2.
  destruct (for_each jm (check_jm_order cfg env py) w2) as [[[]|e] w3];
    simpl in H2; [reflexivity | discriminate].
Qed.

Lemma failures_of_one_provider_do_not_stop_the_sweep_witness :
  let env := scripted
               [ConnectionFailed "timed out";
                ok_json (PDict [("order_status", PStr "completed")]);
                ok_json (PDict [("code", PStr "APPLY_SUCCESS");
                                ("data", PDict [("status", PStr "SUCCESS")])])] in
  let d' := db (snd (sweep demo_cfg env demo_py (world0 demo_db))) in
  map vp_status (rows (vp_orders d')) = [PStr "waiting"] /\
  map vp_status (rows (mg_orders d')) = [PStr "completed"] /\
  map jm_status (rows (jm_orders d')) = [PStr "SUCCESS"].
Proof.
  intros env d'. unfold d'.
  destruct (failures_of_one_provider_do_not_stop_the_sweep demo_cfg env
              demo_py (world0 demo_db)) as (_ & _ & _ & Hsweep).
  rewrite Hsweep.
  - repeat split.
  - intros i Hi. simpl in Hi. destruct i; [reflexivity | lia].
Defined.

(* ================================================================= *)
(** ** More on the order store *)

(** Rows selected from rows with distinct keys have distinct keys. *)
Lemma distinct_keys_filter (R K : Type) (key : R -> K) (keep : R -> bool)
    (stored : list R) (Hdistinct : NoDup (map key stored)) :
  NoDup (map key (filter keep stored)).
Proof.
  induction stored as [|r stored IH]; simpl; [constructor|].
  simpl in Hdistinct.
  inversion Hdistinct as [|? ? Hnotin Hrest]; subst.
  destruct (keep r); simpl; auto.
  constructor; auto.
  intros Hin. apply Hnotin. apply in_map_iff in Hin.
  destruct Hin as (y & <- & Hy). apply filter_In in Hy.
  apply in_map. tauto.
Qed.

Lemma Forall_filter_keep (A : Type) (P : A -> Prop) (p : A -> bool) (l : list A) :
  Forall P l -> Forall P (filter p l).
Proof.
  intros H. apply Forall_forall. intros x Hx. apply filter_In in Hx.
  rewrite Forall_forall in H. apply H. tauto.
Qed.

Lemma keys_fresh_insert (R : Type) (key : R -> nat) (t : table R) (r : R) :
  key r = next_id t ->
  keys_fresh key t ->
  keys_fresh key (mkTable (rows t ++ [r]) (S (next_id t))).
Proof.
  intros Hr [Hnd Hlt]. split; simpl.
  - rewrite map_app. simpl. apply NoDup_app; [exact Hnd | | ].
    + constructor; [intros [] | constructor].
    + intros k Hk [<- | []]. apply in_map_iff in Hk.
      destruct Hk as (x & Hx & Hin). rewrite Forall_forall in Hlt.
      specialize (Hlt x Hin). lia.
  - apply Forall_app. split.
    + eapply Forall_impl; [|exact Hlt]. simpl. intros. lia.
    + constructor; [lia | constructor].
Qed.

Lemma keys_fresh_map (R : Type) (key : R -> nat) (t : table R) (f : R -> R) :
  (forall r, key (f r) = key r) ->
  keys_fresh key t ->
  keys_fresh key (mkTable (map f (rows t)) (next_id t)).
Proof.
  intros Hf [Hnd Hlt]. split; simpl.
  - rewrite map_map. erewrite map_ext; [exact Hnd|]. auto.
  - apply Forall_map. eapply Forall_impl; [|exact Hlt].
    simpl. intros r Hr. rewrite Hf. exact Hr.
Qed.

Lemma keys_fresh_filter (R : Type) (key : R -> nat) (t : table R) (p : R -> bool) :
  keys_fresh key t ->
  keys_fresh key (mkTable (filter p (rows t)) (next_id t)).
Proof.
  intros [Hnd Hlt]. split; simpl.
  - apply distinct_keys_filter. exact Hnd.
  - apply Forall_filter_keep. exact Hlt.
Qed.

(** X1: primary keys stay in order.  In a store where no two rows of a
    table share their id and every id is below the table's next one, every
    create, update and delete of the three providers leaves a store with
    the same property; the empty store has it. *)
Theorem primary_keys_stay_unique (d : Database)
    (user_id zone_id quantity price product api_name order_id message_id
       email_user status order_details : pyval) :
  primary_keys_ok d ->
  primary_keys_ok (createOrderVP d user_id zone_id quantity price product
                     api_name order_id email_user status order_details) /\
  primary_keys_ok (createOrderMG d user_id zone_id quantity price product
                     api_name order_id email_user status order_details) /\
  primary_keys_ok (createOrderJM d user_id zone_id quantity price product
                     api_name order_id message_id email_user status
                     order_details) /\
  primary_keys_ok (updateOrderVP d order_id status order_details) /\
  primary_keys_ok (updateOrderMG d order_id status order_details) /\
  primary_keys_ok (updateOrderJM d order_id message_id status order_details) /\
  primary_keys_ok (deleteOrderVP d order_id) /\
  primary_keys_ok (deleteOrderMG d order_id) /\
  primary_keys_ok (deleteOrderJM d order_id message_id).
Proof.
  intros (Hvp & Hmg & Hjm). unfold primary_keys_ok.
  repeat match goal with |- _ /\ _ => split end; simpl; try assumption.
  all: try (apply keys_fresh_insert; [reflexivity | assumption]).
  all: try (apply keys_fresh_filter; assumption).
  all: try (apply keys_fresh_map; [|assumption]; intros r;
            match goal with
            | |- context [if ?b then _ else _] => destruct b
            end; reflexivity).
Qed.

Lemma primary_keys_ok_empty : primary_keys_ok empty_db.
Proof.
  repeat split; simpl; constructor.
Defined.

Lemma primary_keys_stay_unique_witness :
  primary_keys_ok
    (createOrderVP empty_db (PStr "u1") (PStr "z1") (PInt 1) (PStr "10.00")
       (PStr "Diamonds") (PStr "VIPAYMENT") (PStr "T1") (PStr "e@x.com")
       (PStr "waiting") (PStr "{}")).
Proof.
  apply (@primary_keys_stay_unique empty_db (PStr "u1") (PStr "z1") (PInt 1)
           (PStr "10.00") (PStr "Diamonds") (PStr "VIPAYMENT") (PStr "T1")
           PNone (PStr "e@x.com") (PStr "waiting") (PStr "{}")
           primary_keys_ok_empty).
Defined.

Lemma find_app_first (A : Type) (p : A -> bool) (l l' : list A) :
  find p (l ++ l') =
  match find p l with
  | Some x => Some x
  | None => find p l'
  end.
Proof.
  induction l as [|x l IH]; simpl; [reflexivity|].
  destruct (p x); [reflexivity | exact IH].
Qed.

Lemma no_match_no_find (A : Type) (p : A -> bool) (l : list A) :
  List.length (filter p l) = 0%nat -> find p l = None.
Proof.
  induction l as [|x l IH]; simpl; [reflexivity|].
  destruct (p x); simpl; [discriminate | exact IH].
Qed.

Lemma find_map_matching (A : Type) (p : A -> bool) (f : A -> A) (l : list A) :
  (forall x, p x = true -> p (f x) = true) ->
  find p (map (fun x => if p x then f x else x) l) = option_map f (find p l).
Proof.
  intros Hf. induction l as [|x l IH]; simpl; [reflexivity|].
  destruct (p x) eqn:E.
  - rewrite (Hf x E). reflexivity.
  - rewrite E. exact IH.
Qed.

Lemma map_matching_none (A : Type) (p : A -> bool) (f : A -> A) (l : list A) :
  find p l = None -> map (fun x => if p x then f x else x) l = l.
Proof.
  induction l as [|x l IH]; simpl; [reflexivity|].
  destruct (p x); [discriminate|]. intros H. rewrite IH; auto.
Qed.

(** X2: what is created is found.  When no row has the handle yet, the
    lookup after a create gives the new row: the columns passed, under
    the table's next id.  Whatever the table held, the lookup after a
    create gives a row, and that row has the handle.  For the three
    tables. *)
Theorem created_order_is_found (d : Database)
    (user_id zone_id quantity price product api_name order_id message_id
       email_user status order_details : pyval) :
  let vp := createOrderVP d user_id zone_id quantity price product api_name
              order_id email_user status order_details in
  let mg := createOrderMG d user_id zone_id quantity price product api_name
              order_id email_user status order_details in
  let jm := createOrderJM d user_id zone_id quantity price product api_name
              order_id message_id email_user status order_details in
  (count_vp d order_id = 0%nat ->
   getOrderIdVP vp order_id
   = Some (mkOrderVP (next_id (vp_orders d)) user_id zone_id quantity price
             product api_name order_id email_user status order_details)) /\
  (count_mg d order_id = 0%nat ->
   getOrderIdMG mg order_id
   = Some (mkOrderVP (next_id (mg_orders d)) user_id zone_id quantity price
             product api_name order_id email_user status order_details)) /\
  (count_jm d order_id message_id = 0%nat ->
   getOrderIdJM jm order_id message_id
   = Some (mkOrderJM (next_id (jm_orders d)) user_id zone_id quantity price
             product api_name order_id message_id email_user status
             order_details)) /\
  (exists r, getOrderIdVP vp order_id = Some r /\ vp_order_id r = order_id) /\
  (exists r, getOrderIdMG mg order_id = Some r /\ vp_order_id r = order_id) /\
  (exists r, getOrderIdJM jm order_id message_id = Some r /\
             jm_order_id r = order_id /\ jm_message_id r = message_id).
Proof.
  intros vp mg jm.
  unfold vp, mg, jm, getOrderIdVP, getOrderIdMG, getOrderIdJM, createOrderVP,
    createOrderMG, createOrderJM, insert_order, count_vp, count_mg, count_jm,
    BaseOrderMG.
  simpl. rewrite !find_app_first.
  repeat match goal with |- _ /\ _ => split end.
  - intros H. rewrite (no_match_no_find _ _ H). simpl.
    rewrite pyval_eqb_refl. reflexivity.
  - intros H. rewrite (no_match_no_find _ _ H). simpl.
    rewrite pyval_eqb_refl. reflexivity.
  - intros H. rewrite (no_match_no_find _ _ H). simpl.
    unfold jm_matches. simpl. rewrite !pyval_eqb_refl. reflexivity.
  - match goal with
    | |- context [find ?p ?l] => destruct (find p l) as [r|] eqn:E
    end.
    + exists r. split; [reflexivity|]. apply find_some in E.
      apply pyval_eqb_eq. apply E.
    + simpl. rewrite pyval_eqb_refl. eexists. split; reflexivity.
  - match goal with
    | |- context [find ?p ?l] => destruct (find p l) as [r|] eqn:E
    end.
    + exists r. split; [reflexivity|]. apply find_some in E.
      apply pyval_eqb_eq. apply E.
    + simpl. rewrite pyval_eqb_refl. eexists. split; reflexivity.
  - match goal with
    | |- context [find ?p ?l] => destruct (find p l) as [r|] eqn:E
    end.
    + exists r. split; [reflexivity|]. apply find_some in E.
      destruct E as [_ E]. unfold jm_matches in E.
      apply andb_true_iff in E. destruct E as [Eo Em].
      split; apply pyval_eqb_eq; assumption.
    + simpl. unfold jm_matches. simpl. rewrite !pyval_eqb_refl.
      eexists. split; [reflexivity | split; reflexivity].
Qed.

Lemma created_order_is_found_witness :
  getOrderIdVP
    (createOrderVP demo_db (PStr "u9") (PStr "z9") (PInt 2) (PStr "5.00")
       (PStr "Diamonds") (PStr "VIPAYMENT") (PStr "T2") (PStr "h@x.com")
       (PStr "waiting") (PStr "{}"))
    (PStr "T2")
  = Some (mkOrderVP 2 (PStr "u9") (PStr "z9") (PInt 2) (PStr "5.00")
            (PStr "Diamonds") (PStr "VIPAYMENT") (PStr "T2") (PStr "h@x.com")
            (PStr "waiting") (PStr "{}")).
Proof.
  destruct (created_order_is_found demo_db (PStr "u9") (PStr "z9") (PInt 2)
              (PStr "5.00") (PStr "Diamonds") (PStr "VIPAYMENT") (PStr "T2")
              PNone (PStr "h@x.com") (PStr "waiting") (PStr "{}"))
    as (Hvp & _).
  apply Hvp. reflexivity.
Defined.

Lemma map_keep_all (A : Type) (c : A -> bool) (f : A -> A) (l : list A) :
  (forall x, f x = x) -> map (fun x => if c x then f x else x) l = l.
Proof.
  intros Hf. induction l as [|x l IH]; simpl; [reflexivity|].
  rewrite IH, Hf. destruct (c x); reflexivity.
Qed.

(** X3: what is updated is read back.  When the lookup of a handle
    gives a row, the lookup after an update of that handle gives the same
    row with the new status and details, a [None] argument keeping the
    column; the other columns and the id are those of before.  When the
    lookup gives nothing, the update leaves the whole store as it was, and
    so does an update whose two arguments are [None]. *)
Theorem updated_order_is_read_back (d : Database)
    (order_id message_id status new_order_details : pyval) :
  let keep (new old : pyval) := match new with PNone => old | _ => new end in
  let vp := updateOrderVP d order_id status new_order_details in
  let mg := updateOrderMG d order_id status new_order_details in
  let jm := updateOrderJM d order_id message_id status new_order_details in
  (forall r, getOrderIdVP d order_id = Some r ->
     exists r', getOrderIdVP vp order_id = Some r' /\
                vp_fixed r' = vp_fixed r /\
                vp_status r' = keep status (vp_status r) /\
                vp_order_details r' = keep new_order_details (vp_order_details r)) /\
  (forall r, getOrderIdMG d order_id = Some r ->
     exists r', getOrderIdMG mg order_id = Some r' /\
                vp_fixed r' = vp_fixed r /\
                vp_status r' = keep status (vp_status r) /\
                vp_order_details r' = keep new_order_details (vp_order_details r)) /\
  (forall r, getOrderIdJM d order_id message_id = Some r ->
     exists r', getOrderIdJM jm order_id message_id = Some r' /\
                jm_fixed r' = jm_fixed r /\
                jm_status r' = keep status (jm_status r) /\
                jm_order_details r' = keep new_order_details (jm_order_details r)) /\
  (getOrderIdVP d order_id = None -> vp = d) /\
  (getOrderIdMG d order_id = None -> mg = d) /\
  (getOrderIdJM d order_id message_id = None -> jm = d) /\
  updateOrderVP d order_id PNone PNone = d /\
  updateOrderMG d order_id PNone PNone = d /\
  updateOrderJM d order_id message_id PNone PNone = d.
Proof.
  intros keep vp mg jm.
  unfold vp, mg, jm, getOrderIdVP, getOrderIdMG, getOrderIdJM, updateOrderVP,
    updateOrderMG, updateOrderJM, update_order, BaseOrderMG.
  simpl.
  repeat match goal with |- _ /\ _ => split end.
  - intros r Hr. rewrite find_map_matching, Hr by auto.
    exists (update_row status new_order_details r). repeat split.
  - intros r Hr. rewrite find_map_matching, Hr by auto.
    exists (update_row status new_order_details r). repeat split.
  - intros r Hr. rewrite find_map_matching, Hr by auto.
    exists (update_row_jm status new_order_details r). repeat split.
  - intros H. rewrite map_matching_none by exact H. destruct d as [[] ? ?]; reflexivity.
  - intros H. rewrite map_matching_none by exact H. destruct d as [? [] ?]; reflexivity.
  - intros H. rewrite map_matching_none by exact H. destruct d as [? ? []]; reflexivity.
  - rewrite map_keep_all by (intros []; reflexivity).
    destruct d as [[] ? ?]; reflexivity.
  - rewrite map_keep_all by (intros []; reflexivity).
    destruct d as [? [] ?]; reflexivity.
  - rewrite map_keep_all by (intros []; reflexivity).
    destruct d as [? ? []]; reflexivity.
Qed.

Lemma updated_order_is_read_back_witness :
  exists r',
    getOrderIdJM
      (updateOrderJM demo_db (PStr "TM003400A") (PStr "M1") (PStr "SUCCESS")
         PNone)
      (PStr "TM003400A") (PStr "M1") = Some r' /\
    jm_status r' = PStr "SUCCESS" /\
    jm_order_details r' = PStr "{}".
Proof.
  destruct (updated_order_is_read_back demo_db (PStr "TM003400A") (PStr "M1")
              (PStr "SUCCESS") PNone) as (_ & _ & Hjm & _).
  destruct (Hjm demo_jm_order eq_refl) as (r' & Hfind & _ & Hs & Hd).
  exists r'. repeat split; assumption.
Defined.

Lemma find_filter_out (A : Type) (p : A -> bool) (l : list A) :
  find p (filter (fun x => negb (p x)) l) = None.
Proof.
  induction l as [|x l IH]; simpl; [reflexivity|].
  destruct (p x) eqn:E; simpl; [exact IH | rewrite E; exact IH].
Qed.

Lemma find_filter_other (A : Type) (p q : A -> bool) (l : list A) :
  (forall x, p x = true -> q x = false) ->
  find p (filter (fun x => negb (q x)) l) = find p l.
Proof.
  intros H. induction l as [|x l IH]; simpl; [reflexivity|].
  destruct (q x) eqn:Q; simpl.
  - destruct (p x) eqn:P; [rewrite (H x P) in Q; discriminate | exact IH].
  - destruct (p x); [reflexivity | exact IH].
Qed.

Lemma filter_split_length (A : Type) (p : A -> bool) (l : list A) :
  (List.length (filter (fun x => negb (p x)) l) + List.length (filter p l)
   = List.length l)%nat.
Proof.
  induction l as [|x l IH]; simpl; [reflexivity|].
  destruct (p x); simpl; lia.
Qed.

(** X4: what is deleted is gone, and only that.  After a delete the
    lookup of the handle gives nothing; the lookup of any other handle
    gives what it gave before; and the table has lost as many rows as
    answered to the handle.  For the three tables. *)
Theorem deleted_order_is_gone (d : Database) (order_id message_id : pyval) :
  (getOrderIdVP (deleteOrderVP d order_id) order_id = None /\
   getOrderIdMG (deleteOrderMG d order_id) order_id = None /\
   getOrderIdJM (deleteOrderJM d order_id message_id) order_id message_id
   = None) /\
  (forall other, other <> order_id ->
     getOrderIdVP (deleteOrderVP d order_id) other = getOrderIdVP d other /\
     getOrderIdMG (deleteOrderMG d order_id) other = getOrderIdMG d other) /\
  (forall o m, (o, m) <> (order_id, message_id) ->
     getOrderIdJM (deleteOrderJM d order_id message_id) o m
     = getOrderIdJM d o m) /\
  ((getCountOrderVP (deleteOrderVP d order_id) + count_vp d order_id
    = getCountOrderVP d)%nat /\
   (getCountOrderMG (deleteOrderMG d order_id) + count_mg d order_id
    = getCountOrderMG d)%nat /\
   (getCountOrderJM (deleteOrderJM d order_id message_id)
    + count_jm d order_id message_id
    = getCountOrderJM d)%nat).
Proof.
  unfold getOrderIdVP, getOrderIdMG, getOrderIdJM, deleteOrderVP,
    deleteOrderMG, deleteOrderJM, getCountOrderVP, getCountOrderMG,
    getCountOrderJM, count_vp, count_mg, count_jm, BaseOrderMG.
  simpl.
  repeat match goal with |- _ /\ _ => split end.
  - apply find_filter_out.
  - apply find_filter_out.
  - apply find_filter_out.
  - intros other Hneq.
    split; apply find_filter_other; intros r Hr; apply pyval_eqb_eq in Hr;
      apply pyval_eqb_neq; congruence.
  - intros o m Hneq. apply find_filter_other. intros r Hr.
    unfold jm_matches in *. apply andb_true_iff in Hr.
    destruct Hr as [Ho Hm]. apply pyval_eqb_eq in Ho, Hm.
    destruct (pyval_eqb (jm_order_id r) order_id) eqn:E1; [|reflexivity].
    destruct (pyval_eqb (jm_message_id r) message_id) eqn:E2; [|reflexivity].
    apply pyval_eqb_eq in E1, E2. exfalso. apply Hneq. congruence.
  - apply filter_split_length.
  - apply filter_split_length.
  - apply filter_split_length.
Qed.

Lemma deleted_order_is_gone_witness :
  let second := mkOrderVP 2 (PStr "u9") (PStr "z9") (PInt 2) (PStr "5.00")
                  (PStr "Diamonds") (PStr "VIPAYMENT") (PStr "T2")
                  (PStr "h@x.com") (PStr "waiting") (PStr "{}") in
  let d := mkDatabase (mkTable [demo_vp_order; second] 3%nat)
             (mg_orders demo_db) (jm_orders demo_db) in
  getOrderIdVP d (PStr "T1") = Some demo_vp_order /\
  getOrderIdVP (deleteOrderVP d (PStr "T1")) (PStr "T1") = None /\
  getOrderIdVP (deleteOrderVP d (PStr "T1")) (PStr "T2") = Some second /\
  (getCountOrderVP (deleteOrderVP d (PStr "T1")) + 1 = getCountOrderVP d)%nat.
Proof.
  intros second d.
  destruct (deleted_order_is_gone d (PStr "T1") PNone)
    as ((Hgone & _) & Hother & _ & (Hcount & _)).
  split; [reflexivity|]. split; [exact Hgone|]. split.
  - destruct (Hother (PStr "T2")) as [-> _]; [discriminate | reflexivity].
  - exact Hcount.
Defined.

Lemma filter_map_same_length (A : Type) (p : A -> bool) (g : A -> A) (l : list A) :
  (forall x, p (g x) = p x) ->
  List.length (filter p (map g l)) = List.length (filter p l).
Proof.
  intros H. induction l as [|x l IH]; simpl; [reflexivity|].
  rewrite H. destruct (p x); simpl; auto.
Qed.

Lemma filter_filter_shorter (A : Type) (p q : A -> bool) (l : list A) :
  (List.length (filter p (filter q l)) <= List.length (filter p l))%nat.
Proof.
  induction l as [|x l IH]; simpl; [lia|].
  destruct (q x), (p x) eqn:E; simpl; rewrite ?E; simpl; lia.
Qed.

(** X5: updates and deletes keep at most one row per handle.  An update
    changes the number of rows of no handle, and a delete raises none, in
    any of the three tables. *)
Theorem update_and_delete_keep_one_row_per_handle (d : Database)
    (order_id message_id status new_order_details : pyval) :
  one_row_per_handle d ->
  one_row_per_handle (updateOrderVP d order_id status new_order_details) /\
  one_row_per_handle (updateOrderMG d order_id status new_order_details) /\
  one_row_per_handle
    (updateOrderJM d order_id message_id status new_order_details) /\
  one_row_per_handle (deleteOrderVP d order_id) /\
  one_row_per_handle (deleteOrderMG d order_id) /\
  one_row_per_handle (deleteOrderJM d order_id message_id).
Proof.
  intros (Hvp & Hmg & Hjm).
  assert (Uvp : forall o h,
            count_vp (updateOrderVP d o status new_order_details) h
            = count_vp d h).
  { intros. unfold count_vp, updateOrderVP, update_order. simpl.
    apply filter_map_same_length. intros r.
    destruct (pyval_eqb (vp_order_id r) o); reflexivity. }
  assert (Umg : forall o h,
            count_mg (updateOrderMG d o status new_order_details) h
            = count_mg d h).
  { intros. unfold count_mg, updateOrderMG, update_order. simpl.
    apply filter_map_same_length. intros r.
    destruct (pyval_eqb (vp_order_id r) o); reflexivity. }
  assert (Ujm : forall o m h k,
            count_jm (updateOrderJM d o m status new_order_details) h k
            = count_jm d h k).
  { intros. unfold count_jm, updateOrderJM. simpl.
    apply filter_map_same_length. intros r.
    destruct (jm_matches o m r); reflexivity. }
  unfold one_row_per_handle.
  repeat match goal with |- _ /\ _ => split end;
    intros; rewrite ?Uvp, ?Umg, ?Ujm;
    first [ apply Hvp | apply Hmg | apply Hjm
          | unfold count_vp, count_mg, count_jm, deleteOrderVP,
              deleteOrderMG, deleteOrderJM; simpl;
            eapply Nat.le_trans;
            [ apply filter_filter_shorter
            | first [apply Hvp | apply Hmg | apply Hjm] ] ].
Qed.

Lemma one_row_per_handle_demo : one_row_per_handle demo_db.
Proof.
  unfold one_row_per_handle, count_vp, count_mg, count_jm. simpl.
  repeat match goal with |- _ /\ _ => split end; intros;
    match goal with
    | |- context [if ?c then _ else _] => destruct c
    end; simpl; lia.
Qed.

Lemma update_and_delete_keep_one_row_per_handle_witness :
  getOrderIdVP demo_db (PStr "T1") = Some demo_vp_order /\
  getOrderIdJM demo_db (PStr "TM003400A") (PStr "M1") = Some demo_jm_order /\
  one_row_per_handle (updateOrderVP demo_db (PStr "T1") (PStr "success") PNone) /\
  one_row_per_handle (deleteOrderJM demo_db (PStr "TM003400A") (PStr "M1")).
Proof.
  destruct (@update_and_delete_keep_one_row_per_handle demo_db (PStr "T1")
              PNone (PStr "success") PNone one_row_per_handle_demo)
    as (Hu & _).
  destruct (@update_and_delete_keep_one_row_per_handle demo_db
              (PStr "TM003400A") (PStr "M1") PNone PNone
              one_row_per_handle_demo)
    as (_ & _ & _ & _ & _ & Hd).
  split; [reflexivity|]. split; [reflexivity|]. split; assumption.
Defined.

Lemma filter_map_moved (A : Type) (q c : A -> bool) (f : A -> A) (l : list A) :
  (forall x, c x = true -> q (f x) = false) ->
  filter q (map (fun x => if c x then f x else x) l)
  = filter (fun x => negb (c x)) (filter q l).
Proof.
  intros H. induction l as [|x l IH]; simpl; [reflexivity|].
  destruct (c x) eqn:C.
  - rewrite (H x C). destruct (q x); simpl; rewrite ?C; simpl; exact IH.
  - destruct (q x); simpl; rewrite ?C; simpl; rewrite IH; reflexivity.
Qed.

Lemma kept_status (status old : pyval) :
  status <> PNone ->
  match status with PNone => old | _ => status end = status.
Proof. destruct status; intros H; try reflexivity. contradiction. Qed.

(** X6: an order whose status has moved is no longer listed under the
    old one.  After an update that sets a status other than [s], the rows
    listed under status [s] are those listed before, without the rows of
    the updated handle.  For the three tables. *)
Theorem updated_order_leaves_its_old_status_list (d : Database)
    (order_id message_id status new_order_details s : pyval) :
  status <> PNone -> status <> s ->
  getOrderStatusVP (updateOrderVP d order_id status new_order_details) s
  = filter (fun r => negb (pyval_eqb (vp_order_id r) order_id))
      (getOrderStatusVP d s) /\
  getOrderStatusMG (updateOrderMG d order_id status new_order_details) s
  = filter (fun r => negb (pyval_eqb (vp_order_id r) order_id))
      (getOrderStatusMG d s) /\
  getOrderStatusJM
    (updateOrderJM d order_id message_id status new_order_details) s
  = filter (fun r => negb (jm_matches order_id message_id r))
      (getOrderStatusJM d s).
Proof.
  intros Hset Hmoved.
  unfold getOrderStatusVP, getOrderStatusMG, getOrderStatusJM, updateOrderVP,
    updateOrderMG, updateOrderJM, update_order, BaseOrderMG.
  simpl.
  repeat match goal with |- _ /\ _ => split end;
    apply filter_map_moved; intros r _; simpl;
    rewrite kept_status by assumption; apply pyval_eqb_neq; assumption.
Qed.

Lemma updated_order_leaves_its_old_status_list_witness :
  getOrderStatusMG
    (updateOrderMG demo_db (PStr "MG-9") (PStr "completed") (PStr "{}"))
    (PStr "processing")
  = [].
Proof.
  destruct (@updated_order_leaves_its_old_status_list demo_db (PStr "MG-9")
              PNone (PStr "completed") (PStr "{}") (PStr "processing"))
    as (_ & -> & _); [discriminate | discriminate | reflexivity].
Defined.

(* ================================================================= *)
(** ** More on the adapters *)

Lemma app_three (A : Type) (l : list A) (a b c : A) :
  (((l ++ [a]) ++ [b]) ++ [c] = l ++ [a; b; c])%list.
Proof. rewrite <- !app_assoc. reflexivity. Qed.

(** X7: an accepted creation is stored and its handle returned.  When
    the values of the request are of the types of their columns (strings,
    and an integer of four bytes for the quantity), the POST is answered
    with status 200 and a JSON body whose discriminator is the successful
    one, and the handle that VIPayment or MooGold gives is a string, the
    adapter appends one row to its own table, with the request's fields,
    the provider's name, the initial status ("waiting", "processing",
    "waiting") and the serialized body as details, and returns the
    handle: the provider's
    [trxid] for VIPayment, [account_details.order_id] for MooGold, the
    pair of generated identifiers for Jollymax, the first of which starts
    with "TM003400". *)
Theorem accepted_creation_is_persisted
    (env : Env) (py : PyLib) (w : World)
    (service user_id zone_id email quantity price product data v inner
       handle : pyval) :
  typed_request user_id zone_id quantity price product email = true ->
  http env (posts w) = Reply 200 (Some data) ->
  serializable data = true ->
  let details := PStr (json_dumps py data) in
  (py_getitem data "result" = Val v -> py_eq_true v = true ->
   py_getitem data "data" = Val inner ->
   py_getitem inner "trxid" = Val handle ->
   is_text handle = true ->
   ServiceVIPayment_create_order env py service user_id zone_id email
     quantity price product w
   = (Val handle,
      mkWorld
        (createOrderVP (db w) user_id zone_id quantity price product
           (PStr "VIPAYMENT") handle email (PStr "waiting") details)
        (trace w ++ [AdapterCall VIPayment Create; HttpPost VIPayment Create;
                     DbInsert VIPayment [handle]])
        (S (posts w)) (ids w))) /\
  (py_getitem data "status" = Val v -> py_eq_true v = true ->
   py_getitem data "account_details" = Val inner ->
   py_getitem inner "order_id" = Val handle ->
   is_text handle = true ->
   serializable service = true -> serializable user_id = true ->
   serializable zone_id = true ->
   ServiceMoogold_create_order env py service user_id zone_id email
     quantity price product w
   = (Val handle,
      mkWorld
        (createOrderMG (db w) user_id zone_id quantity price product
           (PStr "MOOGOLD") handle email (PStr "processing") details)
        (trace w ++ [AdapterCall MooGold Create; HttpPost MooGold Create;
                     DbInsert MooGold [handle]])
        (S (posts w)) (ids w))) /\
  (py_getitem data "code" = Val v -> py_eq_str v "APPLY_SUCCESS" = true ->
   serializable service = true -> serializable user_id = true ->
   serializable zone_id = true -> key_file_ok env (posts w) = true ->
   let order_id := PStr ("TM003400" ++ unique_id env (ids w)) in
   let message_id := PStr (unique_id env (S (ids w))) in
   ServiceJollymax_create_order env py service user_id zone_id email
     quantity price product w
   = (Val (PTuple [order_id; message_id]),
      mkWorld
        (createOrderJM (db w) user_id zone_id quantity price product
           (PStr "JOLLYMAX") order_id message_id email (PStr "waiting")
           details)
        (trace w ++ [AdapterCall Jollymax Create; HttpPost Jollymax Create;
                     DbInsert Jollymax [order_id; message_id]])
        (S (posts w)) (S (S (ids w))))).
Proof.
  intros _ Hh Hjson details. split; [|split].
  - intros Hr Ht Hi Hx _.
    unfold ServiceVIPayment_create_order, request_creating_order_vp, py_dumps.
    mstep. rewrite Hh. mstep. rewrite Hr. mstep. rewrite Ht. mstep.
    rewrite Hi. mstep. rewrite Hx. mstep. rewrite Hjson. mstep.
    rewrite app_three. reflexivity.
  - intros Hr Ht Hi Hx _ Hs Hu Hz.
    unfold ServiceMoogold_create_order, request_creating_order_mg, py_dumps.
    mstep. rewrite Hs, Hu, Hz. mstep.
    rewrite Hh. mstep. rewrite Hr. mstep. rewrite Ht. mstep.
    rewrite Hi. mstep. rewrite Hx. mstep. rewrite Hjson. mstep.
    rewrite app_three. reflexivity.
  - intros Hr Ht Hs Hu Hz Hk order_id message_id.
    unfold ServiceJollymax_create_order, request_creating_order_jm,
      generate_unique_id, generate_signature, py_dumps.
    mstep. rewrite Hk. mstep. rewrite Hs, Hu, Hz. mstep.
    rewrite Hh. mstep. rewrite Hr. mstep. rewrite Ht. mstep.
    rewrite Hjson. mstep.
    rewrite app_three. reflexivity.
Qed.

Lemma accepted_creation_is_persisted_witness :
  let data := PDict [("status", PBool true);
                     ("account_details", PDict [("order_id", PStr "MG-9")])] in
  let w' := snd (ServiceMoogold_create_order (scripted [ok_json data]) demo_py
                   (PStr "123") (PStr "u1") (PStr "z1") (PStr "e@x.com")
                   (PInt 1) (PStr "10.00") (PStr "Gift Card")
                   (world0 empty_db)) in
  option_map vp_status (getOrderIdMG (db w') (PStr "MG-9"))
  = Some (PStr "processing").
Proof.
  intros data w'. unfold w'.
  destruct (@accepted_creation_is_persisted (scripted [ok_json data]) demo_py
              (world0 empty_db) (PStr "123") (PStr "u1") (PStr "z1")
              (PStr "e@x.com") (PInt 1) (PStr "10.00") (PStr "Gift Card")
              data (PBool true) (PDict [("order_id", PStr "MG-9")])
              (PStr "MG-9") eq_refl eq_refl eq_refl) as (_ & Hmg & _).
  rewrite Hmg; reflexivity.
Defined.

(** X8: a creation that fails on the wire is reported, not raised, and
    stores nothing.  When the POST raises, VIPayment and Jollymax return
    their "exception" result and MooGold, whose request function has no
    [try], the adapter's "error" result "function create_order", each
    with the text of the exception; when the answer has another status
    than 200, all three return the "error" result "the request failed"
    that holds the response object.  The database is unchanged. *)
Theorem failed_creation_is_reported
    (env : Env) (py : PyLib) (w : World)
    (service user_id zone_id email quantity price product : pyval) :
  let after p n :=
    mkWorld (db w) (trace w ++ [AdapterCall p Create; HttpPost p Create])
      (S (posts w)) (n + ids w) in
  let exception error :=
    PDict [("status", PStr "exception"); ("user_id", user_id);
           ("message", PStr "function error: (creating order)");
           ("data", PStr (exn_str py error))] in
  let refused code :=
    PDict [("status", PStr "error"); ("user_id", user_id);
           ("message", PStr "the request failed");
           ("data", PHttpResponse code)] in
  let vp := ServiceVIPayment_create_order env py service user_id zone_id
              email quantity price product w in
  let mg := ServiceMoogold_create_order env py service user_id zone_id
              email quantity price product w in
  let jm := ServiceJollymax_create_order env py service user_id zone_id
              email quantity price product w in
  serializable service = true -> serializable user_id = true ->
  serializable zone_id = true -> key_file_ok env (posts w) = true ->
  (forall msg, http env (posts w) = ConnectionFailed msg ->
     vp = (Val (exception (TransportError msg)), after VIPayment 0%nat) /\
     mg = (Val (PDict [("status", PStr "error");
                       ("message", PStr "function create_order");
                       ("data", PStr (exn_str py (TransportError msg)))]),
           after MooGold 0%nat) /\
     jm = (Val (exception (TransportError msg)), after Jollymax 2%nat)) /\
  (forall code body, http env (posts w) = Reply code body ->
     (code =? 200) = false ->
     vp = (Val (refused code), after VIPayment 0%nat) /\
     mg = (Val (refused code), after MooGold 0%nat) /\
     jm = (Val (refused code), after Jollymax 2%nat)).
Proof.
  intros after exception refused vp mg jm Hs Hu Hz Hk.
  unfold vp, mg, jm, ServiceVIPayment_create_order,
    ServiceMoogold_create_order, ServiceJollymax_create_order,
    request_creating_order_vp, request_creating_order_mg,
    request_creating_order_jm, generate_unique_id, generate_signature,
    py_dumps.
  split.
  - intros msg Hh. mstep. rewrite Hk. mstep. rewrite Hs, Hu, Hz. mstep.
    rewrite Hh. mstep. rewrite !app_two. repeat split.
  - intros code body Hh Hcode. mstep. rewrite Hk. mstep.
    rewrite Hs, Hu, Hz. mstep. rewrite Hh. mstep. rewrite Hcode. mstep.
    rewrite !app_two. repeat split.
Qed.

Lemma failed_creation_is_reported_witness :
  fst (ServiceMoogold_create_order (scripted []) demo_py (PStr "123")
         (PStr "u1") (PStr "z1") (PStr "e@x.com") (PInt 1) (PStr "10.00")
         (PStr "Gift Card") (world0 demo_db))
  = Val (PDict [("status", PStr "error");
                ("message", PStr "function create_order");
                ("data", PStr "connection refused")]).
Proof.
  destruct (@failed_creation_is_reported (scripted []) demo_py
              (world0 demo_db) (PStr "123") (PStr "u1") (PStr "z1")
              (PStr "e@x.com") (PInt 1) (PStr "10.00") (PStr "Gift Card")
              eq_refl eq_refl eq_refl eq_refl) as (Hfail & _).
  destruct (Hfail "connection refused" eq_refl) as (_ & -> & _).
  reflexivity.
Defined.

Lemma try_except_returns (A : Type) (m : M A) (h : exn -> M A) :
  (forall e w, exists v, fst (h e w) = Val v) ->
  forall w, exists v, fst (try_except m h w) = Val v.
Proof.
  intros Hh w. unfold try_except.
  destruct (m w) as [[a|e] w']; simpl; eauto.
Qed.

Lemma check_order_status_never_raises
    (cfg : Config) (env : Env) (py : PyLib) (passes : nat) :
  forall w, fst (check_order_status cfg env py passes w) = Val tt.
Proof.
  induction passes as [|n IH]; intros w; simpl; [reflexivity|].
  unfold bind.
  pose proof (guarded_body_never_raises
                (bind get_db
                   (fun d =>
                      bind (for_each (getOrderStatusVP d (PStr "waiting"))
                              (check_vp_order cfg env py))
                        (fun _ =>
                           bind (for_each (getOrderStatusMG d (PStr "processing"))
                                   (check_mg_order cfg env py))
                             (fun _ =>
                                for_each (getOrderStatusJM d (PStr "waiting"))
                                  (check_jm_order cfg env py))))) w) as H.
  change (fst (sweep cfg env py w) = Val tt) in H.
  destruct (sweep cfg env py w) as [[[]|e] w1]; simpl in H;
    [apply IH | discriminate].
Qed.

(** X9: no exception leaves the VIPayment adapter, the order creation,
    the endpoint or the reconciliation loop.  Whatever the request, the
    store and the outside world, [ServiceVIPayment.create_order],
    [ServiceVIPayment.check_order], [service_create_order] and the
    handler of [/v1/skyshop] end with a value, and any number of passes
    of [check_order_status] ends normally. *)
Theorem no_exception_escapes (cfg : Config) (env : Env) (py : PyLib) :
  (forall service user_id zone_id email quantity price product w,
      exists v, fst (ServiceVIPayment_create_order env py service user_id
                       zone_id email quantity price product w) = Val v) /\
  (forall order_id w,
      exists v, fst (ServiceVIPayment_check_order env py order_id w) = Val v) /\
  (forall service_code product_code user_id zone_id email quantity price
          product_name w,
      exists v, fst (service_create_order cfg env py service_code
                       product_code user_id zone_id email quantity price
                       product_name w) = Val v) /\
  (forall body w, exists v, fst (skyshop_api cfg env py body w) = Val v) /\
  (forall passes w, fst (check_order_status cfg env py passes w) = Val tt).
Proof.
  repeat match goal with |- _ /\ _ => split end.
  - intros. unfold ServiceVIPayment_create_order, bind at 1, emit.
    apply try_except_returns. intros e w'. eexists. reflexivity.
  - intros. unfold ServiceVIPayment_check_order, bind at 1, emit.
    apply try_except_returns. intros e w'. eexists. reflexivity.
  - intros. unfold service_create_order.
    apply try_except_returns. intros e w'. eexists. reflexivity.
  - intros. unfold skyshop_api.
    apply try_except_returns. intros e w'. eexists. reflexivity.
  - intros. apply check_order_status_never_raises.
Qed.

(** X10: an unreadable key file stops Jollymax before the POST.  The
    adapter's [create_order] raises out of [generate_signature], which is
    called before its [try]; [service_create_order] has by then sent the
    new-order message to every operator, and answers with the 500
    response "create order".  In the sweep the same failure is caught by
    the order's own [except]: the order is left as it was.  No POST is
    made and the database is unchanged in either case. *)
Theorem unreadable_key_stops_jollymax
    (cfg : Config) (env : Env) (py : PyLib) (w : World)
    (product_code user_id zone_id email quantity price product_name : pyval)
    (jm_order : BaseOrderJM) :
  key_file_ok env (posts w) = false ->
  let error := OSError "private.key.pem" in
  let announce :=
    map (fun admin =>
           Notify admin
             (order_text py "JollyMax" product_name user_id quantity price))
        (TG_ADMINS cfg) in
  ServiceJollymax_create_order env py product_code user_id zone_id email
    quantity price product_name w
  = (Raise error,
     mkWorld (db w) (trace w ++ [AdapterCall Jollymax Create]) (posts w)
       (S (S (ids w)))) /\
  service_create_order cfg env py (PStr "JM") product_code user_id zone_id
    email quantity price product_name w
  = (Val (PJSONResponse 500
            (PDict [("status", PStr "error");
                    ("message", PStr "create order");
                    ("data", PStr (exn_str py error))])),
     mkWorld (db w)
       (trace w ++ announce ++ [AdapterCall Jollymax Create]) (posts w)
       (S (S (ids w)))) /\
  check_jm_order cfg env py jm_order w
  = (Val tt,
     mkWorld (db w) (trace w ++ [AdapterCall Jollymax Check]) (posts w)
       (ids w)).
Proof.
  intros Hk error announce. split; [|split].
  - unfold ServiceJollymax_create_order, generate_unique_id,
      generate_signature.
    mstep. rewrite Hk. reflexivity.
  - unfold service_create_order.
    cbn [py_eq_str String.eqb Ascii.eqb Bool.eqb].
    unfold try_except, bind at 1. rewrite send_message_order_run.
    unfold ServiceJollymax_create_order, generate_unique_id,
      generate_signature, JSONResponse.
    mstep. rewrite Hk. mstep. rewrite <- app_assoc. reflexivity.
  - unfold check_jm_order, ServiceJollymax_check_order, generate_signature.
    mstep. rewrite Hk. reflexivity.
Qed.

Lemma unreadable_key_stops_jollymax_witness :
  let env := mkEnv (fun _ => ConnectionFailed "unused") (fun _ => false)
               (fun _ => "id") in
  posts (snd (service_create_order demo_cfg env demo_py (PStr "JM")
                (PStr "123") (PStr "u1") (PStr "z1") (PStr "e@x.com")
                (PInt 1) (PStr "10.00") (PStr "Coins") (world0 demo_db)))
  = 0%nat.
Proof.
  intros env.
  destruct (@unreadable_key_stops_jollymax demo_cfg env demo_py
              (world0 demo_db) (PStr "123") (PStr "u1") (PStr "z1")
              (PStr "e@x.com") (PInt 1) (PStr "10.00") (PStr "Coins")
              demo_jm_order eq_refl) as (_ & -> & _).
  reflexivity.
Defined.

(* ================================================================= *)
(** ** What the two paths can do to the store *)

Lemma extends_rows_refl (R : Type) (l : list R) : extends_rows l l.
Proof. exists []. rewrite app_nil_r. reflexivity. Qed.

Lemma extends_rows_trans (R : Type) (a b c : list R) :
  extends_rows a b -> extends_rows b c -> extends_rows a c.
Proof.
  intros [x ->] [y ->]. exists (x ++ y)%list. rewrite app_assoc. reflexivity.
Qed.

Lemma only_appended_refl (d : Database) : only_appended d d.
Proof. repeat split; apply extends_rows_refl. Qed.

Lemma only_appended_trans (a b c : Database) :
  only_appended a b -> only_appended b c -> only_appended a c.
Proof.
  intros (H1 & H2 & H3) (K1 & K2 & K3).
  repeat split; eapply extends_rows_trans; eauto.
Qed.

Lemma only_appended_create (d : Database)
    (user_id zone_id quantity price product api_name order_id message_id
       email_user status order_details : pyval) :
  only_appended d
    (createOrderVP d user_id zone_id quantity price product api_name
       order_id email_user status order_details) /\
  only_appended d
    (createOrderMG d user_id zone_id quantity price product api_name
       order_id email_user status order_details) /\
  only_appended d
    (createOrderJM d user_id zone_id quantity price product api_name
       order_id message_id email_user status order_details).
Proof.
  repeat split; simpl; try apply extends_rows_refl; eexists; reflexivity.
Qed.

(** Confinement, with the loops. *)
Ltac confine_loops :=
  repeat first [ progress confine | apply confined_for_each; intro ].

(** X11: order creation only appends.  Whatever the request body and
    whatever the providers answer, the rows that the store held before a
    call of the endpoint are all still there afterwards, unchanged and in
    their place, in each of the three tables; a call can only have added
    rows after them. *)
Theorem endpoint_only_appends
    (cfg : Config) (env : Env) (py : PyLib) (body : option pyval) (w : World) :
  only_appended (db w) (db (snd (skyshop_api cfg env py body w))).
Proof.
  assert (H : confined (fun _ => True) only_appended
                (skyshop_api cfg env py body)).
  { unfold skyshop_api, service_create_order, send_message_order,
      ServiceVIPayment_create_order, ServiceMoogold_create_order,
      ServiceJollymax_create_order, request_creating_order_vp,
      request_creating_order_mg, request_creating_order_jm, function_error.
    confine_loops.
    all: intros;
      first [ apply only_appended_refl
            | eapply only_appended_trans; eassumption
            | apply only_appended_create with (message_id := PNone)
            | apply only_appended_create ]. }
  destruct (H w) as (t & _ & _ & Hd). exact Hd.
Qed.

Lemma same_orders_refl (d : Database) : same_orders d d.
Proof. repeat split. Qed.

Lemma same_orders_trans (a b c : Database) :
  same_orders a b -> same_orders b c -> same_orders a c.
Proof.
  unfold same_orders. intros (A1 & A2 & A3 & A4 & A5 & A6)
    (B1 & B2 & B3 & B4 & B5 & B6).
  repeat split; congruence.
Qed.

Lemma map_fixed_update (A B : Type) (fixed : A -> B) (c : A -> bool)
    (f : A -> A) (l : list A) :
  (forall x, fixed (f x) = fixed x) ->
  map fixed (map (fun x => if c x then f x else x) l) = map fixed l.
Proof.
  intros H. rewrite map_map. apply map_ext. intros x.
  destruct (c x); auto.
Qed.

Lemma same_orders_update (d : Database)
    (order_id message_id status new_order_details : pyval) :
  same_orders d (updateOrderVP d order_id status new_order_details) /\
  same_orders d (updateOrderMG d order_id status new_order_details) /\
  same_orders d (updateOrderJM d order_id message_id status new_order_details).
Proof.
  unfold same_orders, updateOrderVP, updateOrderMG, updateOrderJM,
    update_order. simpl.
  repeat split; apply map_fixed_update; reflexivity.
Qed.

Lemma sweep_keeps_orders (cfg : Config) (env : Env) (py : PyLib) :
  confined (fun _ => True) same_orders (sweep cfg env py).
Proof.
  unfold sweep, check_vp_order, check_mg_order, check_jm_order,
    ServiceVIPayment_check_order, ServiceMoogold_check_order,
    ServiceJollymax_check_order, request_checking_order_vp,
    request_checking_order_mg, request_checking_order_jm,
    function_error, check_exception.
  confine_loops.
  all: intros;
    first [ apply same_orders_refl
          | eapply same_orders_trans; eassumption
          | apply same_orders_update with (message_id := PNone)
          | apply same_orders_update ].
Qed.

(** X12: the reconciliation loop writes status and details only.
    After any number of passes, whatever the providers answer, each table
    holds the rows it held, in whatever order they are read, with the
    same id and the same user, zone, quantity, price, product, provider
    name, handle and email, and the next id of each table is the same:
    no pass inserts, deletes or re-keys a row. *)
Theorem reconciliation_only_writes_status_and_details
    (cfg : Config) (env : Env) (py : PyLib) (passes : nat) (w : World) :
  same_orders_in_any_order (db w)
    (db (snd (check_order_status cfg env py passes w))).
Proof.
  cut (same_orders (db w)
         (db (snd (check_order_status cfg env py passes w)))).
  { intros (E1 & E2 & E3 & N1 & N2 & N3).
    unfold same_orders_in_any_order. rewrite E1, E2, E3.
    repeat match goal with |- _ /\ _ => split end;
      first [apply Permutation_refl | assumption]. }
  assert (H : confined (fun _ => True) same_orders
                (check_order_status cfg env py passes)).
  { induction passes as [|n IH]; simpl.
    - apply confined_ret. apply same_orders_refl.
    - apply confined_bind.
      + exact same_orders_trans.
      + apply sweep_keeps_orders.
      + intros _. exact IH. }
  destruct (H w) as (t & _ & _ & Hd). exact Hd.
Qed.

Lemma sweep_is_three_loops (cfg : Config) (env : Env) (py : PyLib) (w : World) :
  sweep cfg env py w
  = bind (for_each (getOrderStatusVP (db w) (PStr "waiting"))
            (check_vp_order cfg env py))
      (fun _ =>
         bind (for_each (getOrderStatusMG (db w) (PStr "processing"))
                 (check_mg_order cfg env py))
           (fun _ =>
              for_each (getOrderStatusJM (db w) (PStr "waiting"))
                (check_jm_order cfg env py))) w.
Proof.
  unfold sweep, try_except, bind at 1, get_db.
  match goal with
  | |- match ?m with _ => _ end = _ =>
      assert (H : fst m = Val tt); [|destruct m as [[[]|e] w']; simpl in H;
                                     [reflexivity | discriminate]]
  end.
  unfold bind.
  pose proof (for_each_never_raises
                (getOrderStatusVP (db w) (PStr "waiting"))
                (check_vp_order cfg env py)
                (fun o w0 => guarded_body_never_raises _ w0) w) as H1.
  destruct (for_each _ (check_vp_order cfg env py) w) as [[[]|e] w1];
    simpl in H1; [|discriminate].
  pose proof (for_each_never_raises
                (getOrderStatusMG (db w) (PStr "processing"))
                (check_mg_order cfg env py)
                (fun o w0 => guarded_body_never_raises _ w0) w1) as H2.
  destruct (for_each _ (check_mg_order cfg env py) w1) as [[[]|e] w2];
    simpl in H2; [|discriminate].
  apply for_each_never_raises. intros. apply guarded_body_never_raises.
Qed.

Lemma guarded_call_is_counted_once (B : Type) (e : event) (m1 : M B)
    (k : B -> M unit) (h : exn -> M unit) :
  is_adapter_call e = true ->
  confined (fun x => is_adapter_call x = false) (fun _ _ => True) m1 ->
  (forall b, confined (fun x => is_adapter_call x = false) (fun _ _ => True)
               (k b)) ->
  (forall x, confined (fun x => is_adapter_call x = false) (fun _ _ => True)
               (h x)) ->
  forall w,
    adapter_calls
      (trace (snd (try_except (bind (bind (emit e) (fun _ => m1)) k) h w)))
    = (adapter_calls (trace w) ++ [e])%list.
Proof.
  intros He Hm Hk Hh w.
  change (try_except (bind (bind (emit e) (fun _ => m1)) k) h w)
    with (try_except (bind m1 k) h
            (mkWorld (db w) (trace w ++ [e]) (posts w) (ids w))).
  assert (Hc : confined (fun x => is_adapter_call x = false)
                 (fun _ _ => True) (try_except (bind m1 k) h)).
  { apply confined_try; auto. apply confined_bind; auto. }
  destruct (Hc (mkWorld (db w) (trace w ++ [e]) (posts w) (ids w)))
    as (t & Et & Ft & _).
  unfold adapter_calls. rewrite Et. simpl.
  rewrite !filter_app, (filter_nothing _ Ft), app_nil_r. simpl.
  rewrite He. reflexivity.
Qed.

Lemma checks_are_counted_once (cfg : Config) (env : Env) (py : PyLib)
    (w : World) :
  (forall o, adapter_calls (trace (snd (check_vp_order cfg env py o w)))
             = (adapter_calls (trace w) ++ [AdapterCall VIPayment Check])%list) /\
  (forall o, adapter_calls (trace (snd (check_mg_order cfg env py o w)))
             = (adapter_calls (trace w) ++ [AdapterCall MooGold Check])%list) /\
  (forall o, adapter_calls (trace (snd (check_jm_order cfg env py o w)))
             = (adapter_calls (trace w) ++ [AdapterCall Jollymax Check])%list).
Proof.
  repeat split; intros o;
    unfold check_vp_order, check_mg_order, check_jm_order,
      ServiceVIPayment_check_order, ServiceMoogold_check_order,
      ServiceJollymax_check_order;
    apply guarded_call_is_counted_once; try reflexivity;
    unfold request_checking_order_vp, request_checking_order_mg,
      request_checking_order_jm, function_error, check_exception;
    confine_loops.
Qed.

Lemma loop_calls (A : Type) (e : event) (body : A -> M unit) (l : list A) :
  (forall x w, fst (body x w) = Val tt) ->
  (forall x w, adapter_calls (trace (snd (body x w)))
               = (adapter_calls (trace w) ++ [e])%list) ->
  forall w,
    adapter_calls (trace (snd (for_each l body w)))
    = (adapter_calls (trace w) ++ map (fun _ => e) l)%list.
Proof.
  intros Htotal Hbody. induction l as [|x l IH]; intros w.
  - simpl. rewrite app_nil_r. reflexivity.
  - rewrite for_each_next by apply Htotal.
    rewrite IH, Hbody. simpl. rewrite <- app_assoc. reflexivity.
Qed.

(** X13: a pass checks every open order exactly once.  Whatever the
    providers answer, the adapter calls that a sweep adds to the trace
    are one VIPayment check for each order read as "waiting", then one
    MooGold check for each order read as "processing", then one Jollymax
    check for each order read as "waiting": none is skipped and none is
    repeated. *)
Theorem sweep_checks_every_open_order_once
    (cfg : Config) (env : Env) (py : PyLib) (w : World) :
  adapter_calls (trace (snd (sweep cfg env py w)))
  = (adapter_calls (trace w)
     ++ map (fun _ => AdapterCall VIPayment Check)
          (getOrderStatusVP (db w) (PStr "waiting"))
     ++ map (fun _ => AdapterCall MooGold Check)
          (getOrderStatusMG (db w) (PStr "processing"))
     ++ map (fun _ => AdapterCall Jollymax Check)
          (getOrderStatusJM (db w) (PStr "waiting")))%list.
Proof.
  rewrite sweep_is_three_loops. unfold bind.
  pose proof (@loop_calls _ (AdapterCall VIPayment Check)
                (check_vp_order cfg env py)
                (getOrderStatusVP (db w) (PStr "waiting"))
                (fun o w0 => guarded_body_never_raises _ w0)
                (fun o w0 => proj1 (checks_are_counted_once cfg env py w0) o)
                w) as Hvp.
  pose proof (for_each_never_raises
                (getOrderStatusVP (db w) (PStr "waiting"))
                (check_vp_order cfg env py)
                (fun o w0 => guarded_body_never_raises _ w0) w) as Tvp.
  destruct (for_each _ (check_vp_order cfg env py) w) as [[[]|e] w1];
    simpl in Tvp, Hvp; [|discriminate].
  pose proof (@loop_calls _ (AdapterCall MooGold Check)
                (check_mg_order cfg env py)
                (getOrderStatusMG (db w) (PStr "processing"))
                (fun o w0 => guarded_body_never_raises _ w0)
                (fun o w0 =>
                   proj1 (proj2 (checks_are_counted_once cfg env py w0)) o)
                w1) as Hmg.
  pose proof (for_each_never_raises
                (getOrderStatusMG (db w) (PStr "processing"))
                (check_mg_order cfg env py)
                (fun o w0 => guarded_body_never_raises _ w0) w1) as Tmg.
  destruct (for_each _ (check_mg_order cfg env py) w1) as [[[]|e] w2];
    simpl in Tmg, Hmg; [|discriminate].
  rewrite (@loop_calls _ (AdapterCall Jollymax Check)
             (check_jm_order cfg env py)
             (getOrderStatusJM (db w) (PStr "waiting"))
             (fun o w0 => guarded_body_never_raises _ w0)
             (fun o w0 =>
                proj2 (proj2 (checks_are_counted_once cfg env py w0)) o)
             w2).
  rewrite Hmg, Hvp, <- !app_assoc. reflexivity.
Qed.

(* ================================================================= *)
(** ** More on the handling of one order *)

Lemma eq_true_is_truthy (v : pyval) : py_eq_true v = true -> py_truthy v = true.
Proof.
  destruct v; simpl; try discriminate; auto.
  intros H. apply Z.eqb_eq in H. subst. reflexivity.
Qed.

(** X14: an accepted status is written with the response.  When the
    check of a VIPayment order is answered with status 200 and a JSON
    object whose [result] is true and whose [data] is a list, the status
    of the first element, when the vocabulary has it, is written to every
    row of that order id together with the serialized response.  For
    Jollymax the same holds with [code == "APPLY_SUCCESS"] and
    [data.status], the update being addressed to the pair (order id,
    message id), when the key file is readable. *)
Theorem accepted_status_is_written
    (cfg : Config) (env : Env) (py : PyLib) (w : World)
    (kv : list (string * pyval)) (v new_status : pyval) :
  http env (posts w) = Reply 200 (Some (PDict kv)) ->
  serializable (PDict kv) = true ->
  let details := PStr (json_dumps py (PDict kv)) in
  (forall vp_order item rest,
      dict_get "result" kv = Some v -> py_eq_true v = true ->
      dict_get "data" kv = Some (PList (item :: rest)) ->
      py_getitem item "status" = Val new_status ->
      py_in_strs new_status (VP_STATUSES cfg) = true ->
      check_vp_order cfg env py vp_order w
      = (Val tt,
         mkWorld
           (updateOrderVP (db w) (vp_order_id vp_order) new_status details)
           (trace w ++ [AdapterCall VIPayment Check; HttpPost VIPayment Check;
                        DbUpdate VIPayment [vp_order_id vp_order]])
           (S (posts w)) (ids w))) /\
  (forall jm_order inner,
      dict_get "code" kv = Some v -> py_eq_str v "APPLY_SUCCESS" = true ->
      dict_get "data" kv = Some inner ->
      py_get inner "status" = Val new_status ->
      py_in_strs new_status (JM_STATUSES cfg) = true ->
      serializable (jm_order_id jm_order) = true ->
      serializable (jm_message_id jm_order) = true ->
      key_file_ok env (posts w) = true ->
      check_jm_order cfg env py jm_order w
      = (Val tt,
         mkWorld
           (updateOrderJM (db w) (jm_order_id jm_order)
              (jm_message_id jm_order) new_status details)
           (trace w ++ [AdapterCall Jollymax Check; HttpPost Jollymax Check;
                        DbUpdate Jollymax [jm_order_id jm_order;
                                           jm_message_id jm_order]])
           (S (posts w)) (ids w))).
Proof.
  intros Hh Hjson details. split.
  - intros o item rest Hr Ht Hd Hs Hin.
    pose proof (eq_true_is_truthy _ Ht) as Htruthy.
    unfold check_vp_order, ServiceVIPayment_check_order,
      request_checking_order_vp, vp_new_status, py_dumps.
    mstep. rewrite Hh.
    repeat (progress (pystep; rewrite ?Hr, ?Ht, ?Htruthy, ?Hd, ?Hs, ?Hin,
                        ?Hjson)).
    rewrite app_three. reflexivity.
  - intros o inner Hc Hok Hd Hs Hin Hso Hsm Hk.
    unfold check_jm_order, ServiceJollymax_check_order,
      request_checking_order_jm, jm_new_status, generate_signature, py_dumps.
    mstep. rewrite Hk. mstep. rewrite Hso, Hsm. mstep.
    rewrite Hh.
    repeat (progress (mstep; cbn [py_getitem];
                      rewrite ?Hc, ?Hok, ?Hd, ?Hs, ?Hin, ?Hjson)).
    rewrite app_three. reflexivity.
Qed.

Lemma accepted_status_is_written_witness :
  let reply := [("result", PBool true);
                ("data", PList [PDict [("status", PStr "success")]])] in
  let w' := snd (check_vp_order demo_cfg (scripted [ok_json (PDict reply)])
                   demo_py demo_vp_order (world0 demo_db)) in
  option_map vp_status (getOrderIdVP (db w') (PStr "T1"))
  = Some (PStr "success").
Proof.
  intros reply w'. unfold w'.
  destruct (@accepted_status_is_written demo_cfg
              (scripted [ok_json (PDict reply)]) demo_py (world0 demo_db)
              reply (PBool true) (PStr "success") eq_refl eq_refl)
    as (Hvp & _).
  rewrite (Hvp demo_vp_order (PDict [("status", PStr "success")]) []
             eq_refl eq_refl eq_refl eq_refl eq_refl).
  reflexivity.
Defined.

Lemma moogold_check_persists_completed_only_witness :
  let reply := [("order_status", PStr "completed")] in
  let w' := snd (check_mg_order demo_cfg (scripted [ok_json (PDict reply)])
                   demo_py demo_mg_order (world0 demo_db)) in
  option_map vp_status (getOrderIdMG (db w') (PStr "MG-9"))
  = Some (PStr "completed").
Proof.
  intros reply w'. unfold w'.
  destruct (@moogold_check_persists_completed_only demo_cfg
              (scripted [ok_json (PDict reply)]) demo_py (world0 demo_db)
              demo_mg_order reply (PStr "completed") eq_refl eq_refl eq_refl)
    as (_ & Hdone).
  rewrite (Hdone eq_refl eq_refl eq_refl). reflexivity.
Defined.

(** X16: a VIPayment answer without a usable status is skipped.  When
    the check is answered with status 200 and an object whose [result] is
    true, the order is left as it was in each of these cases: [data] is
    absent or is not a list (the sweep's "Invalid order data" branch);
    [data] is the empty list, where the status is looked up in an empty
    dict; the first element of [data] has no [status] or is not an
    object.  In the last two the [KeyError] or [TypeError] is caught by
    the order's [except]. *)
Theorem unusable_vipayment_answer_is_skipped
    (cfg : Config) (env : Env) (py : PyLib) (w : World)
    (kv : list (string * pyval)) (v : pyval) (vp_order : BaseOrderVP) :
  http env (posts w) = Reply 200 (Some (PDict kv)) ->
  dict_get "result" kv = Some v -> py_eq_true v = true ->
  dict_get "data" kv = None \/
  (exists d, dict_get "data" kv = Some d /\ py_is_list d = false) \/
  dict_get "data" kv = Some (PList []) \/
  (exists item rest e,
      dict_get "data" kv = Some (PList (item :: rest)) /\
      py_getitem item "status" = Raise e) ->
  check_vp_order cfg env py vp_order w
  = (Val tt,
     mkWorld (db w)
       (trace w ++ [AdapterCall VIPayment Check; HttpPost VIPayment Check])
       (S (posts w)) (ids w)).
Proof.
  intros Hh Hr Ht Hcases.
  pose proof (eq_true_is_truthy _ Ht) as Htruthy.
  unfold check_vp_order, ServiceVIPayment_check_order,
    request_checking_order_vp, vp_new_status, py_dumps.
  mstep. rewrite Hh.
  destruct Hcases as [Hd | [(d & Hd & Hl) | [Hd | (item & rest & e & Hd & Hs)]]].
  - repeat (progress (pystep; rewrite ?Hr, ?Ht, ?Htruthy, ?Hd)).
    rewrite app_two. reflexivity.
  - repeat (progress (mstep; cbn [py_getitem py_get py_get_default];
                      rewrite ?Hr, ?Ht, ?Htruthy, ?Hd, ?Hl)).
    rewrite app_two. reflexivity.
  - repeat (progress (pystep; rewrite ?Hr, ?Ht, ?Htruthy, ?Hd)).
    cbn [dict_get]. pystep. rewrite app_two. reflexivity.
  - repeat (progress (pystep; rewrite ?Hr, ?Ht, ?Htruthy, ?Hd, ?Hs)).
    rewrite app_two. reflexivity.
Qed.

Lemma unusable_vipayment_answer_is_skipped_witness :
  let reply := [("result", PBool true); ("data", PList [])] in
  db (snd (check_vp_order demo_cfg (scripted [ok_json (PDict reply)]) demo_py
             demo_vp_order (world0 demo_db)))
  = demo_db.
Proof.
  intros reply.
  rewrite (@unusable_vipayment_answer_is_skipped demo_cfg
             (scripted [ok_json (PDict reply)]) demo_py (world0 demo_db)
             reply (PBool true) demo_vp_order eq_refl eq_refl eq_refl).
  - reflexivity.
  - right. right. left. reflexivity.
Defined.

(* ================================================================= *)
(** ** More on the endpoint *)

(** X17: a request that is refused has no effect.  Whenever the
    endpoint answers with status 400, or with the message "request data"
    of its outer [except], the world is the one it found: nothing was
    sent to the operators, no adapter was called, nothing was posted or
    stored.  For every body, decodable or not. *)
Theorem refused_request_has_no_effect
    (cfg : Config) (env : Env) (py : PyLib) (body : option pyval)
    (w w' : World) (code : Z) (content : pyval) :
  skyshop_api cfg env py body w = (Val (PJSONResponse code content), w') ->
  code = 400 \/ py_getitem content "message" = Val (PStr "request data") ->
  w' = w.
Proof.
  intros H Hrefused.
  unfold skyshop_api, JSONResponse in H.
  crunch H; inversion H; subst; try reflexivity;
    destruct Hrefused as [Hc | Hm]; try discriminate;
    simpl in Hm; discriminate.
Qed.

Lemma refused_request_has_no_effect_witness :
  snd (skyshop_api demo_cfg (scripted []) demo_py (Some (PList []))
         (world0 demo_db))
  = world0 demo_db.
Proof.
  apply (@refused_request_has_no_effect demo_cfg (scripted []) demo_py
           (Some (PList [])) (world0 demo_db)
           (snd (skyshop_api demo_cfg (scripted []) demo_py (Some (PList []))
                   (world0 demo_db)))
           500
           (PDict [("status", PStr "error"); ("message", PStr "request data");
                   ("data", PStr "object has no attribute 'get'")])).
  - reflexivity.
  - right. reflexivity.
Defined.

(** X18: a complete request is handed to order creation and its result
    wrapped.  For a body without "test" that has [Input], [Zone_ID],
    [Email] and a first product with [name], [quantity] and [price], none
    of them empty, and a name of at least three segments separated by
    "+", the endpoint calls [service_create_order] with the first three
    segments as service code, product code and product name, and the
    world it leaves is the one that call leaves.  When the result can
    be rendered the answer is 200 "order created" with it as data; when
    it cannot (a result that holds a response object, or a float that is
    not a number of JSON) the answer is 500 "create order" with the text
    of the exception. *)
Theorem complete_request_reaches_order_creation
    (cfg : Config) (env : Env) (py : PyLib) (w w1 : World)
    (kv : list (string * pyval))
    (user_id zone_id email payment first quantity price r : pyval)
    (more : list pyval) (name service_code product_code product_name : string)
    (extra : list string) :
  dict_get "test" kv = None ->
  dict_get "Input" kv = Some user_id ->
  dict_get "Zone_ID" kv = Some zone_id ->
  dict_get "Email" kv = Some email ->
  py_all [user_id; zone_id; email] = true ->
  dict_get "payment" kv = Some payment ->
  py_get_default payment "products" (PList []) = Val (PList (first :: more)) ->
  py_get first "name" = Val (PStr name) ->
  py_get first "quantity" = Val quantity ->
  py_get first "price" = Val price ->
  py_all [PStr name; quantity; price] = true ->
  split_on "+" name = service_code :: product_code :: product_name :: extra ->
  service_create_order cfg env py (PStr service_code) (PStr product_code)
    user_id zone_id email quantity price (PStr product_name) w
  = (Val r, w1) ->
  skyshop_api cfg env py (Some (PDict kv)) w
  = (Val (match render_error r with
          | None =>
              PJSONResponse 200
                (PDict [("status", PStr "success");
                        ("message", PStr "order created");
                        ("data", r)])
          | Some error =>
              PJSONResponse 500
                (PDict [("status", PStr "error");
                        ("message", PStr "create order");
                        ("data", PStr (exn_str py error))])
          end),
     w1).
Proof.
  intros Htest Hu Hz He Hall Hp Hprod Hn Hq Hpr Hall2 Hsplit Hcreate.
  unfold skyshop_api, JSONResponse, py_split_plus, response_json, py_get.
  mstep. cbn [py_contains py_getitem py_get_default].
  rewrite Htest. mstep. rewrite Hu, Hz, He. mstep. rewrite Hall.
  cbn [negb py_getitem]. rewrite Hp. mstep. rewrite Hprod. mstep.
  cbn [py_truthy negb py_first]. mstep.
  unfold py_get in Hn, Hq, Hpr.
  rewrite Hn. mstep. rewrite Hq. mstep. rewrite Hpr. mstep.
  rewrite Hall2. cbn [negb]. mstep. rewrite Hsplit. mstep. rewrite Hcreate.
  mstep. destruct (render_error r); reflexivity.
Qed.

Lemma complete_request_reaches_order_creation_witness :
  let reply := PDict [("status", PBool true);
                      ("account_details", PDict [("order_id", PStr "MG-9")])] in
  let product := PDict [("name", PStr "MG+123+Gift Card");
                        ("quantity", PInt 1); ("price", PStr "10.00")] in
  let body := [("Input", PStr "u1"); ("Zone_ID", PStr "z1");
               ("Email", PStr "e@x.com");
               ("payment", PDict [("products", PList [product])])] in
  exists r,
    fst (service_create_order demo_cfg (scripted [ok_json reply]) demo_py
           (PStr "MG") (PStr "123") (PStr "u1") (PStr "z1") (PStr "e@x.com")
           (PInt 1) (PStr "10.00") (PStr "Gift Card") (world0 empty_db))
    = Val r /\
    render_error r = None /\
    fst (skyshop_api demo_cfg (scripted [ok_json reply]) demo_py
           (Some (PDict body)) (world0 empty_db))
    = Val (PJSONResponse 200
             (PDict [("status", PStr "success");
                     ("message", PStr "order created");
                     ("data", r)])).
Proof.
  intros reply product body.
  destruct (service_create_order demo_cfg (scripted [ok_json reply]) demo_py
              (PStr "MG") (PStr "123") (PStr "u1") (PStr "z1")
              (PStr "e@x.com") (PInt 1) (PStr "10.00") (PStr "Gift Card")
              (world0 empty_db)) as [[r|e] w1] eqn:Hcreate;
    [| vm_compute in Hcreate; discriminate].
  exists r. split; [reflexivity|].
  assert (Hser : render_error r = None)
    by (vm_compute in Hcreate; inversion Hcreate; reflexivity).
  split; [exact Hser|].
  rewrite (@complete_request_reaches_order_creation demo_cfg
             (scripted [ok_json reply]) demo_py (world0 empty_db) w1
             body (PStr "u1") (PStr "z1") (PStr "e@x.com")
             (PDict [("products", PList [product])]) product (PInt 1)
             (PStr "10.00") r [] "MG+123+Gift Card" "MG" "123"
             "Gift Card" []
             eq_refl eq_refl eq_refl eq_refl eq_refl eq_refl eq_refl eq_refl
             eq_refl eq_refl eq_refl eq_refl Hcreate).
  rewrite Hser. reflexivity.
Defined.

(** ** Product names *)

Lemma split_on_nonempty (sep : ascii) (s : string) : split_on sep s <> [].
Proof.
  destruct s as [|c s]; simpl; [discriminate|].
  destruct (Ascii.eqb c sep); [discriminate|].
  destruct (split_on sep s); discriminate.
Qed.

(** X19: splitting a product name loses nothing.  Joining the segments
    of [name.split("+")] with "+" gives the name back, and there is always
    at least one segment: the service code, product code and product name
    that the endpoint takes are pieces of the name, in order, with
    nothing added or reordered. *)
Theorem split_then_join_is_identity (sep : ascii) (s : string) :
  String.concat (String sep EmptyString) (split_on sep s) = s /\
  (1 <= List.length (split_on sep s))%nat.
Proof.
  split.
  - induction s as [|c s IH]; simpl; [reflexivity|].
    pose proof (split_on_nonempty sep s) as Hne.
    destruct (Ascii.eqb c sep) eqn:E.
    + apply Ascii.eqb_eq in E. subst c.
      destruct (split_on sep s) as [|x l]; [contradiction|].
      change (String.concat (String sep "") ("" :: x :: l))
        with (String sep (String.concat (String sep "") (x :: l))).
      rewrite IH. reflexivity.
    + destruct (split_on sep s) as [|x l]; [contradiction|].
      destruct l as [|y l].
      * simpl in *. rewrite IH. reflexivity.
      * change (String.concat (String sep "") (String c x :: y :: l))
          with (String c (String.concat (String sep "") (x :: y :: l))).
        rewrite IH. reflexivity.
  - pose proof (split_on_nonempty sep s) as Hne.
    destruct (split_on sep s); [contradiction | simpl; lia].
Qed.

Lemma split_on_prefix (sep : ascii) (a rest : string) :
  has_char sep a = false ->
  split_on sep (a ++ String sep rest) = a :: split_on sep rest.
Proof.
  induction a as [|c a IH]; simpl.
  - intros _. rewrite Ascii.eqb_refl. reflexivity.
  - destruct (Ascii.eqb c sep); simpl; [discriminate|].
    intros H. rewrite (IH H). reflexivity.
Qed.

(** X20: a product name is cut at its first two separators.  When
    neither [a] nor [b] holds a "+", the split of [a+b+rest] starts with
    [a] and [b] and goes on with the split of [rest]: the service code is
    what stands before the first "+", the product code what stands
    between the first and the second, and the product name the next
    segment, whatever follows a third "+" being dropped. *)
Theorem product_name_is_cut_at_its_first_separators (a b rest : string) :
  has_char "+" a = false ->
  has_char "+" b = false ->
  split_on "+" (a ++ "+" ++ b ++ "+" ++ rest) = a :: b :: split_on "+" rest.
Proof.
  intros Ha Hb.
  change (a ++ "+" ++ b ++ "+" ++ rest)%string
    with (a ++ String "+" (b ++ String "+" rest))%string.
  rewrite (@split_on_prefix _ _ _ Ha), (@split_on_prefix _ _ _ Hb).
  reflexivity.
Qed.

Lemma product_name_is_cut_at_its_first_separators_witness :
  split_on "+" "MG+123+Gift Card+x" = ["MG"; "123"; "Gift Card"; "x"]%string.
Proof.
  exact (@product_name_is_cut_at_its_first_separators "MG" "123"
           "Gift Card+x" eq_refl eq_refl).
Defined.

(* ================================================================= *)
(** ** One request, one order at most *)

(** From [w] to [w']: nothing stored, or one POST and one more order. *)
Lemma one_order_after_notice (w w2 w' : World) :
  db w2 = db w -> posts w2 = posts w ->
  (db w' = db w2 /\ (posts w' <= S (posts w2))%nat) \/
  (total_count (db w') = S (total_count (db w2)) /\ posts w' = S (posts w2)) ->
  (db w' = db w /\ (posts w' <= S (posts w))%nat) \/
  (total_count (db w') = S (total_count (db w)) /\ posts w' = S (posts w)).
Proof. intros -> ->. exact (fun H => H). Qed.

Lemma total_count_create (d : Database)
    (user_id zone_id quantity price product api_name order_id message_id
       email_user status order_details : pyval) :
  total_count (createOrderVP d user_id zone_id quantity price product
                 api_name order_id email_user status order_details)
  = S (total_count d) /\
  total_count (createOrderMG d user_id zone_id quantity price product
                 api_name order_id email_user status order_details)
  = S (total_count d) /\
  total_count (createOrderJM d user_id zone_id quantity price product
                 api_name order_id message_id email_user status order_details)
  = S (total_count d).
Proof.
  unfold total_count, getCountOrderVP, getCountOrderMG, getCountOrderJM.
  unfold BaseOrderMG. simpl. rewrite !length_app. simpl.
  split; [|split]; lia.
Qed.

Ltac one_order H :=
  crunch H; inversion H; subst; cbn [db posts];
  first [ left; split; [reflexivity | lia]
        | right; split;
          [ first [ apply total_count_create with (message_id := PNone)
                  | apply total_count_create ]
          | reflexivity ] ].

Lemma adapters_store_at_most_one_order (env : Env) (py : PyLib)
    (service user_id zone_id email quantity price product : pyval)
    (w : World) :
  let at_most_one (w' : World) :=
    (db w' = db w /\ (posts w' <= S (posts w))%nat) \/
    (total_count (db w') = S (total_count (db w)) /\ posts w' = S (posts w)) in
  at_most_one (snd (ServiceVIPayment_create_order env py service user_id
                      zone_id email quantity price product w)) /\
  at_most_one (snd (ServiceMoogold_create_order env py service user_id
                      zone_id email quantity price product w)) /\
  at_most_one (snd (ServiceJollymax_create_order env py service user_id
                      zone_id email quantity price product w)).
Proof.
  intros at_most_one. unfold at_most_one. split; [|split].
  - destruct (ServiceVIPayment_create_order env py service user_id zone_id
                email quantity price product w) as [r w'] eqn:H.
    unfold ServiceVIPayment_create_order, request_creating_order_vp,
      py_dumps in H.
    cbn [snd]. one_order H.
  - destruct (ServiceMoogold_create_order env py service user_id zone_id
                email quantity price product w) as [r w'] eqn:H.
    unfold ServiceMoogold_create_order, request_creating_order_mg,
      py_dumps in H.
    cbn [snd]. one_order H.
  - destruct (ServiceJollymax_create_order env py service user_id zone_id
                email quantity price product w) as [r w'] eqn:H.
    unfold ServiceJollymax_create_order, request_creating_order_jm,
      generate_unique_id, generate_signature, py_dumps in H.
    cbn [snd]. one_order H.
Qed.

Ltac after_notice E adapter :=
  unfold bind at 1 in E; rewrite send_message_order_run in E;
  match type of E with
  | context [adapter ?en ?lib ?s ?u ?z ?m ?q ?p ?n ?w2] =>
      let Had := fresh "Had" in
      pose proof (adapters_store_at_most_one_order en lib s u z m q p n w2)
        as Had;
      cbv zeta in Had;
      destruct (adapter en lib s u z m q p n w2) as [[? | ?] ?];
      cbn [snd db posts] in Had; mstep; inversion E; subst;
      apply Had
  end.

Lemma order_creation_stores_at_most_one_order
    (cfg : Config) (env : Env) (py : PyLib)
    (service_code product_code user_id zone_id email quantity price
       product_name : pyval) (r : res pyval) (w w1 : World) :
  service_create_order cfg env py service_code product_code user_id zone_id
    email quantity price product_name w = (r, w1) ->
  (db w1 = db w /\ (posts w1 <= S (posts w))%nat) \/
  (total_count (db w1) = S (total_count (db w)) /\ posts w1 = S (posts w)).
Proof.
  intros E.
  unfold service_create_order, JSONResponse, try_except in E.
  destruct (py_eq_str service_code "VP");
    [|destruct (py_eq_str service_code "MG");
      [|destruct (py_eq_str service_code "JM")]].
  - after_notice E ServiceVIPayment_create_order.
  - after_notice E ServiceMoogold_create_order.
  - after_notice E ServiceJollymax_create_order.
  - mstep. inversion E; subst. left. split; [reflexivity | lia].
Qed.

(** X21: one request stores one order at most, after one POST.
    Whatever the body and whatever the providers answer, a call of the
    endpoint either leaves the store as it found it, having sent at most
    one POST, or has sent exactly one POST and raised the total that the
    statistics show by exactly one. *)
Theorem request_stores_at_most_one_order
    (cfg : Config) (env : Env) (py : PyLib) (body : option pyval) (w : World) :
  let w' := snd (skyshop_api cfg env py body w) in
  (db w' = db w /\ (posts w' <= S (posts w))%nat) \/
  (total_count (db w') = S (total_count (db w)) /\ posts w' = S (posts w)).
Proof.
  intros w'. unfold w'.
  destruct (skyshop_api cfg env py body w) as [r w1] eqn:H.
  unfold skyshop_api, JSONResponse in H. cbn [snd].
  crunch H; inversion H; subst;
    try (left; split; [reflexivity | lia]);
    eapply order_creation_stores_at_most_one_order; eassumption.
Qed.

(* ================================================================= *)
(** ** Long messages *)

Lemma str_take_drop (k : nat) (s : string) :
  (str_take k s ++ str_drop k s)%string = s.
Proof.
  revert s. induction k as [|k IH]; intros [|c s]; simpl; try reflexivity.
  rewrite IH. reflexivity.
Qed.

Lemma str_take_length (k : nat) (s : string) :
  String.length (str_take k s) = Nat.min k (String.length s).
Proof.
  revert s. induction k as [|k IH]; intros [|c s]; simpl; try reflexivity.
  rewrite IH. reflexivity.
Qed.

Lemma str_drop_length (k : nat) (s : string) :
  String.length (str_drop k s) = (String.length s - k)%nat.
Proof.
  revert s. induction k as [|k IH]; intros [|c s]; simpl; try reflexivity.
  apply IH.
Qed.

Lemma concat_no_separator (part : string) (parts : list string) :
  String.concat "" (part :: parts) = (part ++ String.concat "" parts)%string.
Proof.
  destruct parts as [|p ps]; simpl; [|reflexivity].
  induction part as [|c part IH]; simpl; [reflexivity|].
  rewrite <- IH. reflexivity.
Qed.

Lemma slice_index_positive (n : Z) (s : string) :
  (0 < n)%Z -> (1 <= String.length s)%nat ->
  (1 <= slice_index n s)%nat /\
  (slice_index n s <= String.length s)%nat /\
  (Z.of_nat (slice_index n s) <= n)%Z.
Proof.
  intros Hn Hs. unfold slice_index.
  destruct (n <? 0)%Z eqn:E; [apply Z.ltb_lt in E; lia|]. lia.
Qed.

Lemma slice_index_not_positive (n : Z) (s : string) :
  (n <= 0)%Z -> (1 <= String.length s)%nat ->
  (slice_index n s < String.length s)%nat.
Proof.
  intros Hn Hs. unfold slice_index.
  destruct (n <? 0)%Z eqn:E; lia.
Qed.

(** X22: a long message is sent whole, in parts that fit.  With a
    positive [max_length] and deliveries that succeed, the loop ends
    after at most one pass per character; the parts handed to
    [bot.send_message], put end to end, are the text; none of them is
    empty and none is longer than [max_length]. *)
Theorem long_message_is_sent_whole
    (fuel : nat) (bot_send : nat -> pyval -> string -> res unit)
    (chat_id : pyval) (text : string) (max_length : Z) :
  (0 < max_length)%Z ->
  (forall k part, bot_send k chat_id part = Val tt) ->
  (String.length text < fuel)%nat ->
  exists parts,
    send_large_message fuel bot_send chat_id text max_length
    = (Some (Val tt), parts) /\
    String.concat "" parts = text /\
    Forall (fun part =>
              (1 <= String.length part)%nat /\
              (Z.of_nat (String.length part) <= max_length)%Z) parts.
Proof.
  intros Hmax. revert bot_send text.
  induction fuel as [|fuel IH]; intros bot_send text Hsend Hfuel; [lia|].
  destruct text as [|c text].
  - exists []. repeat split; constructor.
  - cbn [send_large_message]. rewrite Hsend.
    destruct (@slice_index_positive max_length (String c text) Hmax)
      as (H1 & H2 & H3); [simpl; lia|].
    destruct (IH (fun k => bot_send (S k))
                (py_slice_from (String c text) max_length))
      as (parts & Hrun & Hcat & Hall).
    + intros k part. apply Hsend.
    + unfold py_slice_from. rewrite str_drop_length.
      cbn [String.length] in *. lia.
    + rewrite Hrun. cbn [fst snd].
      exists (py_slice_to (String c text) max_length :: parts).
      split; [reflexivity|]. split.
      * rewrite concat_no_separator, Hcat. apply str_take_drop.
      * constructor; [|exact Hall].
        unfold py_slice_to. rewrite str_take_length. lia.
Qed.

Lemma long_message_is_sent_whole_witness :
  exists parts,
    send_large_message 6 (fun _ _ _ => Val tt) (PInt 7) "abcde" 2
    = (Some (Val tt), parts) /\
    String.concat "" parts = "abcde"%string /\
    Forall (fun part =>
              (1 <= String.length part)%nat /\
              (Z.of_nat (String.length part) <= 2)%Z) parts.
Proof.
  exact (@long_message_is_sent_whole 6 (fun _ _ _ => Val tt) (PInt 7)
           "abcde" 2 eq_refl (fun _ _ => eq_refl) (le_n 6)).
Defined.

(** X23: a [max_length] that is not positive never gets through.  With
    [max_length] zero or negative and a text that is not empty, the call
    does not return, whatever the fuel: the slice that is kept never
    becomes empty, so the loop goes on until a delivery raises, and
    without a delivery that raises it goes on for ever. *)
Theorem message_with_no_room_is_never_finished
    (fuel : nat) (bot_send : nat -> pyval -> string -> res unit)
    (chat_id : pyval) (text : string) (max_length : Z) :
  (max_length <= 0)%Z ->
  text <> EmptyString ->
  fst (send_large_message fuel bot_send chat_id text max_length)
  <> Some (Val tt) /\
  ((forall k part, bot_send k chat_id part = Val tt) ->
   fst (send_large_message fuel bot_send chat_id text max_length) = None /\
   List.length (snd (send_large_message fuel bot_send chat_id text
                       max_length)) = fuel).
Proof.
  intros Hmax. revert bot_send text.
  induction fuel as [|fuel IH]; intros bot_send text Htext.
  - split; [discriminate|]. intros _. split; reflexivity.
  - destruct text as [|c text]; [contradiction|].
    cbn [send_large_message].
    assert (Hrest : py_slice_from (String c text) max_length <> EmptyString).
    { intros Hempty.
      assert (Hlt : (slice_index max_length (String c text)
                     < String.length (String c text))%nat)
        by (apply slice_index_not_positive; [exact Hmax | simpl; lia]).
      pose proof (str_drop_length (slice_index max_length (String c text))
                    (String c text)) as Hlen.
      unfold py_slice_from in Hempty. rewrite Hempty in Hlen.
      cbn [String.length] in Hlen, Hlt. lia. }
    destruct (IH (fun k => bot_send (S k)) _ Hrest) as (Hnot & Hloop).
    split.
    + destruct (bot_send 0%nat chat_id _); [exact Hnot | discriminate].
    + intros Hsend. rewrite Hsend. cbn [fst snd].
      destruct Hloop as (Hnone & Hcount); [intros; apply Hsend|].
      split; [exact Hnone | simpl; rewrite Hcount; reflexivity].
Qed.

Lemma message_with_no_room_is_never_finished_witness :
  fst (send_large_message 50 (fun _ _ _ => Val tt) (PInt 7) "abc" 0) = None /\
  fst (send_large_message 50 (fun _ _ _ => Val tt) (PInt 7) "abc" (-1)) = None.
Proof.
  split.
  - apply (@message_with_no_room_is_never_finished 50 (fun _ _ _ => Val tt)
             (PInt 7) "abc" 0); [discriminate | discriminate | reflexivity].
  - apply (@message_with_no_room_is_never_finished 50 (fun _ _ _ => Val tt)
             (PInt 7) "abc" (-1)); [discriminate | discriminate | reflexivity].
Defined.

(* ================================================================= *)
(** ** The balance of Jollymax *)

(** X24: the balance is shown exactly when the query is accepted.  The
    handler answers with a balance if and only if the key file could be
    read and the POST gave status 200 with a JSON body whose [code] is
    "APPLY_SUCCESS" and whose [data] is an object; the balance shown is
    the [balance] of that object, [None] when it has none. *)
Theorem balance_is_shown_exactly_on_success
    (py : PyLib) (key_ok : bool) (reply : http_reply) (jm_balance : pyval) :
  handle_req_balance py key_ok reply = BalanceShown jm_balance <->
  key_ok = true /\
  exists data code inner,
    reply = Reply 200 (Some data) /\
    py_getitem data "code" = Val code /\
    py_eq_str code "APPLY_SUCCESS" = true /\
    py_getitem data "data" = Val inner /\
    py_get inner "balance" = Val jm_balance.
Proof.
  split.
  - intros H.
    unfold handle_req_balance, balance_query, request_get_balance, res_try,
      request_failed, dict in H.
    destruct key_ok; [|discriminate]. split; [reflexivity|].
    destruct reply as [msg | status_code [data|]]; cbn in H;
      try discriminate.
    + destruct (status_code =? 200)%Z eqn:Hcode; cbn in H;
        [|discriminate].
      apply Z.eqb_eq in Hcode. subst status_code.
      destruct (py_getitem data "code") as [code|] eqn:Hc; cbn in H;
        [|discriminate].
      destruct (py_eq_str code "APPLY_SUCCESS") eqn:Hok; cbn in H;
        [|discriminate].
      destruct (py_getitem data "data") as [inner|] eqn:Hd; cbn in H;
        [|discriminate].
      destruct (py_get inner "balance") as [b|] eqn:Hb; cbn in H;
        [|discriminate].
      inversion H; subst. exists data, code, inner. auto.
    + destruct (status_code =? 200)%Z; cbn in H; discriminate.
  - intros (-> & data & code & inner & -> & Hc & Hok & Hd & Hb).
    unfold handle_req_balance, balance_query, request_get_balance, res_try.
    cbn. rewrite Hc. cbn. rewrite Hok, Hd. cbn. rewrite Hb. reflexivity.
Qed.

(** X25: a balance query that fails hides its cause.  When the key file
    can be read, whatever goes wrong afterwards (no connection, a status
    other than 200, a body that is not JSON or lacks [code] or [data], a
    code other than "APPLY_SUCCESS") reaches the operator as the same
    error, the missing key ['jm_balance'] of the result, not as the
    reason that the result carries; when the key file cannot be read the
    error of the file is shown. *)
Theorem failed_balance_query_hides_its_cause
    (py : PyLib) (key_ok : bool) (reply : http_reply) (error : exn) :
  handle_req_balance py key_ok reply = ErrorShown error ->
  error = (if key_ok then KeyError "jm_balance"
           else OSError "private.key.pem").
Proof.
  intros H.
  unfold handle_req_balance, balance_query, request_get_balance, res_try,
    request_failed, dict in H.
  destruct key_ok; [|cbn in H; inversion H; reflexivity].
  destruct reply as [msg | status_code [data|]]; cbn in H.
  - inversion H; reflexivity.
  - destruct (status_code =? 200)%Z; cbn in H; [|inversion H; reflexivity].
    destruct (py_getitem data "code") as [code|]; cbn in H;
      [|inversion H; reflexivity].
    destruct (py_eq_str code "APPLY_SUCCESS"); cbn in H;
      [|inversion H; reflexivity].
    destruct (py_getitem data "data") as [inner|]; cbn in H;
      [|inversion H; reflexivity].
    destruct (py_get inner "balance") as [b|]; cbn in H;
      [discriminate | inversion H; reflexivity].
  - destruct (status_code =? 200)%Z; cbn in H; inversion H; reflexivity.
Qed.

Lemma failed_balance_query_hides_its_cause_witness :
  exists error,
    handle_req_balance demo_py true (Reply 503 None) = ErrorShown error /\
    error = KeyError "jm_balance".
Proof.
  exists (KeyError "jm_balance"). split; [reflexivity|].
  exact (@failed_balance_query_hides_its_cause demo_py true (Reply 503 None)
           (KeyError "jm_balance") eq_refl).
Defined.
